(** * Claude Chat History Viewer: the browser-side filter, histogram and
      chat-detail logic, embedded from [public/js/time-slider.js],
      [public/js/explorer.js] and the detail-panel explorer script.

    Conventions of the embedding.
    - A JavaScript [Date] is its time value: [Some t] with [t] the number of
      milliseconds since the epoch (UTC), or [None] for an Invalid Date
      (time value NaN).  Time values are unbounded integers.
    - The browser's time zone is a [Zone]: the offset of local time from
      UTC, in milliseconds, as a function of the instant and as a function
      of the local time, so that clock changes are covered.  A number [tz]
      where a zone is expected stands for [fixed tz], the zone whose offset
      is always [tz] minutes east of UTC ([getTimezoneOffset() = - tz]).
    - A text is a [string] holding its UTF-8 bytes; on well-formed texts
      equality and [includes] come out as on JavaScript's code units.
    - [String.prototype.toLowerCase] is a parameter [toLowerCase] of the
      development; [toLowerCaseASCII], which folds the letters A to Z only,
      is used in the examples.
    - [new Date(string)] is a parameter [parse] of the development; the
      concrete reader [parseISO] of the ISO forms is used in the examples.
    - The text [d.toISOString().split('T')[0]] is represented by the number
      of the UTC calendar day it denotes (days since 1970-01-01);
      [isoDateString] prints that day as YYYY-MM-DD.
    - [null] and [undefined] are [None]. *)

From stdpp Require Import base option list strings gmap.
From Stdlib Require Import ZArith Lia Ascii Sorted.

Open Scope Z_scope.

(** ** Dates *)

Module JSDate.

Definition msPerDay : Z := 1000 * 60 * 60 * 24.

(** Day of the proleptic Gregorian calendar date y-m-d, counted from
    1970-01-01. *)
Definition days_from_civil (y m d : Z) : Z :=
  let y' := if m <=? 2 then y - 1 else y in
  let era := y' / 400 in
  let yoe := y' - era * 400 in
  let mp := if 2 <? m then m - 3 else m + 9 in
  let doy := (153 * mp + 2) / 5 + d - 1 in
  let doe := yoe * 365 + yoe / 4 - yoe / 100 + doy in
  era * 146097 + doe - 719468.

(** The calendar date (year, month, day) of a day number. *)
Definition civil_from_days (n : Z) : Z * Z * Z :=
  let z := n + 719468 in
  let era := z / 146097 in
  let doe := z - era * 146097 in
  let yoe := (doe - doe / 1460 + doe / 36524 - doe / 146096) / 365 in
  let doy := doe - (365 * yoe + yoe / 4 - yoe / 100) in
  let mp := (5 * doy + 2) / 153 in
  let d := doy - (153 * mp + 2) / 5 + 1 in
  let m := if mp <? 10 then mp + 3 else mp - 9 in
  let y := yoe + era * 400 in
  (if m <=? 2 then y + 1 else y, m, d).

Definition digitChar (n : Z) : ascii := ascii_of_nat (Z.to_nat (48 + n mod 10)).

Definition pad2 (n : Z) : string :=
  String (digitChar (n / 10)) (String (digitChar n) EmptyString).

Definition pad4 (n : Z) : string :=
  String (digitChar (n / 1000)) (String (digitChar (n / 100)) (pad2 n)).

(** [d.toISOString().split('T')[0]] of the day numbered [n] (years 0 to
    9999). *)
Definition isoDateString (n : Z) : string :=
  let '(y, m, d) := civil_from_days n in
  (pad4 y +:+ "-" +:+ pad2 m +:+ "-" +:+ pad2 d)%string.

Definition digit (c : ascii) : option Z :=
  let n := Z.of_nat (nat_of_ascii c) in
  if (48 <=? n) && (n <=? 57) then Some (n - 48) else None.

Fixpoint number (acc : Z) (cs : list ascii) : option Z :=
  match cs with
  | [] => Some acc
  | c :: cs' => d ← digit c; number (acc * 10 + d) cs'
  end.

Definition daysInMonth (y m : Z) : Z :=
  if m =? 2 then
    if ((y mod 4 =? 0) && negb (y mod 100 =? 0)) || (y mod 400 =? 0) then 29 else 28
  else if (m =? 4) || (m =? 6) || (m =? 9) || (m =? 11) then 30 else 31.

Definition parseDay (cs : list ascii) : option Z :=
  match cs with
  | [y1; y2; y3; y4; "-"%char; m1; m2; "-"%char; d1; d2] =>
      y ← number 0 [y1; y2; y3; y4];
      m ← number 0 [m1; m2];
      d ← number 0 [d1; d2];
      if (1 <=? m) && (m <=? 12) && (1 <=? d) && (d <=? daysInMonth y m)
      then Some (days_from_civil y m d) else None
  | _ => None
  end.

Definition parseClock (cs : list ascii) : option Z :=
  match cs with
  | h1 :: h2 :: ":"%char :: m1 :: m2 :: ":"%char :: s1 :: s2 :: rest =>
      h ← number 0 [h1; h2];
      m ← number 0 [m1; m2];
      s ← number 0 [s1; s2];
      ms ← match rest with
           | ["Z"%char] => Some 0
           | ["."%char; f1; f2; f3; "Z"%char] => number 0 [f1; f2; f3]
           | _ => None
           end;
      if (h <=? 23) && (m <=? 59) && (s <=? 59)
      then Some (((h * 60 + m) * 60 + s) * 1000 + ms) else None
  | _ => None
  end.

(** A reader for the forms [YYYY-MM-DD], [YYYY-MM-DDTHH:MM:SSZ] and
    [YYYY-MM-DDTHH:MM:SS.sssZ] of the ECMAScript date-time string format
    (all three denote UTC instants); every other text is an Invalid
    Date. *)
Definition parseISO (s : string) : option Z :=
  let cs := String.list_ascii_of_string s in
  let dpart := take 10 cs in
  let rest := drop 10 cs in
  n ← parseDay dpart;
  match rest with
  | [] => Some (n * msPerDay)
  | "T"%char :: clock => c ← parseClock clock; Some (n * msPerDay + c)
  | _ => None
  end.

(** A time zone, as ECMAScript's [LocalTZA] has it: [offsetAt t] is the
    offset of local time from UTC, in milliseconds, in force at the
    instant [t]; [offsetOfLocal l] is the offset by which the local time
    [l] is read back as an instant.  Where a clock change skips or repeats
    [l], [offsetOfLocal l] is the offset in force before the change. *)
Record Zone := {
  offsetAt : Z -> Z;
  offsetOfLocal : Z -> Z
}.

(** The zone whose clocks are always [minutes] east of UTC. *)
Definition fixed (minutes : Z) : Zone :=
  {| offsetAt := fun _ => minutes * 60000;
     offsetOfLocal := fun _ => minutes * 60000 |}.

Coercion fixed : Z >-> Zone.

Section Zone.

Variable tz : Zone.

(** [LocalTime(t)]: the local wall-clock reading of the instant [t], as
    a time value. *)
Definition localTime (t : Z) : Z := t + offsetAt tz t.

(** [UTC(l)]: the instant at which the local clocks read [l]. *)
Definition utc (l : Z) : Z := l - offsetOfLocal tz l.

(** [d.setHours(0, 0, 0, 0)]: midnight of the local day of [t]. *)
Definition setHours_0_0_0_0 (t : Z) : Z :=
  utc (localTime t / msPerDay * msPerDay).

(** [d.setHours(23, 59, 59, 999)]: the last millisecond of the local
    day of [t]. *)
Definition setHours_23_59_59_999 (t : Z) : Z :=
  utc (localTime t / msPerDay * msPerDay + (msPerDay - 1)).

(** [d.getDay()]: the local day of the week, 0 for Sunday; the epoch
    was a Thursday. *)
Definition getDay (t : Z) : Z := (localTime t / msPerDay + 4) mod 7.

(** [d.setDate(d.getDate() + n)]: the same local wall-clock time [n]
    days later (earlier for negative [n]). *)
Definition addDays (t n : Z) : Z := utc (localTime t + n * msPerDay).

End Zone.

(** [d.toISOString().split('T')[0]]: the UTC calendar day of [t]. *)
Definition toISODate (t : Z) : Z := t / msPerDay.

(** A nullable [Date]: [None] is [null] or [undefined], [Some None] an
    Invalid Date. *)
Definition DateArg := option (option Z).

End JSDate.

(** ** Strings and elements *)

(** [style.display] of an element; [display_default] is the empty string. *)
Inductive Display := display_default | display_none | display_block
                   | display_inline_block | display_flex.

Module JSString.

Definition lowerChar (c : ascii) : ascii :=
  let n := nat_of_ascii c in
  if (65 <=? n)%nat && (n <=? 90)%nat then ascii_of_nat (n + 32) else c.

Definition upperChar (c : ascii) : ascii :=
  let n := nat_of_ascii c in
  if (97 <=? n)%nat && (n <=? 122)%nat then ascii_of_nat (n - 32) else c.

(** [s.toLowerCase()] where the capitals of [s] are among the letters A
    to Z.  The scripts are embedded over a parameter [toLowerCase]; this
    reading of it serves the examples. *)
Fixpoint toLowerCaseASCII (s : string) : string :=
  match s with
  | EmptyString => EmptyString
  | String c s' => String (lowerChar c) (toLowerCaseASCII s')
  end.

(** What is used of [String.prototype.toLowerCase]: the empty text, and
    no other, has the empty text as its lower case. *)
Record LowerCase := {
  lower :> string -> string;
  lower_empty : forall s, lower s = EmptyString <-> s = EmptyString
}.

(** [toLowerCaseASCII] as such a function. *)
Definition asciiLowerCase : LowerCase :=
  {| lower := toLowerCaseASCII;
     lower_empty :=
       ltac:(intros [|c s']; split; intro H; (reflexivity || discriminate H)) |}.

(** [s.includes(t)] *)
Fixpoint includes (s t : string) : bool :=
  String.prefix t s ||
  match s with
  | EmptyString => false
  | String _ s' => includes s' t
  end.

(** [str ? str.charAt(0).toUpperCase() + str.slice(1) : ''], for a text
    whose first letter, if small, is among a to z (the roles of the
    messages are such). *)
Definition capitalize (str : string) : string :=
  match str with
  | EmptyString => EmptyString
  | String c s' => String (upperChar c) s'
  end.

(** Truth value of a string: the empty string is false. *)
Definition truthy (s : string) : bool := negb (String.eqb s "").

End JSString.

(** ** The time slider ([public/js/time-slider.js]) *)

Module TimeSlider.

Import JSDate.

Inductive Granularity := day | week.

Inductive Metric := conversations_metric | messages_metric.

(** One entry of [window.conversationData]. *)
Record Conversation := {
  conv_project : string;
  conv_date : string;
  conv_messages : option Z
}.

Record Bucket := {
  date : Z;
  key : Z;
  conversations : Z;
  messages : Z;
  granularity : Granularity
}.

(** [bucketMap]: a [Map], which iterates in insertion order. *)
Definition BucketMap := list (Z * Bucket).

Fixpoint map_set (k : Z) (v : Bucket) (m : BucketMap) : BucketMap :=
  match m with
  | [] => [(k, v)]
  | (k', v') :: m' =>
      if k' =? k then (k, v) :: m' else (k', v') :: map_set k v m'
  end.

Fixpoint map_get (k : Z) (m : BucketMap) : option Bucket :=
  match m with
  | [] => None
  | (k', v') :: m' => if k' =? k then Some v' else map_get k m'
  end.

(** [Math.ceil(a / b)] for a positive divisor. *)
Definition ceil_div (a b : Z) : Z := - ((- a) / b).

(** [result.sort((a, b) => a.date - b.date)]; the sort is stable. *)
Fixpoint insert_by_date (b : Bucket) (l : list Bucket) : list Bucket :=
  match l with
  | [] => [b]
  | b' :: l' =>
      if date b <=? date b' then b :: b' :: l' else b' :: insert_by_date b l'
  end.

Definition sort_by_date (l : list Bucket) : list Bucket :=
  foldr insert_by_date [] l.

Section Environment.

(** The browser's zone and [new Date(string)]. *)
Variable tz : Zone.
Variable parse : string -> option Z.

Definition getBucketKey (d : Z) (g : Granularity) : Z :=
  let d :=
    match g with
    | week => addDays tz d (- getDay tz d)
    | day => d
    end in
  toISODate d.

Definition emptyBucket (current : Z) (g : Granularity) : Bucket :=
  {| date := current; key := getBucketKey current g;
     conversations := 0; messages := 0; granularity := g |}.

(** The loop [while (current <= end)] of [createBuckets]; [None] when
    the fuel ends before the loop does. *)
Fixpoint fillBuckets (fuel : nat) (current end_ : Z) (g : Granularity)
    (bucketMap : BucketMap) : option BucketMap :=
  if current <=? end_ then
    match fuel with
    | O => None
    | S fuel' =>
        let bucketMap' :=
          map_set (getBucketKey current g) (emptyBucket current g) bucketMap in
        let current' :=
          match g with
          | week => addDays tz current 7
          | day => addDays tz current 1
          end in
        fillBuckets fuel' current' end_ g bucketMap'
    end
  else Some bucketMap.

(** The body of [conversations.forEach] in [createBuckets]. *)
Definition aggregate (g : Granularity) (bucketMap : BucketMap)
    (conv : Conversation) : BucketMap :=
  match parse (conv_date conv) with
  | None => bucketMap
  | Some d =>
      let k := getBucketKey d g in
      match map_get k bucketMap with
      | Some bucket =>
          map_set k
            {| date := date bucket; key := key bucket;
               conversations := conversations bucket + 1;
               messages := messages bucket + default 0 (conv_messages conv);
               granularity := granularity bucket |}
            bucketMap
      | None => bucketMap
      end
  end.

(** [createBuckets]; the fuel given to the loop is the number of days
    from [start] to [end], which is never too little in a zone with a
    fixed offset ([TimeSliderFacts.fuel_enough]). *)
Definition createBuckets (minDate maxDate : Z) (g : Granularity)
    (convs : list Conversation) : option (list Bucket) :=
  let start := setHours_0_0_0_0 tz minDate in
  let start :=
    match g with
    | week => addDays tz start (- getDay tz start)
    | day => start
    end in
  let end_ := setHours_23_59_59_999 tz maxDate in
  let fuel := Z.to_nat ((end_ - start) / msPerDay + 1) in
  bucketMap ← fillBuckets fuel start end_ g [];
  let bucketMap := foldl (aggregate g) bucketMap convs in
  Some (sort_by_date (snd <$> bucketMap)).

(** [conversations.map(c => new Date(c.date)).filter(d => !isNaN(d))] *)
Definition validDates (convs : list Conversation) : list Z :=
  omap (fun c => parse (conv_date c)) convs.

(** [Math.min(...dates)] and [Math.max(...dates)] of a non-empty list. *)
Definition minimum (d : Z) (ds : list Z) : Z := foldl Z.min d ds.
Definition maximum (d : Z) (ds : list Z) : Z := foldl Z.max d ds.

Definition chooseGranularity (minDate maxDate : Z) : Granularity :=
  let daysDiff := ceil_div (maxDate - minDate) msPerDay in
  if 60 <? daysDiff then week else day.

(** [processData]: the new value of [buckets]. *)
Definition processData (convs : list Conversation) : option (list Bucket) :=
  match convs with
  | [] => Some []
  | _ =>
      match validDates convs with
      | [] => Some []
      | d :: ds =>
          let minDate := minimum d ds in
          let maxDate := maximum d ds in
          createBuckets minDate maxDate (chooseGranularity minDate maxDate) convs
      end
  end.

End Environment.

(** *** Elements of the page the slider writes to *)

(** One rendered [.histogram-bar-container]: its [data-index], and the
    [data-date], [data-conversations], [data-messages] and [selected]
    class of the bar in it.  The bar's height and tooltip are left out. *)
Record Bar := {
  bar_index : Z;
  bar_date : Z;
  bar_conversations : Z;
  bar_messages : Z;
  bar_selected : bool
}.

(** Content of [#histogram-bars] (with the labels written to
    [#time-labels], which the template provides together with it): as
    served, the "No conversation data" notice, or the bars and the dates
    of the labelled buckets. *)
Inductive Histogram :=
| AsServed
| NoData
| Bars (bars : list Bar) (labels : list Z).

(** [#range-display]: its display and text, the formatted date of one
    bucket or of two. *)
Inductive RangeText := no_text | one_date (d : Z) | two_dates (d1 d2 : Z).

(** [#histogram-selection]: [left] is [ov_left] and [width] is [ov_width]
    bar widths, a bar width being [100 / buckets.length] percent. *)
Record Overlay := {
  ov_display : Display;
  ov_left : Z;
  ov_width : Z
}.

Record Dom := {
  histogramBars : option Histogram;
  metricLabel : option string;
  clearRangeBtn : option Display;
  rangeDisplay : option (Display * RangeText);
  histogramSelection : option Overlay
}.

Section Slider.

Variable tz : Zone.
Variable parse : string -> option Z.

(** The state the range-change listener works on. *)
Context {E : Type}.

Definition Callback := DateArg -> DateArg -> E -> E.

(** The variables of the module's closure, its elements and
    [window.conversationData].  ([allBuckets] is declared and never
    used.) *)
Record State := {
  currentMetric : Metric;
  buckets : list Bucket;
  currentFolder : string;
  selectionStart : option Z;
  selectionEnd : option Z;
  isDragging : bool;
  dragStartIndex : option Z;
  onRangeChangeCallback : option Callback;
  dom : Dom;
  conversationData : option (list Conversation)
}.

Definition noDom : Dom :=
  {| histogramBars := None; metricLabel := None; clearRangeBtn := None;
     rangeDisplay := None; histogramSelection := None |}.

(** The closure as the script leaves it before [init]. *)
Definition loaded (data : option (list Conversation)) : State :=
  {| currentMetric := conversations_metric; buckets := [];
     currentFolder := ""; selectionStart := None; selectionEnd := None;
     isDragging := false; dragStartIndex := None;
     onRangeChangeCallback := None; dom := noDom;
     conversationData := data |}.

Definition set_buckets (bs : list Bucket) (st : State) : State :=
  {| currentMetric := currentMetric st; buckets := bs;
     currentFolder := currentFolder st;
     selectionStart := selectionStart st; selectionEnd := selectionEnd st;
     isDragging := isDragging st; dragStartIndex := dragStartIndex st;
     onRangeChangeCallback := onRangeChangeCallback st; dom := dom st;
     conversationData := conversationData st |}.

Definition set_currentFolder (f : string) (st : State) : State :=
  {| currentMetric := currentMetric st; buckets := buckets st;
     currentFolder := f;
     selectionStart := selectionStart st; selectionEnd := selectionEnd st;
     isDragging := isDragging st; dragStartIndex := dragStartIndex st;
     onRangeChangeCallback := onRangeChangeCallback st; dom := dom st;
     conversationData := conversationData st |}.

Definition set_currentMetric (m : Metric) (st : State) : State :=
  {| currentMetric := m; buckets := buckets st;
     currentFolder := currentFolder st;
     selectionStart := selectionStart st; selectionEnd := selectionEnd st;
     isDragging := isDragging st; dragStartIndex := dragStartIndex st;
     onRangeChangeCallback := onRangeChangeCallback st; dom := dom st;
     conversationData := conversationData st |}.

Definition set_selection (s e : option Z) (st : State) : State :=
  {| currentMetric := currentMetric st; buckets := buckets st;
     currentFolder := currentFolder st;
     selectionStart := s; selectionEnd := e;
     isDragging := isDragging st; dragStartIndex := dragStartIndex st;
     onRangeChangeCallback := onRangeChangeCallback st; dom := dom st;
     conversationData := conversationData st |}.

Definition set_drag (dragging : bool) (from : option Z) (st : State) : State :=
  {| currentMetric := currentMetric st; buckets := buckets st;
     currentFolder := currentFolder st;
     selectionStart := selectionStart st; selectionEnd := selectionEnd st;
     isDragging := dragging; dragStartIndex := from;
     onRangeChangeCallback := onRangeChangeCallback st; dom := dom st;
     conversationData := conversationData st |}.

Definition set_callback (cb : option Callback) (st : State) : State :=
  {| currentMetric := currentMetric st; buckets := buckets st;
     currentFolder := currentFolder st;
     selectionStart := selectionStart st; selectionEnd := selectionEnd st;
     isDragging := isDragging st; dragStartIndex := dragStartIndex st;
     onRangeChangeCallback := cb; dom := dom st;
     conversationData := conversationData st |}.

Definition set_dom (d : Dom) (st : State) : State :=
  {| currentMetric := currentMetric st; buckets := buckets st;
     currentFolder := currentFolder st;
     selectionStart := selectionStart st; selectionEnd := selectionEnd st;
     isDragging := isDragging st; dragStartIndex := dragStartIndex st;
     onRangeChangeCallback := onRangeChangeCallback st; dom := d;
     conversationData := conversationData st |}.

Definition set_histogramBars (h : option Histogram) (d : Dom) : Dom :=
  {| histogramBars := h; metricLabel := metricLabel d;
     clearRangeBtn := clearRangeBtn d; rangeDisplay := rangeDisplay d;
     histogramSelection := histogramSelection d |}.

Definition set_metricLabel (l : option string) (d : Dom) : Dom :=
  {| histogramBars := histogramBars d; metricLabel := l;
     clearRangeBtn := clearRangeBtn d; rangeDisplay := rangeDisplay d;
     histogramSelection := histogramSelection d |}.

Definition set_clearRangeBtn (c : option Display) (d : Dom) : Dom :=
  {| histogramBars := histogramBars d; metricLabel := metricLabel d;
     clearRangeBtn := c; rangeDisplay := rangeDisplay d;
     histogramSelection := histogramSelection d |}.

Definition set_rangeDisplay (r : option (Display * RangeText)) (d : Dom) : Dom :=
  {| histogramBars := histogramBars d; metricLabel := metricLabel d;
     clearRangeBtn := clearRangeBtn d; rangeDisplay := r;
     histogramSelection := histogramSelection d |}.

Definition set_histogramSelection (o : option Overlay) (d : Dom) : Dom :=
  {| histogramBars := histogramBars d; metricLabel := metricLabel d;
     clearRangeBtn := clearRangeBtn d; rangeDisplay := rangeDisplay d;
     histogramSelection := o |}.

(** [buckets[i]], [undefined] out of range. *)
Definition bucket_at (bs : list Bucket) (i : Z) : option Bucket :=
  if i <? 0 then None else bs !! Z.to_nat i.

(** [Math.min] and [Math.max] of [selectionStart] and
    [selectionEnd ?? selectionStart], for a non-null [selectionStart]. *)
Definition selectionBounds (s : Z) (e : option Z) : Z * Z :=
  (Z.min s (default s e), Z.max s (default s e)).

Definition isIndexInSelection (st : State) (index : Z) : bool :=
  match selectionStart st with
  | None => false
  | Some s =>
      let '(start, end_) := selectionBounds s (selectionEnd st) in
      (start <=? index) && (index <=? end_)
  end.

Definition updateSelectionOverlay (st : State) : State :=
  match histogramSelection (dom st) with
  | None => st
  | Some ov =>
      match selectionStart st with
      | None =>
          set_dom (set_histogramSelection
                     (Some {| ov_display := display_none;
                              ov_left := ov_left ov; ov_width := ov_width ov |})
                     (dom st)) st
      | Some s =>
          let '(start, end_) := selectionBounds s (selectionEnd st) in
          set_dom (set_histogramSelection
                     (Some {| ov_display := display_block;
                              ov_left := start; ov_width := end_ - start + 1 |})
                     (dom st)) st
      end
  end.

Definition renderBar (st : State) (index : nat) (bucket : Bucket) : Bar :=
  {| bar_index := Z.of_nat index; bar_date := key bucket;
     bar_conversations := conversations bucket;
     bar_messages := messages bucket;
     bar_selected := isIndexInSelection st (Z.of_nat index) |}.

(** The dates of the buckets that get a label. *)
Definition renderLabels (bs : list Bucket) : list Z :=
  let labelInterval := ceil_div (Z.of_nat (length bs)) 8 in
  omap (fun ib : nat * Bucket =>
          let i := Z.of_nat (fst ib) in
          if (i mod labelInterval =? 0) || (i =? Z.of_nat (length bs) - 1)
          then Some (date (snd ib)) else None)
       (imap (fun i b => (i, b)) bs).

Definition render (st : State) : State :=
  match histogramBars (dom st), buckets st with
  | None, _ => st
  | Some _, [] => set_dom (set_histogramBars (Some NoData) (dom st)) st
  | Some _, bs =>
      let st :=
        set_dom (set_histogramBars
                   (Some (Bars (imap (renderBar st) bs) (renderLabels bs)))
                   (dom st)) st in
      updateSelectionOverlay st
  end.

Definition toggleMetric (st : State) : State :=
  let m := match currentMetric st with
           | conversations_metric => messages_metric
           | messages_metric => conversations_metric
           end in
  let st := set_currentMetric m st in
  let st :=
    match metricLabel (dom st) with
    | Some _ =>
        set_dom (set_metricLabel
                   (Some match m with
                         | conversations_metric => "Conversations"%string
                         | messages_metric => "Messages"%string
                         end) (dom st)) st
    | None => st
    end in
  render st.

(** The handlers take the result of [getIndexFromTarget]: the
    [data-index] of the bar under the pointer, or [null]. *)
Definition handleMouseDown (index : option Z) (st : State) : State :=
  match index with
  | None => st
  | Some i =>
      let st := set_drag true (Some i) st in
      let st := set_selection (Some i) (Some i) st in
      render st
  end.

Definition handleMouseMove (index : option Z) (st : State) : State :=
  if isDragging st then
    match index with
    | None => st
    | Some i => render (set_selection (selectionStart st) (Some i) st)
    end
  else st.

Definition updateRangeDisplay (st : State) : State :=
  match rangeDisplay (dom st), selectionStart st with
  | Some _, Some s =>
      let '(start, end_) := selectionBounds s (selectionEnd st) in
      match bucket_at (buckets st) start, bucket_at (buckets st) end_ with
      | Some b1, Some b2 =>
          let text := if start =? end_ then one_date (date b1)
                      else two_dates (date b1) (date b2) in
          set_dom (set_rangeDisplay (Some (display_block, text)) (dom st)) st
      | _, _ => st
      end
  | _, _ => st
  end.

Definition notifyRangeChange (st : State) (w : E) : E :=
  match onRangeChangeCallback st with
  | Some callback =>
      let '(startDate, endDate) :=
        match selectionStart st with
        | Some s =>
            let '(start, end_) := selectionBounds s (selectionEnd st) in
            (date <$> bucket_at (buckets st) start,
             (fun b => setHours_23_59_59_999 tz (date b))
               <$> bucket_at (buckets st) end_)
        | None => (None, None)
        end in
      callback (Some <$> startDate) (Some <$> endDate) w
  | None => w
  end.

Definition showClearRangeBtn (d : Display) (st : State) : State :=
  match clearRangeBtn (dom st) with
  | Some _ => set_dom (set_clearRangeBtn (Some d) (dom st)) st
  | None => st
  end.

Definition hideRangeDisplay (st : State) : State :=
  match rangeDisplay (dom st) with
  | Some (_, text) =>
      set_dom (set_rangeDisplay (Some (display_none, text)) (dom st)) st
  | None => st
  end.

Definition handleMouseUp (st : State) (w : E) : State * E :=
  if isDragging st then
    let st := set_drag false (dragStartIndex st) st in
    match selectionStart st with
    | Some s =>
        let '(start, end_) := selectionBounds s (selectionEnd st) in
        let st := set_selection (Some start) (Some end_) st in
        let st := showClearRangeBtn display_inline_block st in
        let st := updateRangeDisplay st in
        (st, notifyRangeChange st w)
    | None => (st, w)
    end
  else (st, w).

(** The touch handlers find the bar with [document.elementFromPoint]. *)
Definition handleTouchStart (index : option Z) (st : State) : State :=
  handleMouseDown index st.

Definition handleTouchMove (index : option Z) (st : State) : State :=
  handleMouseMove index st.

Definition handleTouchEnd (st : State) (w : E) : State * E :=
  handleMouseUp st w.

Definition clearSelection (st : State) (w : E) : State * E :=
  let st := set_selection None None st in
  let st := showClearRangeBtn display_none st in
  let st := hideRangeDisplay st in
  let st := render st in
  (st, notifyRangeChange st w).

Definition filterByFolder (folder : option string) (st : State) (w : E)
    : option (State * E) :=
  let st := set_currentFolder (default "" folder) st in
  let st := set_selection None None st in
  let st := showClearRangeBtn display_none st in
  let st := hideRangeDisplay st in
  let filteredData := default [] (conversationData st) in
  let filteredData :=
    if String.eqb (currentFolder st) "" then filteredData
    else filter (fun c => conv_project c = currentFolder st) filteredData in
  bs ← processData tz parse filteredData;
  let st := render (set_buckets bs st) in
  Some (st, notifyRangeChange st w).

(** [init], given the elements the page has. *)
Definition init (page : Dom) (st : State) : option State :=
  let st := set_dom page st in
  match histogramBars page, conversationData st with
  | Some _, Some data =>
      bs ← processData tz parse data;
      Some (render (set_buckets bs st))
  | _, _ => Some st
  end.

(** *** The public interface [window.TimeSlider] *)

Definition onRangeChange (callback : Callback) (st : State) : State :=
  set_callback (Some callback) st.

(** [{ startDate, endDate }], or [null]. *)
Definition getSelection (st : State) : option (option Z * option Z) :=
  match selectionStart st with
  | None => None
  | Some s =>
      let '(start, end_) := selectionBounds s (selectionEnd st) in
      Some (date <$> bucket_at (buckets st) start,
            date <$> bucket_at (buckets st) end_)
  end.

(** [buckets.findIndex(b => b.date.getTime() >= time)]; the comparison
    with NaN is false. *)
Definition atOrAfter (time : option Z) (b : Bucket) : bool :=
  match time with
  | Some t => t <=? date b
  | None => false
  end.

Fixpoint findIndexFrom (i : Z) (p : Bucket -> bool) (bs : list Bucket) : Z :=
  match bs with
  | [] => -1
  | b :: bs' => if p b then i else findIndexFrom (i + 1) p bs'
  end.

Definition findIndex (p : Bucket -> bool) (bs : list Bucket) : Z :=
  findIndexFrom 0 p bs.

Definition setSelection (startDate endDate : DateArg) (st : State) (w : E)
    : State * E :=
  match startDate with
  | None => clearSelection st w
  | Some startTime =>
      let endTime := match endDate with
                     | Some t => t
                     | None => startTime
                     end in
      let selStart := findIndex (atOrAfter startTime) (buckets st) in
      let selEnd := findIndex (atOrAfter endTime) (buckets st) in
      let selStart := if selStart =? -1 then 0 else selStart in
      let selEnd :=
        if selEnd =? -1 then Z.of_nat (length (buckets st)) - 1 else selEnd in
      let st := set_selection (Some selStart) (Some selEnd) st in
      let st := showClearRangeBtn display_inline_block st in
      let st := updateRangeDisplay st in
      (render st, w)
  end.

(** The events the slider reacts to and the calls of its interface. *)
Inductive Event :=
| mousedown (index : option Z)
| mousemove (index : option Z)
| mouseup
| mouseleave
| touchstart (index : option Z)
| touchmove (index : option Z)
| touchend
| click_metric_toggle
| click_clear_range
| call_onRangeChange (callback : Callback)
| call_clearSelection
| call_filterByFolder (folder : option string)
| call_getSelection
| call_setSelection (startDate endDate : DateArg).

Definition step (ev : Event) (st : State) (w : E) : option (State * E) :=
  match ev with
  | mousedown i => Some (handleMouseDown i st, w)
  | mousemove i => Some (handleMouseMove i st, w)
  | mouseup | mouseleave => Some (handleMouseUp st w)
  | touchstart i => Some (handleTouchStart i st, w)
  | touchmove i => Some (handleTouchMove i st, w)
  | touchend => Some (handleTouchEnd st w)
  | click_metric_toggle => Some (toggleMetric st, w)
  | click_clear_range | call_clearSelection => Some (clearSelection st w)
  | call_onRangeChange cb => Some (onRangeChange cb st, w)
  | call_filterByFolder folder => filterByFolder folder st w
  | call_getSelection => Some (st, w)
  | call_setSelection s e => Some (setSelection s e st w)
  end.

End Slider.

Arguments Callback : clear implicits.
Arguments State : clear implicits.
Arguments Event : clear implicits.

End TimeSlider.

(** ** The pages of the explorer *)

Module Page.

Import JSDate JSString.

(** A chat card: its [data-*] attributes, the [data-month] of the
    [.month-group] around it, its [style.display] and its [active]
    class. *)
Record Card := {
  project : option string;
  title : option string;
  searchable : option string;
  date : option string;
  warmup : option string;
  projectDir : option string;
  chatId : option string;
  monthGroup : option string;
  card_display : Display;
  card_active : bool
}.

Definition set_card_display (d : Display) (c : Card) : Card :=
  {| project := project c; title := title c; searchable := searchable c;
     date := date c; warmup := warmup c; projectDir := projectDir c;
     chatId := chatId c; monthGroup := monthGroup c;
     card_display := d; card_active := card_active c |}.

Definition set_card_active (a : bool) (c : Card) : Card :=
  {| project := project c; title := title c; searchable := searchable c;
     date := date c; warmup := warmup c; projectDir := projectDir c;
     chatId := chatId c; monthGroup := monthGroup c;
     card_display := card_display c; card_active := a |}.

(** A [.month-group]: its [data-month], its [style.display] and the
    number shown in its [.month-count], when it has one. *)
Record MonthGroup := {
  month : string;
  group_display : Display;
  month_count : option Z
}.

Record Message := {
  role : string;
  timestamp : option string;
  content : option string;
  htmlContent : option string
}.

(** The JSON object served by [/api/chat/:projectDir/:chatId]. *)
Record ChatDetail := {
  chat_title : option string;
  chat_projectName : string;
  chat_messageCount : Z;
  chat_projectDir : string;
  chat_chatId : string;
  chat_messages : list Message
}.

(** What [renderChatDetail] writes for one message. *)
Inductive MessageBody := raw_html (h : string) | escaped (text : string)
                       | no_content.

Record RenderedMessage := {
  msg_id : nat;
  msg_role : string;
  msg_badge : string;
  msg_time : option string;
  msg_body : MessageBody
}.

(** The elements of the detail panel; [#detail-empty] with the text of
    the [.detail-empty-text] in it, when it has one. *)
Record DetailPanel := {
  detailEmpty : option (Display * option string);
  detailContent : option Display;
  detailLoading : option Display;
  detailTitle : option string;
  detailProject : option string;
  detailCount : option Z;
  detailLink : option string;
  detailDownload : option string;
  detailMessages : option (list RenderedMessage)
}.

Definition noDetailPanel : DetailPanel :=
  {| detailEmpty := None; detailContent := None; detailLoading := None;
     detailTitle := None; detailProject := None; detailCount := None;
     detailLink := None; detailDownload := None; detailMessages := None |}.

(** The query parameters of the address. *)
Record Url := {
  url_folder : option string;
  url_chat : option string
}.

(** What [console.error] receives in [selectChat]'s handler. *)
Inductive Error :=
| fetch_failed
| failed_to_load_chat
| json_failed.

(** The variables of the explorer's closure, the elements it works on
    and the browser objects it uses. *)
Record World := {
  currentFolder : string;
  searchTerm : string;
  dateRangeStart : DateArg;
  dateRangeEnd : DateArg;
  selectedChatId : option string;
  chatCache : gmap string ChatDetail;
  ignoreWarmup : bool;
  cards : list Card;
  monthGroups : list MonthGroup;
  visibleCount : option Z;
  emptyState : option Display;
  folderItems : list (string * bool);
  breadcrumb : option string;
  sidebarOpen : bool;
  searchInput : option string;
  panel : DetailPanel;
  location : Url;
  history : list Url;
  innerWidth : Z;
  console : list Error
}.

Definition set_currentFolder (f : string) (w : World) : World :=
  {| currentFolder := f; searchTerm := searchTerm w;
     dateRangeStart := dateRangeStart w; dateRangeEnd := dateRangeEnd w;
     selectedChatId := selectedChatId w; chatCache := chatCache w;
     ignoreWarmup := ignoreWarmup w; cards := cards w;
     monthGroups := monthGroups w; visibleCount := visibleCount w;
     emptyState := emptyState w; folderItems := folderItems w;
     breadcrumb := breadcrumb w; sidebarOpen := sidebarOpen w;
     searchInput := searchInput w; panel := panel w;
     location := location w; history := history w;
     innerWidth := innerWidth w; console := console w |}.

Definition set_searchTerm (t : string) (w : World) : World :=
  {| currentFolder := currentFolder w; searchTerm := t;
     dateRangeStart := dateRangeStart w; dateRangeEnd := dateRangeEnd w;
     selectedChatId := selectedChatId w; chatCache := chatCache w;
     ignoreWarmup := ignoreWarmup w; cards := cards w;
     monthGroups := monthGroups w; visibleCount := visibleCount w;
     emptyState := emptyState w; folderItems := folderItems w;
     breadcrumb := breadcrumb w; sidebarOpen := sidebarOpen w;
     searchInput := searchInput w; panel := panel w;
     location := location w; history := history w;
     innerWidth := innerWidth w; console := console w |}.

Definition set_dateRange (s e : DateArg) (w : World) : World :=
  {| currentFolder := currentFolder w; searchTerm := searchTerm w;
     dateRangeStart := s; dateRangeEnd := e;
     selectedChatId := selectedChatId w; chatCache := chatCache w;
     ignoreWarmup := ignoreWarmup w; cards := cards w;
     monthGroups := monthGroups w; visibleCount := visibleCount w;
     emptyState := emptyState w; folderItems := folderItems w;
     breadcrumb := breadcrumb w; sidebarOpen := sidebarOpen w;
     searchInput := searchInput w; panel := panel w;
     location := location w; history := history w;
     innerWidth := innerWidth w; console := console w |}.

Definition set_selectedChatId (k : option string) (w : World) : World :=
  {| currentFolder := currentFolder w; searchTerm := searchTerm w;
     dateRangeStart := dateRangeStart w; dateRangeEnd := dateRangeEnd w;
     selectedChatId := k; chatCache := chatCache w;
     ignoreWarmup := ignoreWarmup w; cards := cards w;
     monthGroups := monthGroups w; visibleCount := visibleCount w;
     emptyState := emptyState w; folderItems := folderItems w;
     breadcrumb := breadcrumb w; sidebarOpen := sidebarOpen w;
     searchInput := searchInput w; panel := panel w;
     location := location w; history := history w;
     innerWidth := innerWidth w; console := console w |}.

Definition set_chatCache (c : gmap string ChatDetail) (w : World) : World :=
  {| currentFolder := currentFolder w; searchTerm := searchTerm w;
     dateRangeStart := dateRangeStart w; dateRangeEnd := dateRangeEnd w;
     selectedChatId := selectedChatId w; chatCache := c;
     ignoreWarmup := ignoreWarmup w; cards := cards w;
     monthGroups := monthGroups w; visibleCount := visibleCount w;
     emptyState := emptyState w; folderItems := folderItems w;
     breadcrumb := breadcrumb w; sidebarOpen := sidebarOpen w;
     searchInput := searchInput w; panel := panel w;
     location := location w; history := history w;
     innerWidth := innerWidth w; console := console w |}.

Definition set_ignoreWarmup (b : bool) (w : World) : World :=
  {| currentFolder := currentFolder w; searchTerm := searchTerm w;
     dateRangeStart := dateRangeStart w; dateRangeEnd := dateRangeEnd w;
     selectedChatId := selectedChatId w; chatCache := chatCache w;
     ignoreWarmup := b; cards := cards w;
     monthGroups := monthGroups w; visibleCount := visibleCount w;
     emptyState := emptyState w; folderItems := folderItems w;
     breadcrumb := breadcrumb w; sidebarOpen := sidebarOpen w;
     searchInput := searchInput w; panel := panel w;
     location := location w; history := history w;
     innerWidth := innerWidth w; console := console w |}.

(** The outcome of one run of [filterChats] on the page. *)
Definition set_filtered (cs : list Card) (gs : list MonthGroup)
    (vc : option Z) (es : option Display) (w : World) : World :=
  {| currentFolder := currentFolder w; searchTerm := searchTerm w;
     dateRangeStart := dateRangeStart w; dateRangeEnd := dateRangeEnd w;
     selectedChatId := selectedChatId w; chatCache := chatCache w;
     ignoreWarmup := ignoreWarmup w; cards := cs;
     monthGroups := gs; visibleCount := vc;
     emptyState := es; folderItems := folderItems w;
     breadcrumb := breadcrumb w; sidebarOpen := sidebarOpen w;
     searchInput := searchInput w; panel := panel w;
     location := location w; history := history w;
     innerWidth := innerWidth w; console := console w |}.

Definition set_cards (cs : list Card) (w : World) : World :=
  set_filtered cs (monthGroups w) (visibleCount w) (emptyState w) w.

Definition set_folderItems (fs : list (string * bool)) (w : World) : World :=
  {| currentFolder := currentFolder w; searchTerm := searchTerm w;
     dateRangeStart := dateRangeStart w; dateRangeEnd := dateRangeEnd w;
     selectedChatId := selectedChatId w; chatCache := chatCache w;
     ignoreWarmup := ignoreWarmup w; cards := cards w;
     monthGroups := monthGroups w; visibleCount := visibleCount w;
     emptyState := emptyState w; folderItems := fs;
     breadcrumb := breadcrumb w; sidebarOpen := sidebarOpen w;
     searchInput := searchInput w; panel := panel w;
     location := location w; history := history w;
     innerWidth := innerWidth w; console := console w |}.

Definition set_breadcrumb (b : option string) (w : World) : World :=
  {| currentFolder := currentFolder w; searchTerm := searchTerm w;
     dateRangeStart := dateRangeStart w; dateRangeEnd := dateRangeEnd w;
     selectedChatId := selectedChatId w; chatCache := chatCache w;
     ignoreWarmup := ignoreWarmup w; cards := cards w;
     monthGroups := monthGroups w; visibleCount := visibleCount w;
     emptyState := emptyState w; folderItems := folderItems w;
     breadcrumb := b; sidebarOpen := sidebarOpen w;
     searchInput := searchInput w; panel := panel w;
     location := location w; history := history w;
     innerWidth := innerWidth w; console := console w |}.

Definition set_sidebarOpen (o : bool) (w : World) : World :=
  {| currentFolder := currentFolder w; searchTerm := searchTerm w;
     dateRangeStart := dateRangeStart w; dateRangeEnd := dateRangeEnd w;
     selectedChatId := selectedChatId w; chatCache := chatCache w;
     ignoreWarmup := ignoreWarmup w; cards := cards w;
     monthGroups := monthGroups w; visibleCount := visibleCount w;
     emptyState := emptyState w; folderItems := folderItems w;
     breadcrumb := breadcrumb w; sidebarOpen := o;
     searchInput := searchInput w; panel := panel w;
     location := location w; history := history w;
     innerWidth := innerWidth w; console := console w |}.

Definition set_searchInput (v : option string) (w : World) : World :=
  {| currentFolder := currentFolder w; searchTerm := searchTerm w;
     dateRangeStart := dateRangeStart w; dateRangeEnd := dateRangeEnd w;
     selectedChatId := selectedChatId w; chatCache := chatCache w;
     ignoreWarmup := ignoreWarmup w; cards := cards w;
     monthGroups := monthGroups w; visibleCount := visibleCount w;
     emptyState := emptyState w; folderItems := folderItems w;
     breadcrumb := breadcrumb w; sidebarOpen := sidebarOpen w;
     searchInput := v; panel := panel w;
     location := location w; history := history w;
     innerWidth := innerWidth w; console := console w |}.

Definition set_panel (d : DetailPanel) (w : World) : World :=
  {| currentFolder := currentFolder w; searchTerm := searchTerm w;
     dateRangeStart := dateRangeStart w; dateRangeEnd := dateRangeEnd w;
     selectedChatId := selectedChatId w; chatCache := chatCache w;
     ignoreWarmup := ignoreWarmup w; cards := cards w;
     monthGroups := monthGroups w; visibleCount := visibleCount w;
     emptyState := emptyState w; folderItems := folderItems w;
     breadcrumb := breadcrumb w; sidebarOpen := sidebarOpen w;
     searchInput := searchInput w; panel := d;
     location := location w; history := history w;
     innerWidth := innerWidth w; console := console w |}.

(** [window.history.pushState({}, '', url)] *)
Definition pushState (u : Url) (w : World) : World :=
  {| currentFolder := currentFolder w; searchTerm := searchTerm w;
     dateRangeStart := dateRangeStart w; dateRangeEnd := dateRangeEnd w;
     selectedChatId := selectedChatId w; chatCache := chatCache w;
     ignoreWarmup := ignoreWarmup w; cards := cards w;
     monthGroups := monthGroups w; visibleCount := visibleCount w;
     emptyState := emptyState w; folderItems := folderItems w;
     breadcrumb := breadcrumb w; sidebarOpen := sidebarOpen w;
     searchInput := searchInput w; panel := panel w;
     location := u; history := history w ++ [u];
     innerWidth := innerWidth w; console := console w |}.

(** [console.error(...)] *)
Definition console_error (e : Error) (w : World) : World :=
  {| currentFolder := currentFolder w; searchTerm := searchTerm w;
     dateRangeStart := dateRangeStart w; dateRangeEnd := dateRangeEnd w;
     selectedChatId := selectedChatId w; chatCache := chatCache w;
     ignoreWarmup := ignoreWarmup w; cards := cards w;
     monthGroups := monthGroups w; visibleCount := visibleCount w;
     emptyState := emptyState w; folderItems := folderItems w;
     breadcrumb := breadcrumb w; sidebarOpen := sidebarOpen w;
     searchInput := searchInput w; panel := panel w;
     location := location w; history := history w;
     innerWidth := innerWidth w; console := console w ++ [e] |}.

(** *** The predicates of [filterChats] *)

(** [!currentFolder || project === currentFolder] *)
Definition matchesFolder (currentFolder project : string) : bool :=
  negb (truthy currentFolder) || String.eqb project currentFolder.

(** [!searchTerm || title.includes(searchTerm) ||
    searchable.includes(searchTerm) ||
    project.toLowerCase().includes(searchTerm)] *)
Definition matchesSearch (toLowerCase : string -> string)
    (searchTerm title searchable project : string) : bool :=
  negb (truthy searchTerm) || includes title searchTerm
  || includes searchable searchTerm
  || includes (toLowerCase project) searchTerm.

(** [bound && cardDate < bound], a comparison with NaN being false. *)
Definition before (cardDate : Z) (bound : DateArg) : bool :=
  match bound with
  | Some (Some b) => cardDate <? b
  | _ => false
  end.

(** [bound && cardDate > bound] *)
Definition after (cardDate : Z) (bound : DateArg) : bool :=
  match bound with
  | Some (Some b) => b <? cardDate
  | _ => false
  end.

Section Filter.

Variable parse : string -> option Z.

(** [new Date(card.dataset.date)] *)
Definition cardDate (cardDateStr : option string) : option Z :=
  s ← cardDateStr; parse s.

Definition matchesDateRange (dateRangeStart dateRangeEnd : DateArg)
    (cardDateStr : option string) : bool :=
  if bool_decide (is_Some dateRangeStart) || bool_decide (is_Some dateRangeEnd)
  then
    match cardDate cardDateStr with
    | Some d =>
        let m := true in
        let m := if before d dateRangeStart then false else m in
        let m := if after d dateRangeEnd then false else m in
        m
    | None => true
    end
  else true.

End Filter.

(** The first pass of [filterChats] at one card; [shown] is the
    conjunction the script tests. *)
Definition visitCard (shown : Card -> bool)
    (acc : list Card * Z * gmap string Z) (card : Card)
    : list Card * Z * gmap string Z :=
  let '(done, visibleCards, monthCounts) := acc in
  if shown card then
    (done ++ [set_card_display display_default card],
     visibleCards + 1,
     match monthGroup card with
     | Some m => <[m := default 0 (monthCounts !! m) + 1]> monthCounts
     | None => monthCounts
     end)
  else (done ++ [set_card_display display_none card], visibleCards, monthCounts).

(** The second pass at one month group. *)
Definition visitGroup (monthCounts : gmap string Z) (group : MonthGroup)
    : MonthGroup :=
  let count := default 0 (monthCounts !! month group) in
  if 0 <? count then
    {| month := month group; group_display := display_default;
       month_count := match month_count group with
                      | Some _ => Some count
                      | None => None
                      end |}
  else
    {| month := month group; group_display := display_none;
       month_count := month_count group |}.

(** Both passes and the two read-outs. *)
Definition applyFilter (shown : Card -> bool) (w : World) : World :=
  let '(cards', visibleCards, monthCounts) :=
    foldl (visitCard shown) ([], 0, ∅) (cards w) in
  set_filtered cards'
    (visitGroup monthCounts <$> monthGroups w)
    (match visibleCount w with
     | Some _ => Some visibleCards
     | None => None
     end)
    (match emptyState w with
     | Some _ => Some (if visibleCards =? 0 then display_default else display_none)
     | None => None
     end)
    w.

(** [sidebar?.classList.remove('open')] *)
Definition closeSidebar (w : World) : World := set_sidebarOpen false w.

(** The [.folder-item] elements: [active] on the ones whose [data-path]
    is [path]. *)
Definition markFolder (path : string) (w : World) : World :=
  set_folderItems
    ((fun it : string * bool => (fst it, String.eqb (fst it) path))
       <$> folderItems w) w.

(** The window: the explorer and, when its script is loaded,
    [window.TimeSlider]. *)
Record Window := {
  world : World;
  slider : option (TimeSlider.State World)
}.

End Page.

(** ** [public/js/explorer.js] *)

Module ExplorerJs.

Import JSDate JSString Page.

Section Script.

Variable tz : Zone.
Variable parse : string -> option Z.
Variable toLowerCase : string -> string.

(** The test [matchesFolder && matchesSearch && matchesDateRange] of
    [filterChats] at one card. *)
Definition shown (w : World) (card : Card) : bool :=
  let project := default "" (project card) in
  let title := toLowerCase (default "" (title card)) in
  let searchable := toLowerCase (default "" (searchable card)) in
  let cardDateStr := date card in
  matchesFolder (currentFolder w) project
  && matchesSearch toLowerCase (searchTerm w) title searchable project
  && matchesDateRange parse (dateRangeStart w) (dateRangeEnd w) cardDateStr.

Definition filterChats (w : World) : World := applyFilter (shown w) w.

(** [searchTerm = searchInput?.value.toLowerCase() || ''] *)
Definition handleSearch (w : World) : World :=
  filterChats
    (set_searchTerm (default "" (toLowerCase <$> searchInput w)) w).

(** The Escape key in the search box. *)
Definition handleEscape (w : World) : World :=
  match searchInput w with
  | Some _ => handleSearch (set_searchInput (Some "") w)
  | None => w
  end.

Definition updateBreadcrumb (path : string) (w : World) : World :=
  match breadcrumb w with
  | Some _ => set_breadcrumb (Some path) w
  | None => w
  end.

(** The listener [init] registers with [TimeSlider.onRangeChange]. *)
Definition rangeListener : TimeSlider.Callback World :=
  fun startDate endDate w => filterChats (set_dateRange startDate endDate w).

Definition selectFolder (path : string) (updateUrl : bool) (win : Window)
    : option Window :=
  let w := set_currentFolder path (world win) in
  let w := markFolder path w in
  let w := updateBreadcrumb path w in
  let w := set_dateRange None None w in
  '(sl, w) ←
    match slider win with
    | Some st =>
        r ← TimeSlider.filterByFolder tz parse (Some path) st w;
        Some (Some r.1, r.2)
    | None => Some (None, w)
    end;
  let w := filterChats w in
  let w :=
    if updateUrl then
      pushState {| url_folder := if truthy path then Some path else None;
                   url_chat := url_chat (location w) |} w
    else w in
  let w := if innerWidth w <=? 600 then closeSidebar w else w in
  Some {| world := w; slider := sl |}.

(** The end of [init]: the listener is registered and a restored date
    range is handed to the slider. *)
Definition connectTimeSlider (win : Window) : Window :=
  match slider win with
  | Some st =>
      let st := TimeSlider.onRangeChange rangeListener st in
      match dateRangeStart (world win) with
      | Some _ =>
          let '(st, w) :=
            TimeSlider.setSelection tz (dateRangeStart (world win))
              (dateRangeEnd (world win)) st (world win) in
          {| world := w; slider := Some st |}
      | None => {| world := world win; slider := Some st |}
      end
  | None => win
  end.

End Script.

End ExplorerJs.

(** ** The explorer with the detail panel *)

Module DetailExplorer.

Import JSDate JSString Page.

Definition set_detailEmpty (e : option (Display * option string)) (d : DetailPanel)
    : DetailPanel :=
  {| detailEmpty := e; detailContent := detailContent d;
     detailLoading := detailLoading d; detailTitle := detailTitle d;
     detailProject := detailProject d; detailCount := detailCount d;
     detailLink := detailLink d; detailDownload := detailDownload d;
     detailMessages := detailMessages d |}.

Definition set_detailContent (c : option Display) (d : DetailPanel)
    : DetailPanel :=
  {| detailEmpty := detailEmpty d; detailContent := c;
     detailLoading := detailLoading d; detailTitle := detailTitle d;
     detailProject := detailProject d; detailCount := detailCount d;
     detailLink := detailLink d; detailDownload := detailDownload d;
     detailMessages := detailMessages d |}.

Definition set_detailLoading (l : option Display) (d : DetailPanel)
    : DetailPanel :=
  {| detailEmpty := detailEmpty d; detailContent := detailContent d;
     detailLoading := l; detailTitle := detailTitle d;
     detailProject := detailProject d; detailCount := detailCount d;
     detailLink := detailLink d; detailDownload := detailDownload d;
     detailMessages := detailMessages d |}.

(** [if (el) el.style.display = d] *)
Definition styleDisplay (d : Display) (el : option Display) : option Display :=
  match el with
  | Some _ => Some d
  | None => None
  end.

(** [if (el) el.textContent = x], and the same for [href] and
    [innerHTML] *)
Definition assign {A} (x : A) (el : option A) : option A :=
  match el with
  | Some _ => Some x
  | None => None
  end.

Definition renderMessage (idx : nat) (msg : Message) : RenderedMessage :=
  {| msg_id := idx;
     msg_role := role msg;
     msg_badge := capitalize (role msg);
     msg_time := match timestamp msg with
                 | Some t => if truthy t then Some t else None
                 | None => None
                 end;
     msg_body :=
       match htmlContent msg with
       | Some h =>
           if truthy h then raw_html h
           else match content msg with
                | Some c => if truthy c then escaped c else no_content
                | None => no_content
                end
       | None =>
           match content msg with
           | Some c => if truthy c then escaped c else no_content
           | None => no_content
           end
       end |}.

Definition renderChatDetail (data : ChatDetail) (w : World) : World :=
  let d := panel w in
  set_panel
    {| detailEmpty := detailEmpty d;
       detailContent := styleDisplay display_flex (detailContent d);
       detailLoading := styleDisplay display_none (detailLoading d);
       detailTitle :=
         assign (match chat_title data with
                | Some t => if truthy t then t else "Chat"%string
                | None => "Chat"%string
                end) (detailTitle d);
       detailProject := assign (chat_projectName data) (detailProject d);
       detailCount := assign (chat_messageCount data) (detailCount d);
       detailLink :=
         assign ("/chat/" +:+ chat_projectDir data +:+ "/" +:+ chat_chatId data)
               (detailLink d);
       detailDownload :=
         assign ("/download/" +:+ chat_projectDir data +:+ "/" +:+ chat_chatId data)
               (detailDownload d);
       detailMessages :=
         assign (imap renderMessage (chat_messages data)) (detailMessages d) |}
    w.

(** Where a call of [selectChat] stands when it gives control back: it
    has returned, it has thrown (its promise is rejected), or it waits
    for [fetch(url)] or for [response.json()]. *)
Inductive Progress := returned | thrown | awaits_fetch (url : string)
                    | awaits_json.

(** The [catch] block of [selectChat].  Writing the text of a
    [.detail-empty-text] that is not there is a TypeError. *)
Definition loadFailed (error : Error) (w : World) : World * Progress :=
  let w := console_error error w in
  let d := panel w in
  let d := set_detailLoading (styleDisplay display_none (detailLoading d)) d in
  match detailEmpty d with
  | Some (_, Some _) =>
      (set_panel
         (set_detailEmpty
            (Some (display_flex, Some "Failed to load chat"%string)) d) w,
       returned)
  | Some (_, None) =>
      (set_panel (set_detailEmpty (Some (display_flex, None)) d) w, thrown)
  | None => (set_panel d w, returned)
  end.

(** How a [fetch] settles: rejected, or a response with its [ok]. *)
Inductive Fetched := rejected | response (ok : bool).

Section Script.

Variable tz : Zone.
Variable parse : string -> option Z.
Variable toLowerCase : string -> string.

(** The test [matchesFolder && matchesSearch && matchesDateRange &&
    matchesWarmup] of [filterChats] at one card. *)
Definition shown (w : World) (card : Card) : bool :=
  let project := default "" (project card) in
  let title := toLowerCase (default "" (title card)) in
  let searchable := toLowerCase (default "" (searchable card)) in
  let cardDateStr := date card in
  let isWarmup := bool_decide (warmup card = Some "true"%string) in
  let matchesWarmup := negb (ignoreWarmup w) || negb isWarmup in
  matchesFolder (currentFolder w) project
  && matchesSearch toLowerCase (searchTerm w) title searchable project
  && matchesDateRange parse (dateRangeStart w) (dateRangeEnd w) cardDateStr
  && matchesWarmup.

Definition filterChats (w : World) : World := applyFilter (shown w) w.

Definition handleSearch (w : World) : World :=
  filterChats
    (set_searchTerm (default "" (toLowerCase <$> searchInput w)) w).

(** [ignoreWarmup = checkbox?.checked ?? true] *)
Definition toggleWarmupFilter (checked : option bool) (w : World) : World :=
  filterChats (set_ignoreWarmup (default true checked) w).

Definition rangeListener : TimeSlider.Callback World :=
  fun startDate endDate w => filterChats (set_dateRange startDate endDate w).

Definition selectFolder (path : string) (updateUrl : bool) (win : Window)
    : option Window :=
  let w := set_currentFolder path (world win) in
  let w := markFolder path w in
  let w := set_dateRange None None w in
  '(sl, w) ←
    match slider win with
    | Some st =>
        r ← TimeSlider.filterByFolder tz parse (Some path) st w;
        Some (Some r.1, r.2)
    | None => Some (None, w)
    end;
  let w := filterChats w in
  let w :=
    if updateUrl then
      pushState {| url_folder := if truthy path then Some path else None;
                   url_chat := url_chat (location w) |} w
    else w in
  let w := if innerWidth w <=? 600 then closeSidebar w else w in
  Some {| world := w; slider := sl |}.

Definition connectTimeSlider (win : Window) : Window :=
  match slider win with
  | Some st =>
      {| world := world win;
         slider := Some (TimeSlider.onRangeChange rangeListener st) |}
  | None => win
  end.

(** [selectChat] up to its first [await]. *)
Definition selectChat (projectDir chatId : string) (updateUrl : bool)
    (w : World) : World * Progress :=
  let id := (projectDir +:+ "/" +:+ chatId)%string in
  let w := set_selectedChatId (Some id) w in
  let w :=
    set_cards
      ((fun card =>
          set_card_active
            (bool_decide (Page.projectDir card = Some projectDir)
             && bool_decide (Page.chatId card = Some chatId)) card)
         <$> cards w) w in
  let d := panel w in
  let d :=
    match detailEmpty d with
    | Some (_, text) => set_detailEmpty (Some (display_none, text)) d
    | None => d
    end in
  let d := set_detailContent (styleDisplay display_none (detailContent d)) d in
  let d := set_detailLoading (styleDisplay display_flex (detailLoading d)) d in
  let w := set_panel d w in
  let w :=
    if updateUrl then
      pushState {| url_folder := url_folder (location w); url_chat := Some id |} w
    else w in
  match selectedChatId w ≫= fun k => chatCache w !! k with
  | Some data => (renderChatDetail data w, returned)
  | None => (w, awaits_fetch ("/api/chat/" +:+ projectDir +:+ "/" +:+ chatId))
  end.

(** [selectChat] from the settling of [fetch] to [response.json()]. *)
Definition fetchSettled (r : Fetched) (w : World) : World * Progress :=
  match r with
  | rejected => loadFailed fetch_failed w
  | response false => loadFailed failed_to_load_chat w
  | response true => (w, awaits_json)
  end.

(** [selectChat] from the settling of [response.json()] to its end;
    [None] is a body that is not JSON. *)
Definition jsonSettled (body : option ChatDetail) (w : World)
    : World * Progress :=
  match body with
  | None => loadFailed json_failed w
  | Some data =>
      let w :=
        match selectedChatId w with
        | Some k => set_chatCache (<[k := data]> (chatCache w)) w
        | None => w
        end in
      (renderChatDetail data w, returned)
  end.

(** What the server answers to one request. *)
Inductive Reply := network_error | http_error | not_json
                 | json (data : ChatDetail).

(** The steps of a call after its request, for one answer. *)
Definition settle (reply : Reply) (w : World) : World * Progress :=
  match reply with
  | network_error => fetchSettled rejected w
  | http_error => fetchSettled (response false) w
  | not_json => jsonSettled None (fetchSettled (response true) w).1
  | json data => jsonSettled (Some data) (fetchSettled (response true) w).1
  end.

(** A call of [selectChat] that runs to its end with no other event
    between its steps: the final state, how the call ended and the
    requests it made. *)
Definition selectChat_alone (projectDir chatId : string) (updateUrl : bool)
    (server : string -> Reply) (w : World)
    : World * Progress * list string :=
  match selectChat projectDir chatId updateUrl w with
  | (w, awaits_fetch url) => (settle (server url) w, [url])
  | (w, p) => (w, p, [])
  end.

End Script.

End DetailExplorer.

(** ** Notions used in the statements *)

Module Notions.

Import JSDate JSString.

(** *** Buckets *)

(** Width of a bucket in milliseconds. *)
Definition width (g : TimeSlider.Granularity) : Z :=
  match g with
  | TimeSlider.day => msPerDay
  | TimeSlider.week => 7 * msPerDay
  end.

(** Starts of [n] consecutive buckets from [start]. *)
Definition starts (g : TimeSlider.Granularity) (start : Z) (n : nat) : list Z :=
  (fun k : nat => start + Z.of_nat k * width g) <$> seq 0 n.

(** Number of turns of the loop of [createBuckets]. *)
Definition turns (g : TimeSlider.Granularity) (current end_ : Z) : nat :=
  if current <=? end_ then S (Z.to_nat ((end_ - current) / width g)) else 0%nat.

(** What the aggregation leaves alone in a bucket. *)
Definition frame (b : TimeSlider.Bucket) : Z * Z * TimeSlider.Granularity :=
  (TimeSlider.date b, TimeSlider.key b, TimeSlider.granularity b).

Definition frames (m : TimeSlider.BucketMap)
    : list (Z * Z * TimeSlider.Granularity) :=
  (fun kv => frame kv.2) <$> m.

(** The UTC day [k] is a Sunday. *)
Definition isSunday (k : Z) : Prop := (k + 4) mod 7 = 0.

Section Zone.

Variable tz : Zone.

(** In the weekly loop the date is a local Sunday. *)
Definition aligned (g : TimeSlider.Granularity) (t : Z) : Prop :=
  match g with
  | TimeSlider.day => True
  | TimeSlider.week => getDay tz t = 0
  end.

Definition freshBucket (g : TimeSlider.Granularity) (c : Z)
    : Z * TimeSlider.Bucket :=
  (toISODate c, TimeSlider.emptyBucket tz c g).

(** The first bucket of [createBuckets]. *)
Definition firstStart (g : TimeSlider.Granularity) (minDate : Z) : Z :=
  let start := setHours_0_0_0_0 tz minDate in
  match g with
  | TimeSlider.week => addDays tz start (- getDay tz start)
  | TimeSlider.day => start
  end.

End Zone.

Section Tally.

Variable tz : Zone.
Variable parse : string -> option Z.

(** The conversation has a date that parses, with the key [k]. *)
Definition hasKey (g : TimeSlider.Granularity) (k : Z)
    (c : TimeSlider.Conversation) : bool :=
  match parse (TimeSlider.conv_date c) with
  | Some t => TimeSlider.getBucketKey tz t g =? k
  | None => false
  end.

(** The conversation has a date that parses, within the bucket. *)
Definition inBucket (b : TimeSlider.Bucket) (c : TimeSlider.Conversation)
    : bool :=
  match parse (TimeSlider.conv_date c) with
  | Some t =>
      (TimeSlider.date b <=? t)
      && (t <? TimeSlider.date b + width (TimeSlider.granularity b))
  | None => false
  end.

End Tally.

(** The messages of a list of conversations. *)
Definition messagesOf (convs : list TimeSlider.Conversation) : Z :=
  foldr (fun c acc => default 0 (TimeSlider.conv_messages c) + acc) 0 convs.

(** *** Selections *)

(** The indices [setSelection] stores. *)
Definition startIndex (startTime : option Z) (bs : list TimeSlider.Bucket) : Z :=
  let i := TimeSlider.findIndex (TimeSlider.atOrAfter startTime) bs in
  if i =? -1 then 0 else i.

Definition endIndex (endTime : option Z) (bs : list TimeSlider.Bucket) : Z :=
  let i := TimeSlider.findIndex (TimeSlider.atOrAfter endTime) bs in
  if i =? -1 then Z.of_nat (length bs) - 1 else i.

(** [n] is the first position of [bs] with a bucket dated [t] or later. *)
Definition firstAtOrAfter (t : Z) (bs : list TimeSlider.Bucket) (n : nat) : Prop :=
  (exists b, bs !! n = Some b /\ t <= TimeSlider.date b)
  /\ Forall (fun b => TimeSlider.date b < t) (take n bs).

(** The requested times are in order, where both are numbers. *)
Definition inOrder (startTime endTime : option Z) : Prop :=
  forall s e, startTime = Some s -> endTime = Some e -> s <= e.

Section Listener.

Context {E : Type}.

(** A pointer position: over the bar of a bucket, or over none. *)
Definition onBar (st : TimeSlider.State E) (index : option Z) : Prop :=
  match index with
  | Some i => 0 <= i < Z.of_nat (length (TimeSlider.buckets st))
  | None => True
  end.

(** A drag under way from bar [i]. *)
Definition dragging (st0 : TimeSlider.State E) (i : Z)
    (st : TimeSlider.State E) : Prop :=
  TimeSlider.buckets st = TimeSlider.buckets st0
  /\ TimeSlider.isDragging st = true
  /\ TimeSlider.selectionStart st = Some i
  /\ exists j, TimeSlider.selectionEnd st = Some j
               /\ 0 <= j < Z.of_nat (length (TimeSlider.buckets st0)).

(** The state [handleMouseUp] builds when a drag with a selection
    ends. *)
Definition dropped (st : TimeSlider.State E) (s : Z) : TimeSlider.State E :=
  let e := default s (TimeSlider.selectionEnd st) in
  TimeSlider.updateRangeDisplay
    (TimeSlider.showClearRangeBtn display_inline_block
       (TimeSlider.set_selection (Some (Z.min s e)) (Some (Z.max s e))
          (TimeSlider.set_drag false (TimeSlider.dragStartIndex st) st))).

(** The events and calls that reach [notifyRangeChange]. *)
Definition notifying (ev : TimeSlider.Event E) : bool :=
  match ev with
  | TimeSlider.mouseup | TimeSlider.mouseleave | TimeSlider.touchend
  | TimeSlider.click_clear_range | TimeSlider.call_clearSelection
  | TimeSlider.call_filterByFolder _
  | TimeSlider.call_setSelection None _ => true
  | _ => false
  end.

End Listener.

(** *** Cards *)

(** The predicates of the specification, for a card. *)
Definition folderPasses (folder : string) (c : Page.Card) : Prop :=
  folder = ""%string \/ default ""%string (Page.project c) = folder.

Section Search.

Variable toLowerCase : string -> string.

(** [t] occurs in [s] when letter case is ignored: the lower case of
    [t] is a part of the lower case of [s]. *)
Definition ciSubstring (t s : string) : Prop :=
  exists pre post, toLowerCase s = (pre +:+ toLowerCase t +:+ post)%string.

Definition searchPasses (q : string) (c : Page.Card) : Prop :=
  q = ""%string
  \/ ciSubstring q (default ""%string (Page.title c))
  \/ ciSubstring q (default ""%string (Page.searchable c))
  \/ ciSubstring q (default ""%string (Page.project c)).

End Search.

(** The date of a card: its [data-date] read as a date; none when the
    card has no [data-date] or the text is no date. *)
Definition dateOf (parse : string -> option Z) (c : Page.Card) : option Z :=
  match Page.date c with
  | Some s => parse s
  | None => None
  end.

(** A card's date, when it parses, is within the bounds that are set. *)
Definition datePasses (d : option Z) (start end_ : DateArg) : Prop :=
  match d with
  | Some t =>
      (forall s, start = Some (Some s) -> s <= t)
      /\ (forall e, end_ = Some (Some e) -> t <= e)
  | None => True
  end.

Definition warmupPasses (ignore : bool) (c : Page.Card) : Prop :=
  ignore = true -> Page.warmup c <> Some "true"%string.

(** The first pass writes the display of each card and nothing else. *)
Definition showCard (shown : Page.Card -> bool) (c : Page.Card) : Page.Card :=
  Page.set_card_display (if shown c then display_default else display_none) c.

(** The world [selectFolder] hands to the slider. *)
Definition folderChosen (path : string) (w : Page.World) : Page.World :=
  Page.set_dateRange None None
    (Page.markFolder path (Page.set_currentFolder path w)).

(** The same on the page with the breadcrumb. *)
Definition folderChosenWithBreadcrumb (path : string) (w : Page.World)
    : Page.World :=
  Page.set_dateRange None None
    (ExplorerJs.updateBreadcrumb path
       (Page.markFolder path (Page.set_currentFolder path w))).

(** *** The detail panel *)

(** The page has the text element in its [#detail-empty], if it has a
    [#detail-empty]. *)
Definition placeholderComplete (w : Page.World) : Prop :=
  match Page.detailEmpty (Page.panel w) with
  | Some (_, None) => False
  | _ => True
  end.

(** The detail panel after a failed load: the loading indicator, where
    the page has one, is hidden, and the placeholder, where the page has
    one, is displayed with the message. *)
Definition failureShown (before after : Page.DetailPanel) : Prop :=
  match Page.detailLoading before with
  | Some _ => Page.detailLoading after = Some display_none
  | None => Page.detailLoading after = None
  end
  /\ match Page.detailEmpty before with
     | Some _ =>
         Page.detailEmpty after
         = Some (display_flex, Some "Failed to load chat"%string)
     | None => Page.detailEmpty after = None
     end.

(** The key of a chat in [chatCache] and the address of its JSON. *)
Definition chatKey (projectDir chatId : string) : string :=
  (projectDir +:+ "/" +:+ chatId)%string.

Definition chatUrl (projectDir chatId : string) : string :=
  ("/api/chat/" +:+ projectDir +:+ "/" +:+ chatId)%string.

(** Calls of [selectChat], each running alone to its end before the
    next starts, against a server that answers by address. *)
Definition runAlone (server : string -> DetailExplorer.Reply)
    (calls : list (string * string * bool)) (w : Page.World) : Page.World :=
  foldl (fun w call =>
           (DetailExplorer.selectChat_alone call.1.1 call.1.2 call.2 server w).1.1)
        w calls.

(** Every chat in the cache is what the server answers for its key. *)
Definition cacheSound (server : string -> DetailExplorer.Reply)
    (w : Page.World) : Prop :=
  forall k data,
    Page.chatCache w !! k = Some data ->
    server ("/api/chat/" +:+ k)%string = DetailExplorer.json data.

End Notions.

(** ** Sample pages and data *)

Module Samples.

Import JSDate.

Definition conversation (project date : string) (messages : Z)
    : TimeSlider.Conversation :=
  {| TimeSlider.conv_project := project; TimeSlider.conv_date := date;
     TimeSlider.conv_messages := Some messages |}.

(** Two conversations 69 days apart. *)
Definition twoMonths : list TimeSlider.Conversation :=
  [conversation "a" "2024-01-01" 5; conversation "b" "2024-03-10" 2].

(** Conversations on three consecutive days. *)
Definition threeDays : list TimeSlider.Conversation :=
  [conversation "a" "2024-01-01" 5; conversation "a" "2024-01-02" 1;
   conversation "b" "2024-01-03" 2].

(** One conversation at ten in the morning, UTC. *)
Definition oneMorning : list TimeSlider.Conversation :=
  [conversation "a" "2024-01-01T10:00:00Z" 5].

(** A page with every element of the slider. *)
Definition sliderPage : TimeSlider.Dom :=
  {| TimeSlider.histogramBars := Some TimeSlider.AsServed;
     TimeSlider.metricLabel := Some "Conversations"%string;
     TimeSlider.clearRangeBtn := Some display_none;
     TimeSlider.rangeDisplay := Some (display_none, TimeSlider.no_text);
     TimeSlider.histogramSelection :=
       Some {| TimeSlider.ov_display := display_none;
               TimeSlider.ov_left := 0; TimeSlider.ov_width := 0 |} |}.

(** The slider after [init] in a browser on UTC. *)
Definition sliderOn {E : Type} (data : list TimeSlider.Conversation)
    : TimeSlider.State E :=
  default (TimeSlider.loaded None)
    (TimeSlider.init 0 parseISO sliderPage (TimeSlider.loaded (Some data))).

Definition card (project title date : string) (warmup : bool) (chatId : string)
    : Page.Card :=
  {| Page.project := Some project; Page.title := Some title;
     Page.searchable := Some title; Page.date := Some date;
     Page.warmup := Some (if warmup then "true" else "false")%string;
     Page.projectDir := Some project; Page.chatId := Some chatId;
     Page.monthGroup := Some "2024-01"%string;
     Page.card_display := display_default; Page.card_active := false |}.

Definition detailPanel : Page.DetailPanel :=
  {| Page.detailEmpty := Some (display_flex, Some "Select a conversation"%string);
     Page.detailContent := Some display_none;
     Page.detailLoading := Some display_none;
     Page.detailTitle := Some ""%string;
     Page.detailProject := Some ""%string;
     Page.detailCount := Some 0;
     Page.detailLink := Some ""%string;
     Page.detailDownload := Some ""%string;
     Page.detailMessages := Some [] |}.

(** A page with three cards, the second with a date that does not
    parse, the third a warmup chat. *)
Definition explorerPage : Page.World :=
  {| Page.currentFolder := ""; Page.searchTerm := "";
     Page.dateRangeStart := None; Page.dateRangeEnd := None;
     Page.selectedChatId := None; Page.chatCache := ∅;
     Page.ignoreWarmup := true;
     Page.cards := [card "p" "Fix the Parser" "2024-01-02" false "a";
                    card "p" "Notes" "not-a-date" false "b";
                    card "q" "Warmup" "2024-01-03" true "c"];
     Page.monthGroups :=
       [{| Page.month := "2024-01"; Page.group_display := display_default;
           Page.month_count := Some 3 |}];
     Page.visibleCount := Some 3; Page.emptyState := Some display_none;
     Page.folderItems := [("p"%string, false); ("q"%string, false)];
     Page.breadcrumb := Some ""%string; Page.sidebarOpen := false;
     Page.searchInput := Some ""%string; Page.panel := detailPanel;
     Page.location := {| Page.url_folder := None; Page.url_chat := None |};
     Page.history := []; Page.innerWidth := 1280; Page.console := [] |}.

(** The same page with a date range set, over the first two days of
    2024. *)
Definition rangedPage : Page.World :=
  Page.set_dateRange (Some (Some 1704067200000)) (Some (Some 1704239999999))
    explorerPage.

Definition chat (chatId text : string) : Page.ChatDetail :=
  {| Page.chat_title := Some text; Page.chat_projectName := "p";
     Page.chat_messageCount := 1; Page.chat_projectDir := "p";
     Page.chat_chatId := chatId;
     Page.chat_messages :=
       [{| Page.role := "user"; Page.timestamp := None;
           Page.content := Some text; Page.htmlContent := None |}] |}.

(** Two overlapping calls of [selectChat]: for [p/a], then for [p/b]
    before the first is answered; the request for [p/b] fails, the one
    for [p/a] is answered with the chat. *)
Definition afterCallA : Page.World :=
  (DetailExplorer.selectChat "p" "a" true explorerPage).1.

Definition afterCallB : Page.World :=
  (DetailExplorer.selectChat "p" "b" true afterCallA).1.

Definition afterFailB : Page.World :=
  (DetailExplorer.fetchSettled DetailExplorer.rejected afterCallB).1.

Definition afterAnswerA : Page.World :=
  (DetailExplorer.jsonSettled (Some (chat "a" "hello"))
     (DetailExplorer.fetchSettled (DetailExplorer.response true) afterFailB).1).1.

(** The explorer with the detail panel, its listener registered with a
    slider over [threeDays]. *)
Definition detailWindow : Page.Window :=
  DetailExplorer.connectTimeSlider parseISO JSString.toLowerCaseASCII
    {| Page.world := explorerPage; Page.slider := Some (sliderOn threeDays) |}.

Definition explorerWindow : Page.Window :=
  ExplorerJs.connectTimeSlider 0 parseISO JSString.toLowerCaseASCII
    {| Page.world := explorerPage; Page.slider := Some (sliderOn threeDays) |}.

End Samples.

(** ** The theme ([initTheme], [applyTheme] and [toggleTheme] of the
       explorer scripts) *)

Module Theme.

(** [localStorage['theme']], the [data-theme] attribute of the root
    element, the [checked] of [#theme-toggle-input] and the [active]
    class of [#dark-icon] and [#light-icon], for the elements the page
    has. *)
Record Page := {
  stored : option string;
  dataTheme : option string;
  toggleInput : option bool;
  darkIcon : option bool;
  lightIcon : option bool
}.

Definition applyTheme (theme : string) (p : Page) : Page :=
  match darkIcon p, lightIcon p with
  | Some _, Some _ =>
      if String.eqb theme "light" then
        {| stored := stored p; dataTheme := Some theme;
           toggleInput := toggleInput p;
           darkIcon := Some false; lightIcon := Some true |}
      else
        {| stored := stored p; dataTheme := Some theme;
           toggleInput := toggleInput p;
           darkIcon := Some true; lightIcon := Some false |}
  | _, _ =>
      {| stored := stored p; dataTheme := Some theme;
         toggleInput := toggleInput p;
         darkIcon := darkIcon p; lightIcon := lightIcon p |}
  end.

(** [localStorage.getItem('theme') || 'dark'] *)
Definition savedTheme (p : Page) : string :=
  match stored p with
  | Some t => if JSString.truthy t then t else "dark"%string
  | None => "dark"%string
  end.

Definition initTheme (p : Page) : Page :=
  let theme := savedTheme p in
  let p := applyTheme theme p in
  match toggleInput p with
  | Some _ =>
      {| stored := stored p; dataTheme := dataTheme p;
         toggleInput := Some (String.eqb theme "light");
         darkIcon := darkIcon p; lightIcon := lightIcon p |}
  | None => p
  end.

(** [toggleInput?.checked ? 'light' : 'dark'] *)
Definition newTheme (p : Page) : string :=
  match toggleInput p with
  | Some true => "light"%string
  | _ => "dark"%string
  end.

Definition toggleTheme (p : Page) : Page :=
  let theme := newTheme p in
  let p := applyTheme theme p in
  {| stored := Some theme; dataTheme := dataTheme p;
     toggleInput := toggleInput p;
     darkIcon := darkIcon p; lightIcon := lightIcon p |}.

End Theme.

(** ** The explorer without the time slider (the third script) *)

Module PlainExplorer.

Import JSString Page.

Section Script.

Variable toLowerCase : string -> string.

(** The test [matchesFolder && matchesSearch] of [filterChats] at one
  card. *)
Definition shown (w : World) (card : Card) : bool :=
let project := default "" (project card) in
let title := toLowerCase (default "" (title card)) in
let searchable := toLowerCase (default "" (searchable card)) in
matchesFolder (currentFolder w) project
&& matchesSearch toLowerCase (searchTerm w) title searchable project.

Definition filterChats (w : World) : World := applyFilter (shown w) w.

Definition handleSearch (w : World) : World :=
filterChats
  (set_searchTerm (default "" (toLowerCase <$> searchInput w)) w).

Definition selectFolder (path : string) (updateUrl : bool) (w : World)
  : World :=
let w := set_currentFolder path w in
let w := markFolder path w in
let w := ExplorerJs.updateBreadcrumb path w in
let w := filterChats w in
let w :=
  if updateUrl then
    pushState {| url_folder := if truthy path then Some path else None;
                 url_chat := url_chat (location w) |} w
  else w in
if innerWidth w <=? 600 then closeSidebar w else w.

End Script.

End PlainExplorer.

(** ** Loading the page: [init] of the two explorers, and the navigation
       context of [public/js/explorer.js] *)

Module Loading.

Import JSDate JSString Page.

(** [s.split(sep)] for a separator of one character: the first piece
    and the pieces after it. *)
Fixpoint pieces (sep : ascii) (s : string) : string * list string :=
  match s with
  | EmptyString => (EmptyString, [])
  | String c s' =>
      let '(piece, rest) := pieces sep s' in
      if Ascii.eqb c sep then (EmptyString, piece :: rest)
      else (String c piece, rest)
  end.

Definition splitOn (sep : ascii) (s : string) : list string :=
  let '(piece, rest) := pieces sep s in piece :: rest.

(** The object [saveNavigationContext] writes: the dates are ISO texts
    or [null]. *)
Record SavedContext := {
  ctx_folder : string;
  ctx_scrollY : Z;
  ctx_start : option string;
  ctx_end : option string
}.

(** The text of [sessionStorage['returnContext']], by what
    [restoreNavigationContext] makes of it: the empty text, a text on
    which its [try] block throws (it is not JSON, or it is the JSON
    [null]), or the JSON of an object, seen through the fields that are
    read. *)
Inductive Stored := empty_text | not_json | saved (c : SavedContext).

(** The tab: the window of the explorer, the page of the theme, the
    stored context, [window.scrollY], the scroll position that
    [restoreNavigationContext] has scheduled for 100 ms later, and the
    number of its [console.error] calls. *)
Record Tab := {
  window : Window;
  theme : Theme.Page;
  returnContext : option Stored;
  scrollY : Z;
  scheduledScroll : option Z;
  restoreErrors : nat
}.

Definition set_window (win : Window) (b : Tab) : Tab :=
  {| window := win; theme := theme b; returnContext := returnContext b;
     scrollY := scrollY b; scheduledScroll := scheduledScroll b;
     restoreErrors := restoreErrors b |}.

Definition set_theme (t : Theme.Page) (b : Tab) : Tab :=
  {| window := window b; theme := t; returnContext := returnContext b;
     scrollY := scrollY b; scheduledScroll := scheduledScroll b;
     restoreErrors := restoreErrors b |}.

Section Script.

Variable tz : Zone.
Variable parse : string -> option Z.
Variable toLowerCase : string -> string.

(** [d.toISOString()], which [JSON.stringify] uses for a date. *)
Variable toISOString : Z -> string.

(** [JSON.stringify] of a nullable date: an Invalid Date becomes
    [null]. *)
Definition dateToJSON (d : DateArg) : option string :=
  match d with
  | Some (Some t) => Some (toISOString t)
  | _ => None
  end.

Definition saveNavigationContext (b : Tab) : Tab :=
  let w := world (window b) in
  {| window := window b; theme := theme b;
     returnContext :=
       Some (saved {| ctx_folder := currentFolder w;
                        ctx_scrollY := scrollY b;
                        ctx_start := dateToJSON (dateRangeStart w);
                        ctx_end := dateToJSON (dateRangeEnd w) |});
     scrollY := scrollY b; scheduledScroll := scheduledScroll b;
     restoreErrors := restoreErrors b |}.

(** [x ? new Date(x) : null] for a text or [null]. *)
Definition dateOrNull (x : option string) : DateArg :=
  match x with
  | Some s => if truthy s then Some (parse s) else None
  | None => None
  end.

Definition restoreNavigationContext (b : Tab) : Tab :=
  match returnContext b with
  | Some empty_text => b
  | Some not_json =>
      {| window := window b; theme := theme b; returnContext := None;
         scrollY := scrollY b; scheduledScroll := scheduledScroll b;
         restoreErrors := S (restoreErrors b) |}
  | Some (saved c) =>
      let scroll :=
        if ctx_scrollY c =? 0 then scheduledScroll b
        else Some (ctx_scrollY c) in
      let w := world (window b) in
      let w :=
        match dateOrNull (ctx_start c) with
        | Some start => set_dateRange (Some start) (dateOrNull (ctx_end c)) w
        | None => w
        end in
      {| window := {| world := w; slider := slider (window b) |};
         theme := theme b; returnContext := None;
         scrollY := scrollY b; scheduledScroll := scroll;
         restoreErrors := restoreErrors b |}
  | None => b
  end.

(** [init] of [public/js/explorer.js].  The listeners it adds to the
    search box, the keyboard and the chat links change nothing until
    their events arrive; they are not part of the state. *)
Definition init_explorer (b : Tab) : option Tab :=
  let b := set_theme (Theme.initTheme (theme b)) b in
  win ←
    match url_folder (location (world (window b))) with
    | Some folderParam =>
        if truthy folderParam
        then ExplorerJs.selectFolder tz parse toLowerCase folderParam false (window b)
        else Some (window b)
    | None => Some (window b)
    end;
  let b := set_window win b in
  let b := restoreNavigationContext b in
  Some (set_window (ExplorerJs.connectTimeSlider tz parse toLowerCase (window b)) b).

(** [init] of the explorer with the detail panel; the call of
    [selectChat] is left where it stands at its first [await]. *)
Definition init_detail (b : Tab) : option (Tab * DetailExplorer.Progress) :=
  let b := set_theme (Theme.initTheme (theme b)) b in
  let loc := location (world (window b)) in
  win ←
    match url_folder loc with
    | Some folderParam =>
        if truthy folderParam
        then DetailExplorer.selectFolder tz parse toLowerCase folderParam false (window b)
        else Some (window b)
    | None => Some (window b)
    end;
  let '(w, progress) :=
    match url_chat loc with
    | Some chatParam =>
        if truthy chatParam then
          match splitOn "/" chatParam with
          | projectDir :: chatId :: _ =>
              if truthy projectDir && truthy chatId
              then DetailExplorer.selectChat projectDir chatId false (world win)
              else (world win, DetailExplorer.returned)
          | _ => (world win, DetailExplorer.returned)
          end
        else (world win, DetailExplorer.returned)
    | None => (world win, DetailExplorer.returned)
    end in
  let win :=
    DetailExplorer.connectTimeSlider parse toLowerCase {| world := w; slider := slider win |} in
  let win :=
    {| world := DetailExplorer.filterChats parse toLowerCase (world win);
       slider := slider win |} in
  Some (set_window win b, progress).

End Script.

(** [d.toISOString()] for the years 0 to 9999. *)
Definition pad3 (n : Z) : string :=
  String (digitChar (n / 100)) (pad2 n).

Definition isoString (t : Z) : string :=
  let ms := t mod msPerDay in
  (isoDateString (toISODate t) +:+ "T" +:+ pad2 (ms / 3600000) +:+ ":"
   +:+ pad2 (ms / 60000 mod 60) +:+ ":" +:+ pad2 (ms / 1000 mod 60)
   +:+ "." +:+ pad3 (ms mod 1000) +:+ "Z")%string.

End Loading.

(** ** Further notions *)

Module Measures.

Import JSDate JSString Notions.

(** *** Totals over the buckets *)

Definition sumZ (l : list Z) : Z := foldr Z.add 0 l.

Definition totalConversations (bs : list TimeSlider.Bucket) : Z :=
  sumZ (TimeSlider.conversations <$> bs).

Definition totalMessages (bs : list TimeSlider.Bucket) : Z :=
  sumZ (TimeSlider.messages <$> bs).

(** The conversation has a date that parses. *)
Definition dated (parse : string -> option Z) (c : TimeSlider.Conversation)
    : bool :=
  match parse (TimeSlider.conv_date c) with
  | Some _ => true
  | None => false
  end.

(** *** The loop of [createBuckets] *)

(** The dates the loop [while (current <= end)] of [createBuckets] goes
    through, one for each turn; the fuel is that of
    [TimeSlider.fillBuckets]. *)
Fixpoint loopDates (tz : Zone) (fuel : nat) (current end_ : Z)
    (g : TimeSlider.Granularity) : list Z :=
  if current <=? end_ then
    match fuel with
    | O => []
    | S fuel' =>
        let current' :=
          match g with
          | TimeSlider.week => addDays tz current 7
          | TimeSlider.day => addDays tz current 1
          end in
        current :: loopDates tz fuel' current' end_ g
    end
  else [].

(** The dates of the turns of the loop in a call of [processData]. *)
Definition turnDates (tz : Zone) (parse : string -> option Z)
    (convs : list TimeSlider.Conversation) : list Z :=
  match TimeSlider.validDates parse convs with
  | [] => []
  | d :: ds =>
      let minDate := TimeSlider.minimum d ds in
      let maxDate := TimeSlider.maximum d ds in
      let g := TimeSlider.chooseGranularity minDate maxDate in
      let start := firstStart tz g minDate in
      let end_ := setHours_23_59_59_999 tz maxDate in
      loopDates tz (Z.to_nat ((end_ - start) / msPerDay + 1)) start end_ g
  end.

(** The local calendar day of an instant, as a day number. *)
Definition localDay (tz : Zone) (t : Z) : Z := localTime tz t / msPerDay.

(** *** Gestures *)

(** The bar a drag from bar [i] ends on: the last bar among the
    pointer positions, which are bars or [None] off the bars. *)
Definition lastBar (i : Z) (moves : list (option Z)) : Z :=
  foldl (fun k m => default k m) i moves.

(** The conversations [filterByFolder] hands to [processData]. *)
Definition ofFolder (folder : option string)
    (data : option (list TimeSlider.Conversation))
    : list TimeSlider.Conversation :=
  let path := default ""%string folder in
  if String.eqb path "" then default [] data
  else filter (fun c => TimeSlider.conv_project c = path) (default [] data).

(** No bar of the histogram is marked as selected. *)
Definition noBarSelected (h : option TimeSlider.Histogram) : Prop :=
  match h with
  | Some (TimeSlider.Bars bars _) =>
      Forall (fun bar => TimeSlider.bar_selected bar = false) bars
  | _ => True
  end.

(** *** The list of cards *)

(** The card is displayed: its [style.display] is not ['none']. *)
Definition onScreen (c : Page.Card) : bool :=
  match Page.card_display c with
  | display_none => false
  | _ => true
  end.

(** The card lies in the month group [m]. *)
Definition inMonth (m : string) (c : Page.Card) : bool :=
  bool_decide (Page.monthGroup c = Some m).

(** The three explorer scripts, the test of their [filterChats] at a
    card and their [filterChats]. *)
Inductive Script := explorer_js | detail_script | plain_script.

Definition shownOf (parse : string -> option Z)
    (toLowerCase : string -> string) (s : Script)
    : Page.World -> Page.Card -> bool :=
  match s with
  | explorer_js => ExplorerJs.shown parse toLowerCase
  | detail_script => DetailExplorer.shown parse toLowerCase
  | plain_script => PlainExplorer.shown toLowerCase
  end.

Definition filterChatsOf (parse : string -> option Z)
    (toLowerCase : string -> string) (s : Script)
    : Page.World -> Page.World :=
  match s with
  | explorer_js => ExplorerJs.filterChats parse toLowerCase
  | detail_script => DetailExplorer.filterChats parse toLowerCase
  | plain_script => PlainExplorer.filterChats toLowerCase
  end.

(** What the second pass of [filterChats] leaves of a month group with
    [n] displayed cards. *)
Definition groupWith (n : Z) (g : Page.MonthGroup) : Page.MonthGroup :=
  if 0 <? n then
    {| Page.month := Page.month g; Page.group_display := display_default;
       Page.month_count := (fun _ => n) <$> Page.month_count g |}
  else
    {| Page.month := Page.month g; Page.group_display := display_none;
       Page.month_count := Page.month_count g |}.

(** The slider of the window, if there is one, has no listener or the
    listener that [init] of [public/js/explorer.js] registers. *)
Definition ownListener (parse : string -> option Z)
    (toLowerCase : string -> string) (win : Page.Window) : Prop :=
  match Page.slider win with
  | Some st =>
      TimeSlider.onRangeChangeCallback st = None
      \/ TimeSlider.onRangeChangeCallback st
         = Some (ExplorerJs.rangeListener parse toLowerCase)
  | None => True
  end.

(** *** The detail panel *)

(** The chat a call of [selectChat] has to show: the cached one, or the
    one the server answers with. *)
Definition chatFor (server : string -> DetailExplorer.Reply)
    (w : Page.World) (projectDir chatId : string) : option Page.ChatDetail :=
  match Page.chatCache w !! chatKey projectDir chatId with
  | Some data => Some data
  | None =>
      match server (chatUrl projectDir chatId) with
      | DetailExplorer.json data => Some data
      | _ => None
      end
  end.

(** The card is the one of the chat. *)
Definition isChat (projectDir chatId : string) (c : Page.Card) : bool :=
  bool_decide (Page.projectDir c = Some projectDir)
  && bool_decide (Page.chatId c = Some chatId).

(** *** Loading the page *)

(** The character occurs in the text. *)
Fixpoint contains (a : ascii) (s : string) : bool :=
  match s with
  | EmptyString => false
  | String c s' => Ascii.eqb c a || contains a s'
  end.

(** The slider of the window, if there is one, has no listener yet, as
    when the page loads. *)
Definition noListener (win : Page.Window) : Prop :=
  match Page.slider win with
  | Some st => TimeSlider.onRangeChangeCallback st = None
  | None => True
  end.

(** The tab with nothing stored under [returnContext]. *)
Definition withoutContext (b : Loading.Tab) : Loading.Tab :=
  {| Loading.window := Loading.window b; Loading.theme := Loading.theme b;
     Loading.returnContext := None; Loading.scrollY := Loading.scrollY b;
     Loading.scheduledScroll := Loading.scheduledScroll b;
     Loading.restoreErrors := Loading.restoreErrors b |}.

End Measures.

(** ** Further sample data *)

Module MoreSamples.

Import JSDate Notions Samples.

(** The first and the last of the daily buckets of [threeDays]. *)
Definition firstDay : TimeSlider.Bucket :=
  {| TimeSlider.date := 1704067200000; TimeSlider.key := 19723;
     TimeSlider.conversations := 1; TimeSlider.messages := 5;
     TimeSlider.granularity := TimeSlider.day |}.

Definition thirdDay : TimeSlider.Bucket :=
  {| TimeSlider.date := 1704240000000; TimeSlider.key := 19725;
     TimeSlider.conversations := 1; TimeSlider.messages := 2;
     TimeSlider.granularity := TimeSlider.day |}.

(** The first two of the weekly buckets of [twoMonths]: the weeks of
    Sunday 31 December 2023 and of Sunday 7 January 2024. *)
Definition firstWeek : TimeSlider.Bucket :=
  {| TimeSlider.date := 1703980800000; TimeSlider.key := 19722;
     TimeSlider.conversations := 1; TimeSlider.messages := 5;
     TimeSlider.granularity := TimeSlider.week |}.

Definition secondWeek : TimeSlider.Bucket :=
  {| TimeSlider.date := 1704585600000; TimeSlider.key := 19729;
     TimeSlider.conversations := 0; TimeSlider.messages := 0;
     TimeSlider.granularity := TimeSlider.week |}.

(** Europe/London in 2024: on UTC until 31 March, 01:00 UTC, an hour
    east of it until 27 October, 01:00 UTC, then on UTC again. *)
Definition london2024 : Zone :=
  {| offsetAt := fun t =>
       if t <? 1711846800000 then 0
       else if t <? 1729990800000 then 3600000 else 0;
     offsetOfLocal := fun l =>
       if l <? 1711846800000 + 3600000 then 0
       else if l <? 1729990800000 + 3600000 then 3600000 else 0 |}.

(** Two conversations at noon UTC, of 30 March and of 2 April 2024. *)
Definition aroundClockChange : list TimeSlider.Conversation :=
  [conversation "a" "2024-03-30T12:00:00Z" 5;
   conversation "a" "2024-04-02T12:00:00Z" 1].

(** The sample page with the date range of 1 January 2024 alone. *)
Definition firstDayPage : Page.World :=
  Page.set_dateRange (Some (Some 1704067200000)) (Some (Some 1704153599999))
    explorerPage.



(** The sample windows after a drag over the first two bars of the
    slider: the bars are selected and the listener has set the date
    range of the page. *)
Definition dragOver {E : Type} (st : TimeSlider.State E) (w : E)
    : TimeSlider.State E * E :=
  TimeSlider.handleMouseUp 0
    (TimeSlider.handleMouseMove (Some 1)
       (TimeSlider.handleMouseDown (Some 0) st)) w.

Definition draggedDetailWindow : Page.Window :=
  match Page.slider detailWindow with
  | Some st =>
      let r := dragOver st (Page.world detailWindow) in
      {| Page.world := r.2; Page.slider := Some r.1 |}
  | None => detailWindow
  end.

Definition draggedExplorerWindow : Page.Window :=
  match Page.slider explorerWindow with
  | Some st =>
      let r := dragOver st (Page.world explorerWindow) in
      {| Page.world := r.2; Page.slider := Some r.1 |}
  | None => explorerWindow
  end.

(** A listener that keeps the dates of its last call. *)
Definition lastCall : TimeSlider.Callback (option (DateArg * DateArg)) :=
  fun startDate endDate _ => Some (startDate, endDate).

(** A page in the dark theme with its toggle just checked, and the
    same page as served again, with "light" stored. *)
Definition toggledPage : Theme.Page :=
  {| Theme.stored := None; Theme.dataTheme := Some "dark"%string;
     Theme.toggleInput := Some true;
     Theme.darkIcon := Some true; Theme.lightIcon := Some false |}.

Definition reloadedPage : Theme.Page :=
  {| Theme.stored := Some "light"%string; Theme.dataTheme := None;
     Theme.toggleInput := Some false;
     Theme.darkIcon := Some false; Theme.lightIcon := Some false |}.

(** A server that knows the chat [p/a] only. *)
Definition oneChatServer (url : string) : DetailExplorer.Reply :=
  if String.eqb url "/api/chat/p/a" then DetailExplorer.json (chat "a" "hello")
  else DetailExplorer.http_error.

(** The explorer scrolled down with a date range chosen, and the tab
    that comes back to it with the context it saved. *)
Definition leavingTab : Loading.Tab :=
  {| Loading.window := {| Page.world := rangedPage; Page.slider := None |};
     Loading.theme := reloadedPage; Loading.returnContext := None;
     Loading.scrollY := 120; Loading.scheduledScroll := None;
     Loading.restoreErrors := 0 |}.

Definition returningTab : Loading.Tab :=
  {| Loading.window :=
       {| Page.world := explorerPage; Page.slider := Some (sliderOn threeDays) |};
     Loading.theme := reloadedPage;
     Loading.returnContext :=
       Loading.returnContext
         (Loading.saveNavigationContext Loading.isoString leavingTab);
     Loading.scrollY := 0; Loading.scheduledScroll := None;
     Loading.restoreErrors := 0 |}.

(** A tab opened at the address of the chat [p/a]. *)
Definition chatTab : Loading.Tab :=
  {| Loading.window :=
       {| Page.world :=
            Page.pushState {| Page.url_folder := None;
                              Page.url_chat := Some "p/a"%string |} explorerPage;
          Page.slider := Some (sliderOn threeDays) |};
     Loading.theme := reloadedPage; Loading.returnContext := None;
     Loading.scrollY := 0; Loading.scheduledScroll := None;
     Loading.restoreErrors := 0 |}.

End MoreSamples.

(** * Properties *)


Module TimeSliderFacts.
Import JSDate TimeSlider Notions.

Lemma msPerDay_eq : msPerDay = 86400000.
Proof. reflexivity. Qed.

Lemma msPerDay_pos : 0 < msPerDay.
Proof. rewrite msPerDay_eq. lia. Qed.

Lemma width_pos g : 0 < width g.
Proof. destruct g; unfold width; rewrite msPerDay_eq; lia. Qed.

(** *** The date methods in a zone with a fixed offset *)

Lemma localTime_fixed (tz : Z) t : localTime tz t = t + tz * 60000.
Proof. reflexivity. Qed.

Lemma setHours_0_fixed (tz : Z) t :
  setHours_0_0_0_0 tz t = t - localTime tz t mod msPerDay.
Proof.
  unfold setHours_0_0_0_0, utc. rewrite localTime_fixed. cbn [fixed offsetOfLocal].
  pose proof (Z.div_mod (t + tz * 60000) msPerDay ltac:(pose proof msPerDay_pos; lia)).
  lia.
Qed.

Lemma setHours_23_fixed (tz : Z) t :
  setHours_23_59_59_999 tz t = setHours_0_0_0_0 tz t + (msPerDay - 1).
Proof.
  unfold setHours_23_59_59_999, setHours_0_0_0_0, utc. cbn [fixed offsetOfLocal]. lia.
Qed.

Lemma addDays_fixed (tz : Z) t n : addDays tz t n = t + n * msPerDay.
Proof.
  unfold addDays, utc. rewrite localTime_fixed. cbn [fixed offsetOfLocal]. lia.
Qed.

(** [ceil_div] is the least integer at or above the quotient. *)
Lemma ceil_div_gt a b n : 0 < b -> (n < ceil_div a b <-> n * b < a).
Proof.
  intros Hb. unfold ceil_div.
  pose proof (Z.div_mod (- a) b ltac:(lia)) as Hdm.
  pose proof (Z.mod_pos_bound (- a) b Hb) as Hm.
  split; intros H; nia.
Qed.

Lemma chooseGranularity_spec lo hi :
  chooseGranularity lo hi = if decide (hi - lo <= 60 * msPerDay) then day else week.
Proof.
  unfold chooseGranularity.
  destruct (Z.ltb_spec 60 (ceil_div (hi - lo) msPerDay)) as [H|H];
    [apply ceil_div_gt in H; [|apply msPerDay_pos]
    |assert (~ 60 * msPerDay < hi - lo)
       by (intros H'; apply (ceil_div_gt _ _ 60 msPerDay_pos) in H'; lia)];
    destruct (decide _); try reflexivity; lia.
Qed.

Lemma getBucketKey_day tz t : getBucketKey tz t day = toISODate t.
Proof. reflexivity. Qed.

(** In a browser on UTC the weekly key is the Sunday of the week. *)
Lemma getBucketKey_week_utc t :
  isSunday (getBucketKey 0 t week)
  /\ getBucketKey 0 t week <= toISODate t < getBucketKey 0 t week + 7.
Proof.
  unfold isSunday, getBucketKey, getDay, toISODate.
  rewrite addDays_fixed, localTime_fixed.
  replace (t + 0 * 60000) with t by lia.
  rewrite Z.div_add by (rewrite msPerDay_eq; lia).
  set (q := t / msPerDay).
  pose proof (Z.mod_pos_bound (q + 4) 7 ltac:(lia)) as Hm.
  pose proof (Z.div_mod (q + 4) 7 ltac:(lia)) as Hdm.
  split; [|lia].
  replace (q + - ((q + 4) mod 7) + 4) with (7 * ((q + 4) / 7)) by lia.
  rewrite Z.mul_comm. apply Z.mod_mul. lia.
Qed.

(** In a browser on UTC a date has the key of the bucket that holds
    it. *)
Lemma getBucketKey_covering_utc g start t :
  aligned 0 g start -> start mod msPerDay = 0 ->
  start <= t < start + width g ->
  getBucketKey 0 t g = getBucketKey 0 start g.
Proof.
  intros Hal Hmid Ht.
  pose proof msPerDay_pos as HD.
  pose proof (Z.div_mod start msPerDay ltac:(lia)) as Hs. rewrite Hmid in Hs.
  pose proof (Z.div_mod t msPerDay ltac:(lia)) as Hdm.
  pose proof (Z.mod_pos_bound t msPerDay HD) as Hmb.
  destruct g; simpl in *.
  - unfold getBucketKey, toISODate.
    assert (t / msPerDay = start / msPerDay); [nia|done].
  - unfold getBucketKey, getDay, toISODate in *.
    rewrite !addDays_fixed, !localTime_fixed in *.
    replace (t + 0 * 60000) with t by lia.
    replace (start + 0 * 60000) with start in * by lia.
    rewrite Hal. rewrite !Z.div_add by lia.
    set (q := start / msPerDay) in *. set (p := t / msPerDay) in *.
    assert (Hp : q <= p < q + 7) by nia.
    pose proof (Z.div_mod (q + 4) 7 ltac:(lia)) as Hq7. rewrite Hal in Hq7.
    assert (Hr : (p + 4) mod 7 = p - q).
    { replace (p + 4) with ((p - q) + (q + 4) / 7 * 7) by lia.
      rewrite Z.mod_add by lia. apply Z.mod_small. lia. }
    rewrite Hr. lia.
Qed.

Section Zone.
(** The zone with the fixed offset of [tz] minutes. *)
Variable tz : Z.

Lemma setHours_0_le t : setHours_0_0_0_0 tz t <= t < setHours_0_0_0_0 tz t + msPerDay.
Proof.
  rewrite setHours_0_fixed.
  pose proof (Z.mod_pos_bound (localTime tz t) msPerDay msPerDay_pos). lia.
Qed.

Lemma localTime_add t n : localTime tz (t + n) = localTime tz t + n.
Proof. rewrite !localTime_fixed. lia. Qed.

Lemma setHours_0_local t :
  localTime tz (setHours_0_0_0_0 tz t) = localTime tz t / msPerDay * msPerDay.
Proof.
  rewrite setHours_0_fixed.
  replace (t - localTime tz t `mod` msPerDay) with (t + - (localTime tz t `mod` msPerDay)) by lia.
  rewrite localTime_add.
  pose proof (Z.div_mod (localTime tz t) msPerDay ltac:(pose proof msPerDay_pos; lia)). lia.
Qed.

Lemma getDay_range t : 0 <= getDay tz t < 7.
Proof. unfold getDay. apply Z.mod_pos_bound. lia. Qed.

Lemma getDay_addDays t n : getDay tz (addDays tz t n) = (getDay tz t + n) mod 7.
Proof.
  unfold getDay. rewrite addDays_fixed, localTime_add.
  rewrite Z.div_add by (rewrite msPerDay_eq; lia).
  rewrite Zplus_mod_idemp_l. f_equal. lia.
Qed.

(** The start of the week of [t] is a Sunday. *)
Lemma getDay_week_start t : getDay tz (addDays tz t (- getDay tz t)) = 0.
Proof.
  rewrite getDay_addDays. rewrite Z.add_opp_diag_r. reflexivity.
Qed.

Lemma getDay_next_week t : getDay tz t = 0 -> getDay tz (addDays tz t 7) = 0.
Proof. intros H. rewrite getDay_addDays, H. reflexivity. Qed.

Lemma getBucketKey_aligned g t : aligned tz g t -> getBucketKey tz t g = toISODate t.
Proof.
  destruct g; simpl; intros H; unfold getBucketKey; [reflexivity|].
  rewrite H, addDays_fixed. f_equal. lia.
Qed.

Lemma map_set_fresh k v (m : BucketMap) :
  (forall kv, kv ∈ m -> kv.1 <> k) -> map_set k v m = m ++ [(k, v)].
Proof.
  induction m as [|[k' v'] m IH]; intros H; simpl; [reflexivity|].
  destruct (Z.eqb_spec k' k) as [->|_].
  - exfalso. apply (H (k, v')); [left|reflexivity].
  - rewrite IH; [reflexivity|]. intros kv Hkv. apply H. by right.
Qed.

Lemma starts_S g start n :
  starts g start (S n) = start :: starts g (start + width g) n.
Proof.
  unfold starts. simpl. f_equal; [lia|].
  rewrite <- seq_shift, <- list_fmap_compose. apply list_fmap_ext.
  intros _ k _. simpl. lia.
Qed.

Lemma turns_S g current end_ :
  current <= end_ -> turns g current end_ = S (turns g (current + width g) end_).
Proof.
  intros H. unfold turns. pose proof (width_pos g) as Hw.
  destruct (Z.leb_spec current end_); [|lia]. f_equal.
  destruct (Z.leb_spec (current + width g) end_).
  - replace (end_ - current) with ((end_ - (current + width g)) + 1 * width g) by lia.
    rewrite Z.div_add by lia.
    pose proof (Z.div_pos (end_ - (current + width g)) (width g) ltac:(lia) Hw). lia.
  - rewrite Z.div_small by lia. reflexivity.
Qed.

Lemma next_current g current :
  match g with week => addDays tz current 7 | day => addDays tz current 1 end
  = current + width g.
Proof. destruct g; rewrite addDays_fixed; unfold width; lia. Qed.

Lemma aligned_next g current : aligned tz g current -> aligned tz g (current + width g).
Proof.
  destruct g; simpl; [done|]. intros H.
  replace (current + 7 * msPerDay) with (addDays tz current 7) by (rewrite addDays_fixed; lia).
  by apply getDay_next_week.
Qed.

Lemma toISODate_next g current : toISODate current < toISODate (current + width g).
Proof.
  unfold toISODate. pose proof msPerDay_pos.
  destruct g; simpl.
  - replace (current + msPerDay) with (current + 1 * msPerDay) by lia.
    rewrite Z.div_add by lia. lia.
  - rewrite Z.div_add by lia. lia.
Qed.

(** The loop ends by its own test, with one empty bucket per turn. *)
Lemma fillBuckets_run g end_ fuel : forall current m,
  aligned tz g current ->
  (forall kv, kv ∈ m -> kv.1 < toISODate current) ->
  (turns g current end_ <= fuel)%nat ->
  fillBuckets tz fuel current end_ g m
  = Some (m ++ (freshBucket tz g <$> starts g current (turns g current end_))).
Proof.
  induction fuel as [|fuel IH]; intros current m Hal Hm Hfuel.
  - simpl. unfold turns in *. destruct (Z.leb_spec current end_); [lia|].
    simpl. by rewrite app_nil_r.
  - simpl. destruct (Z.leb_spec current end_) as [Hle|Hgt].
    + rewrite (turns_S _ _ _ Hle) in Hfuel |- *.
      rewrite next_current, (getBucketKey_aligned _ _ Hal).
      rewrite map_set_fresh by (intros kv Hkv; specialize (Hm kv Hkv); lia).
      rewrite IH.
      * rewrite starts_S, fmap_cons, <- app_assoc. reflexivity.
      * by apply aligned_next.
      * intros kv [Hkv|Hkv%list_elem_of_singleton]%elem_of_app.
        -- specialize (Hm kv Hkv). pose proof (toISODate_next g current). lia.
        -- subst kv. simpl. apply toISODate_next.
      * lia.
    + unfold turns. destruct (Z.leb_spec current end_); [lia|].
      simpl. by rewrite app_nil_r.
Qed.

Lemma map_set_frame k v b (m : BucketMap) :
  map_get k m = Some b -> frame v = frame b ->
  frames (map_set k v m) = frames m.
Proof.
  unfold frames.
  induction m as [|[k' v'] m IH]; cbn [map_set map_get]; [done|]. intros Hget Hfr.
  destruct (Z.eqb_spec k' k) as [->|_]; rewrite !fmap_cons; cbn [snd].
  - injection Hget as ->. by rewrite Hfr.
  - by rewrite IH.
Qed.

Section Parse.
Variable parse : string -> option Z.

Lemma aggregate_frame g m conv :
  frames (aggregate tz parse g m conv) = frames m.
Proof.
  unfold aggregate. destruct (parse _); [|done].
  destruct (map_get _ m) as [b|] eqn:Hget; [|done].
  by apply (map_set_frame _ _ b).
Qed.

Lemma foldl_aggregate_frame g convs : forall m,
  frames (foldl (aggregate tz parse g) m convs) = frames m.
Proof.
  induction convs as [|c convs IH]; intros m; simpl; [done|].
  by rewrite IH, aggregate_frame.
Qed.
End Parse.

Lemma insert_by_date_head b l :
  match l with [] => True | b' :: _ => date b <= date b' end ->
  insert_by_date b l = b :: l.
Proof.
  destruct l as [|b' l]; simpl; [done|]. intros H.
  by destruct (Z.leb_spec (date b) (date b')); [|lia].
Qed.

(** Sorting a list already in date order changes nothing. *)
Lemma sort_by_date_sorted l :
  Sorted Z.le (date <$> l) -> sort_by_date l = l.
Proof.
  induction l as [|b l IH]; simpl; [done|]. intros Hs.
  apply Sorted_inv in Hs as [Hs Hhd].
  unfold sort_by_date in *. simpl. rewrite (IH Hs).
  apply insert_by_date_head. destruct l as [|b' l]; [done|].
  simpl in Hhd. by apply HdRel_inv in Hhd.
Qed.

Lemma starts_sorted g n : forall start, Sorted Z.le (starts g start n).
Proof.
  induction n as [|n IH]; intros start; [constructor|].
  rewrite starts_S. constructor; [apply IH|].
  destruct n; [constructor|]. rewrite starts_S. constructor.
  pose proof (width_pos g). lia.
Qed.

Lemma starts_lookup g start n (i : nat) :
  (i < n)%nat -> starts g start n !! i = Some (start + Z.of_nat i * width g).
Proof.
  intros H. unfold starts. rewrite list_lookup_fmap, lookup_seq_lt by done.
  reflexivity.
Qed.

Lemma length_starts g start n : length (starts g start n) = n.
Proof. unfold starts. by rewrite length_fmap, length_seq. Qed.

Lemma firstStart_aligned g minDate : aligned tz g (firstStart tz g minDate).
Proof. destruct g; simpl; [done|]. apply getDay_week_start. Qed.

Lemma firstStart_covers g minDate :
  firstStart tz g minDate <= minDate < firstStart tz g minDate + width g.
Proof.
  pose proof (setHours_0_le minDate).
  destruct g; simpl; [lia|].
  pose proof (getDay_range (setHours_0_0_0_0 tz minDate)).
  rewrite addDays_fixed. pose proof msPerDay_pos. nia.
Qed.

(** The first bucket starts at a local midnight. *)
Lemma firstStart_midnight g minDate :
  exists q, localTime tz (firstStart tz g minDate) = q * msPerDay.
Proof.
  destruct g; simpl.
  - eexists. apply setHours_0_local.
  - rewrite addDays_fixed. rewrite localTime_add, setHours_0_local.
    eexists (_ - _). rewrite Z.mul_sub_distr_r. f_equal.
    rewrite Z.mul_opp_l. reflexivity.
Qed.

Section Parse2.
Variable parse : string -> option Z.

Lemma fuel_enough g start end_ :
  (turns g start end_ <= Z.to_nat ((end_ - start) / msPerDay + 1))%nat.
Proof.
  unfold turns. destruct (Z.leb_spec start end_) as [Hle|_]; [|lia].
  pose proof msPerDay_pos as HD. pose proof (width_pos g) as Hw.
  assert ((end_ - start) / width g <= (end_ - start) / msPerDay).
  { apply Z.div_le_compat_l; [lia|]. destruct g; simpl; lia. }
  pose proof (Z.div_pos (end_ - start) (width g) ltac:(lia) Hw). lia.
Qed.

Lemma createBuckets_spec minDate maxDate g convs :
  exists bs,
    createBuckets tz parse minDate maxDate g convs = Some bs
    /\ frame <$> bs
       = (fun c => (c, getBucketKey tz c g, g))
         <$> starts g (firstStart tz g minDate)
               (turns g (firstStart tz g minDate) (setHours_23_59_59_999 tz maxDate)).
Proof.
  unfold createBuckets. fold (firstStart tz g minDate).
  set (start := firstStart tz g minDate).
  set (end_ := setHours_23_59_59_999 tz maxDate).
  rewrite (fillBuckets_run g end_ _ start []).
  - simpl.
    set (m := foldl _ _ _).
    assert (Hfr : frames m
                  = (fun c => (c, getBucketKey tz c g, g)) <$> starts g start (turns g start end_)).
    { subst m. rewrite foldl_aggregate_frame. unfold frames.
      rewrite <- list_fmap_compose. apply list_fmap_ext.
      intros _ c _. reflexivity. }
    assert (Hd : date <$> m.*2 = starts g start (turns g start end_)).
    { transitivity ((fun f : Z * Z * Granularity => f.1.1) <$> frames m).
      - unfold frames. rewrite <- !list_fmap_compose. by apply list_fmap_ext.
      - rewrite Hfr, <- list_fmap_compose. rewrite <- (list_fmap_id (starts _ _ _)) at 2.
        by apply list_fmap_ext. }
    exists (m.*2). split.
    + f_equal. apply sort_by_date_sorted. rewrite Hd. apply starts_sorted.
    + rewrite <- Hfr. unfold frames. by rewrite <- list_fmap_compose.
  - apply firstStart_aligned.
  - intros kv Hkv. by apply elem_of_nil in Hkv.
  - apply fuel_enough.
Qed.

Lemma minimum_le ds : forall d x, x = d \/ x ∈ ds -> minimum d ds <= x.
Proof.
  unfold minimum.
  assert (Hmono : forall ds d, foldl Z.min d ds <= d).
  { clear. induction ds as [|y ds IH]; intros d; simpl; [lia|].
    specialize (IH (Z.min d y)). lia. }
  induction ds as [|y ds IH]; intros d x Hx; simpl.
  - destruct Hx as [->|Hx]; [lia|]. by apply elem_of_nil in Hx.
  - destruct Hx as [->|[->|Hx]%elem_of_cons].
    + specialize (Hmono ds (Z.min d y)). lia.
    + specialize (Hmono ds (Z.min d y)). lia.
    + apply IH. by right.
Qed.

Lemma minimum_in ds : forall d, minimum d ds ∈ d :: ds.
Proof.
  unfold minimum. induction ds as [|y ds IH]; intros d; simpl; [by left|].
  specialize (IH (Z.min d y)).
  apply elem_of_cons in IH as [->|IH].
  - destruct (Z.min_spec d y) as [[_ ->]|[_ ->]]; [by left|right; by left].
  - right. by right.
Qed.

Lemma maximum_ge ds : forall d x, x = d \/ x ∈ ds -> x <= maximum d ds.
Proof.
  unfold maximum.
  assert (Hmono : forall ds d, d <= foldl Z.max d ds).
  { clear. induction ds as [|y ds IH]; intros d; simpl; [lia|].
    specialize (IH (Z.max d y)). lia. }
  induction ds as [|y ds IH]; intros d x Hx; simpl.
  - destruct Hx as [->|Hx]; [lia|]. by apply elem_of_nil in Hx.
  - destruct Hx as [->|[->|Hx]%elem_of_cons].
    + specialize (Hmono ds (Z.max d y)). lia.
    + specialize (Hmono ds (Z.max d y)). lia.
    + apply IH. by right.
Qed.

Lemma maximum_in ds : forall d, maximum d ds ∈ d :: ds.
Proof.
  unfold maximum. induction ds as [|y ds IH]; intros d; simpl; [by left|].
  specialize (IH (Z.max d y)).
  apply elem_of_cons in IH as [->|IH].
  - destruct (Z.max_spec d y) as [[_ ->]|[_ ->]]; [right; by left|by left].
  - right. by right.
Qed.

(** The last bucket starts no later than the latest date. *)
Lemma last_start_le g minDate maxDate (q : Z) :
  minDate <= maxDate -> 0 <= q ->
  firstStart tz g minDate + q * width g <= setHours_23_59_59_999 tz maxDate ->
  firstStart tz g minDate + q * width g <= maxDate.
Proof.
  intros Hmm Hq Hle.
  destruct (firstStart_midnight g minDate) as [a Ha].
  pose proof (setHours_0_local maxDate) as Hb.
  pose proof (setHours_0_le maxDate) as Hc.
  rewrite setHours_23_fixed in Hle.
  unfold localTime in Ha, Hb; cbn [fixed offsetAt] in Ha, Hb.
  set (s := firstStart tz g minDate) in *.
  set (m := setHours_0_0_0_0 tz maxDate) in *.
  set (b := (maxDate + tz * 60000) / msPerDay) in *.
  assert (Hw : exists k, width g = k * msPerDay) by (destruct g; [exists 1|exists 7]; simpl; lia).
  destruct Hw as [k Hk]. rewrite Hk in *.
  pose proof msPerDay_pos.
  assert (s + q * (k * msPerDay) - m = (a + q * k - b) * msPerDay) by lia.
  assert (a + q * k - b <= 0) by nia.
  nia.
Qed.

(** In a zone with a fixed offset: with [lo] and [hi] the earliest
    and the latest date that parses, [processData] gives daily
    buckets when [hi - lo] is at most 60 days and weekly buckets
    when it is more; the buckets are [S n] consecutive days or
    weeks, the first holding [lo] and the last holding [hi],
    whatever their counts. *)
Theorem processData_span convs lo hi :
  lo ∈ validDates parse convs -> hi ∈ validDates parse convs ->
  (forall t, t ∈ validDates parse convs -> lo <= t <= hi) ->
  let g := if decide (hi - lo <= 60 * msPerDay) then day else week in
  exists bs start (n : nat),
    processData tz parse convs = Some bs
    /\ Forall (fun b => granularity b = g) bs
    /\ date <$> bs = starts g start (S n)
    /\ start <= lo < start + width g
    /\ start + Z.of_nat n * width g <= hi < start + Z.of_nat (S n) * width g.
Proof.
  intros Hlo Hhi Hall g.
  unfold processData.
  destruct convs as [|c convs']; [by apply elem_of_nil in Hlo|].
  set (convs := c :: convs') in *. clearbody convs.
  destruct (validDates parse convs) as [|d ds] eqn:Hv; [by apply elem_of_nil in Hlo|].
  assert (Hmin : minimum d ds = lo).
  { pose proof (minimum_in ds d) as Hin. apply Hall in Hin.
    pose proof (minimum_le ds d lo) as Hle.
    apply elem_of_cons in Hlo. specialize (Hle Hlo). lia. }
  assert (Hmax : maximum d ds = hi).
  { pose proof (maximum_in ds d) as Hin. apply Hall in Hin.
    pose proof (maximum_ge ds d hi) as Hle.
    apply elem_of_cons in Hhi. specialize (Hle Hhi). lia. }
  rewrite Hmin, Hmax, chooseGranularity_spec. fold g.
  destruct (createBuckets_spec lo hi g convs) as (bs & Hbs & Hfr).
  assert (Hlh : lo <= hi) by (apply Hall in Hlo; lia).
  pose proof (firstStart_covers g lo) as Hcov.
  pose proof (setHours_0_le hi) as Hend.
  set (start := firstStart tz g lo) in *.
  set (end_ := setHours_23_59_59_999 tz hi) in *.
  assert (Hse : start <= end_) by (unfold end_; rewrite setHours_23_fixed; lia).
  pose proof (width_pos g) as Hw.
  set (q := (end_ - start) / width g).
  assert (Hq : 0 <= q) by (apply Z.div_pos; lia).
  assert (Hturns : turns g start end_ = S (Z.to_nat q)).
  { unfold turns. destruct (Z.leb_spec start end_); [done|lia]. }
  rewrite Hturns in Hfr.
  exists bs, start, (Z.to_nat q). split; [done|].
  split; [|split; [|split; [done|]]].
  - apply Forall_forall. intros b Hb.
    apply (list_elem_of_fmap_2 frame) in Hb. rewrite Hfr in Hb.
    apply list_elem_of_fmap in Hb as (x & Hx & _).
    unfold frame in Hx. by injection Hx.
  - transitivity ((fun f : Z * Z * Granularity => f.1.1) <$> (frame <$> bs)).
    + rewrite <- list_fmap_compose. by apply list_fmap_ext.
    + rewrite Hfr, <- list_fmap_compose.
      rewrite <- (list_fmap_id (starts _ _ _)) at 2. by apply list_fmap_ext.
  - rewrite Z2Nat.id by done.
    pose proof (Z.div_mod (end_ - start) (width g) ltac:(lia)) as Hdm.
    pose proof (Z.mod_pos_bound (end_ - start) (width g) Hw) as Hmb.
    fold q in Hdm. split.
    + apply (last_start_le g lo hi q); [done|done|]. fold start end_. nia.
    + unfold end_ in *. rewrite setHours_23_fixed in *. nia.
Qed.

(** [processData] always gives a bucket list. *)
Lemma processData_total convs : is_Some (processData tz parse convs).
Proof.
  unfold processData. destruct convs as [|c convs]; [done|].
  destruct (validDates parse (c :: convs)) as [|d ds]; [done|].
  destruct (createBuckets_spec (minimum d ds) (maximum d ds)
              (chooseGranularity (minimum d ds) (maximum d ds)) (c :: convs))
    as (bs & -> & _).
  done.
Qed.
End Parse2.
End Zone.
End TimeSliderFacts.
Module CountFacts.
Import JSDate TimeSlider Notions TimeSliderFacts.

Lemma map_get_set_eq k v (m : BucketMap) : map_get k (map_set k v m) = Some v.
Proof.
  induction m as [|[k' v'] m IH]; simpl.
  - by rewrite Z.eqb_refl.
  - destruct (Z.eqb_spec k' k) as [->|Hne]; simpl.
    + by rewrite Z.eqb_refl.
    + destruct (Z.eqb_spec k' k); [done|]. exact IH.
Qed.

Lemma map_get_set_ne k k' v (m : BucketMap) :
  k <> k' -> map_get k (map_set k' v m) = map_get k m.
Proof.
  intros Hne. induction m as [|[k0 v0] m IH]; simpl.
  - destruct (Z.eqb_spec k' k); [congruence|done].
  - destruct (Z.eqb_spec k0 k') as [->|Hne0]; simpl.
    + destruct (Z.eqb_spec k' k); [congruence|done].
    + destruct (Z.eqb_spec k0 k); [done|]. exact IH.
Qed.

Lemma map_set_keys k v b (m : BucketMap) :
  map_get k m = Some b -> (map_set k v m).*1 = m.*1.
Proof.
  induction m as [|[k' v'] m IH]; cbn [map_set map_get]; [done|]. intros Hget.
  destruct (Z.eqb_spec k' k) as [->|_]; rewrite !fmap_cons; cbn [fst]; [done|].
  by rewrite IH.
Qed.

Lemma map_get_elem k b (m : BucketMap) :
  NoDup m.*1 -> (k, b) ∈ m -> map_get k m = Some b.
Proof.
  induction m as [|[k' v'] m IH]; intros Hnd Hin; [by apply elem_of_nil in Hin|].
  rewrite fmap_cons in Hnd. apply NoDup_cons in Hnd as [Hnotin Hnd].
  simpl. apply elem_of_cons in Hin as [[= <- <-]|Hin].
  - by rewrite Z.eqb_refl.
  - destruct (Z.eqb_spec k' k) as [->|_]; [|by apply IH].
    exfalso. apply Hnotin. simpl.
    apply list_elem_of_fmap. by exists (k, b).
Qed.

Section Zone.
(** The zone with the fixed offset of [tz] minutes. *)
Variable tz : Z.
Variable parse : string -> option Z.

Lemma aggregate_keys g m conv : (aggregate tz parse g m conv).*1 = m.*1.
Proof.
  unfold aggregate. destruct (parse _); [|done].
  destruct (map_get _ m) as [b|] eqn:Hget; [|done].
  by apply (map_set_keys _ _ b).
Qed.

Lemma foldl_aggregate_keys g convs : forall m,
  (foldl (aggregate tz parse g) m convs).*1 = m.*1.
Proof.
  induction convs as [|c convs IH]; intros m; simpl; [done|].
  by rewrite IH, aggregate_keys.
Qed.

Lemma aggregate_get g k m b c :
  map_get k m = Some b ->
  exists b',
    map_get k (aggregate tz parse g m c) = Some b'
    /\ frame b' = frame b
    /\ conversations b'
       = conversations b + (if hasKey tz parse g k c then 1 else 0)
    /\ messages b'
       = messages b
         + (if hasKey tz parse g k c then default 0 (conv_messages c) else 0).
Proof.
  intros Hget. unfold aggregate, hasKey.
  destruct (parse (conv_date c)) as [t|];
    [|exists b; split_and!; [done|done|lia|lia]].
  destruct (Z.eqb_spec (getBucketKey tz t g) k) as [->|Hne].
  - rewrite Hget. eexists. split; [apply map_get_set_eq|]. done.
  - destruct (map_get (getBucketKey tz t g) m) as [bt|].
    + exists b. rewrite map_get_set_ne by done. split_and!; [done|done|lia|lia].
    + exists b. split_and!; [done|done|lia|lia].
Qed.

(** The aggregation adds to the bucket of a key the conversations with
    that key. *)
Lemma foldl_aggregate_get g k convs : forall m b,
  map_get k m = Some b ->
  exists b',
    map_get k (foldl (aggregate tz parse g) m convs) = Some b'
    /\ frame b' = frame b
    /\ conversations b'
       = conversations b + Z.of_nat (length (List.filter (hasKey tz parse g k) convs))
    /\ messages b'
       = messages b + messagesOf (List.filter (hasKey tz parse g k) convs).
Proof.
  induction convs as [|c convs IH]; intros m b Hget.
  - exists b. simpl. split_and!; [done|done|lia|unfold messagesOf; simpl; lia].
  - change (foldl (aggregate tz parse g) m (c :: convs))
      with (foldl (aggregate tz parse g) (aggregate tz parse g m c) convs).
    destruct (aggregate_get g k m b c Hget) as (b1 & Hg1 & Hf1 & Hc1 & Hm1).
    destruct (IH _ b1 Hg1) as (b' & Hg' & Hf' & Hc' & Hm').
    exists b'. split; [done|]. split; [congruence|].
    cbn [List.filter]. destruct (hasKey tz parse g k c).
    + split.
      * rewrite Hc', Hc1. simpl length. lia.
      * rewrite Hm', Hm1. unfold messagesOf. simpl. lia.
    + split.
      * rewrite Hc', Hc1. lia.
      * rewrite Hm', Hm1. lia.
Qed.

Lemma starts_ge g n : forall c x, x ∈ starts g c n -> c <= x.
Proof.
  induction n as [|n IH]; intros c x Hx; [by apply elem_of_nil in Hx|].
  rewrite starts_S in Hx. apply elem_of_cons in Hx as [->|Hx]; [lia|].
  apply IH in Hx. pose proof (width_pos g). lia.
Qed.

Lemma starts_keys_NoDup g n : forall c, NoDup (toISODate <$> starts g c n).
Proof.
  induction n as [|n IH]; intros c; [constructor|].
  rewrite starts_S, fmap_cons. apply NoDup_cons. split; [|apply IH].
  intros Hin. apply list_elem_of_fmap in Hin as (x & Hx & Hin).
  apply starts_ge in Hin.
  pose proof (toISODate_next g c) as Hlt.
  assert (toISODate (c + width g) <= toISODate x).
  { unfold toISODate. apply Z.div_le_mono; [apply msPerDay_pos|done]. }
  lia.
Qed.

Lemma starts_aligned g n : forall c,
  aligned tz g c -> Forall (aligned tz g) (starts g c n).
Proof.
  induction n as [|n IH]; intros c Hc; [constructor|].
  rewrite starts_S. constructor; [done|]. apply IH. by apply aligned_next.
Qed.

Lemma starts_midnight g n : forall c,
  c mod msPerDay = 0 -> Forall (fun x => x mod msPerDay = 0) (starts g c n).
Proof.
  induction n as [|n IH]; intros c Hc; [constructor|].
  rewrite starts_S. constructor; [done|]. apply IH.
  assert (Hw : exists k, width g = k * msPerDay)
    by (destruct g; [exists 1|exists 7]; simpl; lia).
  destruct Hw as [k ->]. by rewrite Z.mod_add by (rewrite msPerDay_eq; lia).
Qed.

(** [createBuckets] returns the values of the map in their order. *)
Lemma createBuckets_map minDate maxDate g convs :
  let m0 := freshBucket tz g
              <$> starts g (firstStart tz g minDate)
                    (turns g (firstStart tz g minDate)
                       (setHours_23_59_59_999 tz maxDate)) in
  createBuckets tz parse minDate maxDate g convs
  = Some (foldl (aggregate tz parse g) m0 convs).*2.
Proof.
  intros m0. unfold createBuckets. fold (firstStart tz g minDate).
  set (start := firstStart tz g minDate) in *.
  set (end_ := setHours_23_59_59_999 tz maxDate) in *.
  rewrite (fillBuckets_run tz g end_ _ start []).
  - simpl. fold m0. f_equal. apply sort_by_date_sorted.
    assert (Hd : date <$> (foldl (aggregate tz parse g) m0 convs).*2
                 = starts g start (turns g start end_)); [|rewrite Hd; apply starts_sorted].
    transitivity ((fun f : Z * Z * Granularity => f.1.1)
                    <$> frames (foldl (aggregate tz parse g) m0 convs)).
    + unfold frames. rewrite <- !list_fmap_compose.
      apply list_fmap_ext. by intros ? [] ?.
    + rewrite foldl_aggregate_frame. subst m0. unfold frames.
      rewrite <- !list_fmap_compose.
      rewrite <- (list_fmap_id (starts _ _ _)) at 2.
      apply list_fmap_ext. by intros ? c ?.
  - apply firstStart_aligned.
  - intros kv Hkv. by apply elem_of_nil in Hkv.
  - apply fuel_enough.
Qed.

(** Each bucket of [createBuckets] counts the conversations that have
    its key. *)
Lemma createBuckets_counts minDate maxDate g convs bs b :
  createBuckets tz parse minDate maxDate g convs = Some bs -> b ∈ bs ->
  date b ∈ starts g (firstStart tz g minDate)
             (turns g (firstStart tz g minDate) (setHours_23_59_59_999 tz maxDate))
  /\ granularity b = g
  /\ conversations b
     = Z.of_nat (length (List.filter (hasKey tz parse g (toISODate (date b))) convs))
  /\ messages b
     = messagesOf (List.filter (hasKey tz parse g (toISODate (date b))) convs).
Proof.
  rewrite createBuckets_map.
  set (sts := starts g _ _). set (m0 := freshBucket tz g <$> sts).
  set (mf := foldl _ _ _). intros [= <-] Hb.
  apply list_elem_of_fmap in Hb as ([k b'] & -> & Hin). simpl.
  assert (Hk0 : m0.*1 = toISODate <$> sts).
  { subst m0. rewrite <- list_fmap_compose. by apply list_fmap_ext. }
  assert (Hkf : mf.*1 = toISODate <$> sts)
    by (subst mf; by rewrite foldl_aggregate_keys).
  assert (Hkin : k ∈ toISODate <$> sts).
  { rewrite <- Hkf. apply list_elem_of_fmap. by exists (k, b'). }
  apply list_elem_of_fmap in Hkin as (c & -> & Hc).
  assert (Hget0 : map_get (toISODate c) m0 = Some (emptyBucket tz c g)).
  { apply map_get_elem; [rewrite Hk0; apply starts_keys_NoDup|].
    subst m0. apply list_elem_of_fmap. by exists c. }
  destruct (foldl_aggregate_get g (toISODate c) convs m0 _ Hget0)
    as (b1 & Hg1 & Hf1 & Hc1 & Hm1).
  fold mf in Hg1.
  assert (b1 = b') as ->.
  { assert (map_get (toISODate c) mf = Some b') as Hg'
      by (apply map_get_elem; [rewrite Hkf; apply starts_keys_NoDup|done]).
    congruence. }
  unfold frame in Hf1. simpl in Hf1. injection Hf1 as Hd _ Hg.
  rewrite Hd, Hg. split_and!; [done|done|by rewrite Hc1|by rewrite Hm1].
Qed.
End Zone.

(** In a browser on UTC a date has the key of a bucket exactly when the
    bucket holds it. *)
Lemma getBucketKey_utc_iff g c t :
  aligned 0 g c -> c mod msPerDay = 0 ->
  getBucketKey 0 t g = toISODate c <-> c <= t < c + width g.
Proof.
  intros Hal Hmid. split.
  - intros Hkey.
    pose proof msPerDay_pos as HD.
    pose proof (Z.div_mod c msPerDay ltac:(lia)) as Hc. rewrite Hmid in Hc.
    pose proof (Z.div_mod t msPerDay ltac:(lia)) as Hdm.
    pose proof (Z.mod_pos_bound t msPerDay HD) as Hmb.
    unfold toISODate in *.
    destruct g.
    + unfold getBucketKey, toISODate in Hkey. simpl. nia.
    + destruct (getBucketKey_week_utc t) as [_ Hr]. rewrite Hkey in Hr.
      unfold toISODate in Hr. simpl. nia.
  - intros Ht. rewrite (getBucketKey_covering_utc g c t Hal Hmid Ht).
    by apply getBucketKey_aligned.
Qed.

Section Utc.
Variable parse : string -> option Z.

Lemma firstStart_utc_midnight g minDate : firstStart 0 g minDate mod msPerDay = 0.
Proof.
  destruct (firstStart_midnight 0 g minDate) as [q Hq].
  unfold localTime in Hq; cbn [fixed offsetAt] in Hq.
  replace (firstStart 0 g minDate) with (q * msPerDay) by lia.
  apply Z.mod_mul. rewrite msPerDay_eq. lia.
Qed.

(** In a browser on UTC every bucket of [processData] counts the
    conversations whose date parses and lies within it, and adds up
    their messages. *)
Lemma processData_counts_utc convs bs b :
  processData 0 parse convs = Some bs -> b ∈ bs ->
  conversations b = Z.of_nat (length (List.filter (inBucket parse b) convs))
  /\ messages b = messagesOf (List.filter (inBucket parse b) convs).
Proof.
  unfold processData. destruct convs as [|c0 convs']; [by intros [= <-] ?%elem_of_nil|].
  set (convs := c0 :: convs'). clearbody convs.
  destruct (validDates parse convs) as [|d ds]; [by intros [= <-] ?%elem_of_nil|].
  set (g := chooseGranularity _ _). set (lo := minimum d ds). set (hi := maximum d ds).
  intros Hcb Hb.
  destruct (createBuckets_counts 0 parse lo hi g convs bs b Hcb Hb)
    as (Hd & Hg & Hc & Hm).
  set (sts := starts g _ _) in Hd.
  assert (Hal : aligned 0 g (date b)).
  { pose proof (starts_aligned 0 g (turns g (firstStart 0 g lo) (setHours_23_59_59_999 0 hi))
                  _ (firstStart_aligned 0 g lo)) as Hall.
    rewrite Forall_forall in Hall. by apply Hall. }
  assert (Hmid : date b mod msPerDay = 0).
  { pose proof (starts_midnight g (turns g (firstStart 0 g lo) (setHours_23_59_59_999 0 hi))
                  _ (firstStart_utc_midnight g lo)) as Hall.
    rewrite Forall_forall in Hall. by apply Hall. }
  assert (Hext : forall c, hasKey 0 parse g (toISODate (date b)) c = inBucket parse b c).
  { intros c. unfold hasKey, inBucket. destruct (parse (conv_date c)) as [t|]; [|done].
    rewrite Hg. apply eq_true_iff_eq.
    rewrite Z.eqb_eq, andb_true_iff, Z.leb_le, Z.ltb_lt.
    by apply getBucketKey_utc_iff. }
  rewrite (List.filter_ext _ _ Hext) in Hc, Hm. done.
Qed.
End Utc.
End CountFacts.


Module SelectionFacts.
Import JSDate TimeSlider Notions.

(** [findIndex] gives the first position where the test holds, or -1. *)
Lemma findIndexFrom_spec p bs : forall i,
  0 <= i ->
  (findIndexFrom i p bs = -1 /\ Forall (fun b => p b = false) bs)
  \/ (exists (n : nat) b,
        findIndexFrom i p bs = i + Z.of_nat n
        /\ bs !! n = Some b /\ p b = true
        /\ Forall (fun b => p b = false) (take n bs)).
Proof.
  induction bs as [|b bs IH]; intros i Hi; simpl.
  - left. split; [done|constructor].
  - destruct (p b) eqn:Hp.
    + right. exists 0%nat, b. repeat split; [lia|done|constructor].
    + destruct (IH (i + 1) ltac:(lia)) as [[Hf Hall]|(n & b' & Hf & Hl & Hpb & Hall)].
      * left. split; [done|by constructor].
      * right. exists (S n), b'. repeat split; [lia|done|done|].
        simpl. by constructor.
Qed.

Lemma findIndex_spec p bs :
  (findIndex p bs = -1 /\ Forall (fun b => p b = false) bs)
  \/ (exists (n : nat) b,
        findIndex p bs = Z.of_nat n
        /\ bs !! n = Some b /\ p b = true
        /\ Forall (fun b => p b = false) (take n bs)).
Proof.
  unfold findIndex.
  destruct (findIndexFrom_spec p bs 0 ltac:(lia)) as [H|(n & b & H1 & H2)]; [by left|].
  right. exists n, b. by rewrite H1.
Qed.

Lemma bucket_at_nat (bs : list Bucket) (n : nat) : bucket_at bs (Z.of_nat n) = bs !! n.
Proof.
  unfold bucket_at. destruct (Z.ltb_spec (Z.of_nat n) 0); [lia|].
  by rewrite Nat2Z.id.
Qed.

Section Listener.
Context {E : Type}.
Variable tz : Zone.

Implicit Types st : State E.

(** Setters and what they leave in place. *)
Lemma render_buckets st : buckets (render st) = buckets st.
Proof.
  unfold render, updateSelectionOverlay, selectionBounds.
  repeat case_match; done.
Qed.

Lemma render_selection st :
  selectionStart (render st) = selectionStart st
  /\ selectionEnd (render st) = selectionEnd st.
Proof.
  unfold render, updateSelectionOverlay, selectionBounds.
  repeat case_match; done.
Qed.

Lemma render_callback st : onRangeChangeCallback (render st) = onRangeChangeCallback st.
Proof.
  unfold render, updateSelectionOverlay, selectionBounds.
  repeat case_match; done.
Qed.

Lemma render_drag st : isDragging (render st) = isDragging st.
Proof.
  unfold render, updateSelectionOverlay, selectionBounds.
  repeat case_match; done.
Qed.

Ltac frame :=
  unfold showClearRangeBtn, hideRangeDisplay, updateRangeDisplay, selectionBounds;
  repeat case_match; done.

Lemma showClearRangeBtn_frame d st :
  buckets (showClearRangeBtn d st) = buckets st
  /\ selectionStart (showClearRangeBtn d st) = selectionStart st
  /\ selectionEnd (showClearRangeBtn d st) = selectionEnd st
  /\ onRangeChangeCallback (showClearRangeBtn d st) = onRangeChangeCallback st
  /\ isDragging (showClearRangeBtn d st) = isDragging st.
Proof. frame. Qed.

Lemma hideRangeDisplay_frame st :
  buckets (hideRangeDisplay st) = buckets st
  /\ selectionStart (hideRangeDisplay st) = selectionStart st
  /\ selectionEnd (hideRangeDisplay st) = selectionEnd st
  /\ onRangeChangeCallback (hideRangeDisplay st) = onRangeChangeCallback st
  /\ isDragging (hideRangeDisplay st) = isDragging st.
Proof. frame. Qed.

Lemma updateRangeDisplay_frame st :
  buckets (updateRangeDisplay st) = buckets st
  /\ selectionStart (updateRangeDisplay st) = selectionStart st
  /\ selectionEnd (updateRangeDisplay st) = selectionEnd st
  /\ onRangeChangeCallback (updateRangeDisplay st) = onRangeChangeCallback st
  /\ isDragging (updateRangeDisplay st) = isDragging st.
Proof. frame. Qed.

(** The state after the last three steps of [setSelection] and of
    [handleMouseUp] keeps the buckets and the indices just stored. *)
Lemma shown_frame st :
  let st' := updateRangeDisplay (showClearRangeBtn display_inline_block st) in
  buckets st' = buckets st
  /\ selectionStart st' = selectionStart st
  /\ selectionEnd st' = selectionEnd st
  /\ onRangeChangeCallback st' = onRangeChangeCallback st.
Proof.
  intros st'. subst st'.
  destruct (updateRangeDisplay_frame (showClearRangeBtn display_inline_block st))
    as (-> & -> & -> & -> & _).
  destruct (showClearRangeBtn_frame display_inline_block st) as (-> & -> & -> & -> & _).
  done.
Qed.

Lemma setSelection_state st (w : E) startTime endDate :
  let endTime := match endDate with Some t => t | None => startTime end in
  let r := setSelection tz (Some startTime) endDate st w in
  buckets r.1 = buckets st
  /\ selectionStart r.1 = Some (startIndex startTime (buckets st))
  /\ selectionEnd r.1 = Some (endIndex endTime (buckets st))
  /\ onRangeChangeCallback r.1 = onRangeChangeCallback st
  /\ r.2 = w.
Proof.
  intros endTime r. subst r. unfold setSelection. cbn [fst snd].
  rewrite render_buckets, render_callback.
  destruct (render_selection
              (updateRangeDisplay
                 (showClearRangeBtn display_inline_block
                    (set_selection
                       (Some (startIndex startTime (buckets st)))
                       (Some (endIndex endTime (buckets st))) st)))) as [Hs He].
  unfold startIndex, endIndex in *. fold endTime.
  rewrite Hs, He.
  destruct (shown_frame
              (set_selection
                 (Some (if findIndex (atOrAfter startTime) (buckets st) =? -1
                        then 0 else findIndex (atOrAfter startTime) (buckets st)))
                 (Some (if findIndex (atOrAfter endTime) (buckets st) =? -1
                        then Z.of_nat (length (buckets st)) - 1
                        else findIndex (atOrAfter endTime) (buckets st))) st))
    as (-> & -> & -> & ->).
  done.
Qed.

Lemma atOrAfter_true t b : atOrAfter t b = true <-> exists s, t = Some s /\ s <= date b.
Proof.
  unfold atOrAfter. destruct t as [s|].
  - rewrite Z.leb_le. split; [by exists s|]. by intros (? & [= <-] & ?).
  - split; [done|]. by intros (? & ? & _).
Qed.

Lemma atOrAfter_false s b : atOrAfter (Some s) b = false <-> date b < s.
Proof. unfold atOrAfter. by rewrite Z.leb_gt. Qed.

Lemma startIndex_spec s bs :
  bs <> [] ->
  exists n : nat,
    startIndex (Some s) bs = Z.of_nat n
    /\ (firstAtOrAfter s bs n
        \/ (n = 0%nat /\ Forall (fun b => date b < s) bs)).
Proof.
  intros Hne. unfold startIndex.
  destruct (findIndex_spec (atOrAfter (Some s)) bs) as [[-> Hall]|(n & b & -> & Hl & Hp & Hall)].
  - exists 0%nat. split; [done|]. right. split; [done|].
    eapply Forall_impl; [exact Hall|]. intros b. apply atOrAfter_false.
  - exists n. destruct (Z.eqb_spec (Z.of_nat n) (-1)); [lia|]. split; [done|].
    left. split.
    + exists b. split; [done|]. apply atOrAfter_true in Hp as (? & [= <-] & ?). done.
    + eapply Forall_impl; [exact Hall|]. intros b'. apply atOrAfter_false.
Qed.

Lemma endIndex_spec e bs :
  bs <> [] ->
  exists n : nat,
    endIndex (Some e) bs = Z.of_nat n
    /\ (firstAtOrAfter e bs n
        \/ (S n = length bs /\ Forall (fun b => date b < e) bs)).
Proof.
  intros Hne. unfold endIndex.
  destruct (findIndex_spec (atOrAfter (Some e)) bs) as [[-> Hall]|(n & b & -> & Hl & Hp & Hall)].
  - destruct bs as [|b0 bs]; [done|]. exists (length bs). split.
    + simpl. lia.
    + right. split; [done|].
      eapply Forall_impl; [exact Hall|]. intros b. apply atOrAfter_false.
  - exists n. destruct (Z.eqb_spec (Z.of_nat n) (-1)); [lia|]. split; [done|].
    left. split.
    + exists b. split; [done|]. apply atOrAfter_true in Hp as (? & [= <-] & ?). done.
    + eapply Forall_impl; [exact Hall|]. intros b'. apply atOrAfter_false.
Qed.

Lemma index_order startTime endTime bs :
  bs <> [] -> inOrder startTime endTime ->
  0 <= startIndex startTime bs <= endIndex endTime bs
  /\ endIndex endTime bs < Z.of_nat (length bs).
Proof.
  intros Hne Hord. unfold startIndex, endIndex.
  assert (Hlen : (0 < length bs)%nat) by (destruct bs; [done|simpl; lia]).
  destruct (findIndex_spec (atOrAfter startTime) bs)
    as [[-> _]|(n1 & b1 & -> & Hl1 & Hp1 & Hall1)];
    destruct (findIndex_spec (atOrAfter endTime) bs)
    as [[-> _]|(n2 & b2 & -> & Hl2 & Hp2 & Hall2)]; simpl.
  - lia.
  - apply lookup_lt_Some in Hl2.
    destruct (Z.eqb_spec (Z.of_nat n2) (-1)); lia.
  - apply lookup_lt_Some in Hl1.
    destruct (Z.eqb_spec (Z.of_nat n1) (-1)); lia.
  - pose proof (lookup_lt_Some _ _ _ Hl1). pose proof (lookup_lt_Some _ _ _ Hl2).
    destruct (Z.eqb_spec (Z.of_nat n1) (-1)); [lia|].
    destruct (Z.eqb_spec (Z.of_nat n2) (-1)); [lia|].
    split; [|lia]. split; [lia|].
    destruct (decide (n1 <= n2)%nat) as [|Hgt]; [lia|exfalso].
    apply atOrAfter_true in Hp1 as (s & -> & Hs).
    apply atOrAfter_true in Hp2 as (e & -> & He).
    specialize (Hord s e eq_refl eq_refl).
    assert (Hin : take n1 bs !! n2 = Some b2) by (rewrite lookup_take_lt by lia; done).
    rewrite Forall_lookup in Hall1. specialize (Hall1 _ _ Hin).
    apply atOrAfter_false in Hall1. lia.
Qed.

Lemma getSelection_at st (i j : nat) b1 b2 :
  selectionStart st = Some (Z.of_nat i) -> selectionEnd st = Some (Z.of_nat j) ->
  (i <= j)%nat -> buckets st !! i = Some b1 -> buckets st !! j = Some b2 ->
  getSelection st = Some (Some (date b1), Some (date b2)).
Proof.
  intros Hs He Hij H1 H2. unfold getSelection, selectionBounds.
  rewrite Hs, He. simpl.
  rewrite Z.min_l, Z.max_r by lia.
  by rewrite !bucket_at_nat, H1, H2.
Qed.

(** C4, as amended: for a bucket list that is not empty and a request
    [s <= e], [setSelection] followed by [getSelection] returns the
    dates of the buckets [i <= j], where [i] is the first bucket dated
    [s] or later, or bucket 0 when every bucket is earlier than [s],
    and [j] is the first bucket dated [e] or later, or the last bucket
    when every bucket is earlier than [e]. *)
Theorem setSelection_getSelection_first st (w : E) (s : Z) (endDate : option Z) :
  buckets st <> [] -> s <= default s endDate ->
  let e := default s endDate in
  let st' := (setSelection tz (Some (Some s)) (Some <$> endDate) st w).1 in
  exists (i j : nat) b1 b2,
    buckets st !! i = Some b1 /\ buckets st !! j = Some b2 /\ (i <= j)%nat
    /\ getSelection st' = Some (Some (date b1), Some (date b2))
    /\ (firstAtOrAfter s (buckets st) i
        \/ (i = 0%nat /\ Forall (fun b => date b < s) (buckets st)))
    /\ (firstAtOrAfter e (buckets st) j
        \/ (S j = length (buckets st) /\ Forall (fun b => date b < e) (buckets st))).
Proof.
  intros Hne Hse e st'.
  destruct (setSelection_state st w (Some s) (Some <$> endDate)) as (Hb & Hs & He & _).
  fold st' in Hb, Hs, He.
  assert (Hend : match Some <$> endDate with Some t => t | None => Some s end = Some e)
    by (subst e; by destruct endDate).
  rewrite Hend in He.
  destruct (startIndex_spec s (buckets st) Hne) as (i & Hi & Hfirst).
  destruct (endIndex_spec e (buckets st) Hne) as (j & Hj & Hlast).
  destruct (index_order (Some s) (Some e) (buckets st) Hne) as [Hord Hlt].
  { intros ? ? [= <-] [= <-]. done. }
  rewrite Hi, Hj in Hord. rewrite Hj in Hlt. rewrite Hi in Hs. rewrite Hj in He.
  destruct (lookup_lt_is_Some_2 (buckets st) i ltac:(lia)) as [b1 H1].
  destruct (lookup_lt_is_Some_2 (buckets st) j ltac:(lia)) as [b2 H2].
  exists i, j, b1, b2. repeat split; try done; [lia|].
  apply (getSelection_at st' i j); try done; [lia|by rewrite Hb|by rewrite Hb].
Qed.

Lemma handleMouseDown_dragging st i :
  0 <= i < Z.of_nat (length (buckets st)) ->
  dragging st i (handleMouseDown (Some i) st).
Proof.
  intros Hi. unfold handleMouseDown, dragging.
  rewrite render_buckets, render_drag.
  destruct (render_selection
              (set_selection (Some i) (Some i) (set_drag true (Some i) st))) as [-> ->].
  simpl. split_and!; [done..|by exists i].
Qed.

Lemma handleMouseMove_dragging st0 i st index :
  dragging st0 i st -> onBar st0 index -> dragging st0 i (handleMouseMove index st).
Proof.
  intros (Hb & Hd & Hs & j & He & Hj) Hon. unfold handleMouseMove. rewrite Hd.
  destruct index as [k|]; [|split_and!; [done..|by exists j]].
  unfold dragging. rewrite render_buckets, render_drag.
  destruct (render_selection (set_selection (selectionStart st) (Some k) st)) as [-> ->].
  simpl in *. split_and!; [done..|by exists k].
Qed.

Lemma moves_dragging st0 i moves : forall st,
  dragging st0 i st -> Forall (onBar st0) moves ->
  dragging st0 i (foldl (fun s m => handleMouseMove m s) st moves).
Proof.
  induction moves as [|m moves IH]; intros st Hd Hall; simpl; [done|].
  apply Forall_cons in Hall as [Hm Hall].
  apply IH; [|done]. by apply handleMouseMove_dragging.
Qed.

Lemma handleMouseUp_dropped st (w : E) s :
  isDragging st = true -> selectionStart st = Some s ->
  handleMouseUp tz st w = (dropped st s, notifyRangeChange tz (dropped st s) w).
Proof.
  intros Hd Hs. unfold handleMouseUp, dropped. rewrite Hd.
  cbn [selectionStart set_drag]. rewrite Hs. reflexivity.
Qed.

Lemma handleMouseUp_dragging st0 i st (w : E) :
  0 <= i < Z.of_nat (length (buckets st0)) -> dragging st0 i st ->
  exists a b,
    selectionStart (handleMouseUp tz st w).1 = Some a
    /\ selectionEnd (handleMouseUp tz st w).1 = Some b
    /\ 0 <= a <= b /\ b < Z.of_nat (length (buckets (handleMouseUp tz st w).1)).
Proof.
  intros Hi (Hb & Hd & Hs & j & He & Hj).
  rewrite (handleMouseUp_dropped st w i Hd Hs). cbn [fst]. unfold dropped.
  rewrite He. cbv [default from_option id].
  destruct (shown_frame
              (set_selection (Some (i `min` j)) (Some (i `max` j))
                 (set_drag false (dragStartIndex st) st))) as (Hb' & Hs' & He' & _).
  exists (i `min` j), (i `max` j). rewrite Hb', Hs', He'.
  simpl. rewrite Hb. split_and!; (done || lia).
Qed.

(** C5, as amended: a drag over the bars that ends with
    [handleMouseUp], and [setSelection] on a bucket list that is not
    empty with its times in order, leave indices with
    [0 <= selectionStart <= selectionEnd < buckets.length]. *)
Theorem selection_in_order :
  (forall st (w : E) i moves,
      0 <= i < Z.of_nat (length (buckets st)) -> Forall (onBar st) moves ->
      let st1 := foldl (fun s m => handleMouseMove m s)
                   (handleMouseDown (Some i) st) moves in
      let st2 := (handleMouseUp tz st1 w).1 in
      exists a b,
        selectionStart st2 = Some a /\ selectionEnd st2 = Some b
        /\ 0 <= a <= b /\ b < Z.of_nat (length (buckets st2)))
  /\ (forall st (w : E) startTime endDate,
        buckets st <> [] ->
        inOrder startTime (match endDate with Some t => t | None => startTime end) ->
        let st' := (setSelection tz (Some startTime) endDate st w).1 in
        exists a b,
          selectionStart st' = Some a /\ selectionEnd st' = Some b
          /\ 0 <= a <= b /\ b < Z.of_nat (length (buckets st'))).
Proof.
  split.
  - intros st w i moves Hi Hmoves st1 st2.
    apply (handleMouseUp_dragging st i); [done|].
    apply moves_dragging; [|done]. by apply handleMouseDown_dragging.
  - intros st w startTime endDate Hne Hord st'.
    destruct (setSelection_state st w startTime endDate) as (Hb & Hs & He & _).
    fold st' in Hb, Hs, He. rewrite Hb.
    destruct (index_order _ _ (buckets st) Hne Hord) as [H1 H2].
    eauto 10.
Qed.

Lemma index_range t bs :
  bs <> [] ->
  0 <= startIndex t bs < Z.of_nat (length bs)
  /\ 0 <= endIndex t bs < Z.of_nat (length bs).
Proof.
  intros Hne. unfold startIndex, endIndex.
  assert (Hlen : (0 < length bs)%nat) by (destruct bs; [done|simpl; lia]).
  destruct (findIndex_spec (atOrAfter t) bs) as [[-> _]|(n & b & -> & Hl & _)]; simpl.
  - lia.
  - apply lookup_lt_Some in Hl. destruct (Z.eqb_spec (Z.of_nat n) (-1)); lia.
Qed.

Lemma bucket_at_in_range (bs : list Bucket) i :
  0 <= i < Z.of_nat (length bs) -> is_Some (bucket_at bs i).
Proof.
  intros Hi. unfold bucket_at. destruct (Z.ltb_spec i 0); [lia|].
  apply lookup_lt_is_Some_2. lia.
Qed.

Lemma isIndexInSelection_ext st st' index :
  selectionStart st = selectionStart st' -> selectionEnd st = selectionEnd st' ->
  isIndexInSelection st index = isIndexInSelection st' index.
Proof. unfold isIndexInSelection. by intros -> ->. Qed.

Lemma renderBar_ext st st' n b :
  selectionStart st = selectionStart st' -> selectionEnd st = selectionEnd st' ->
  renderBar st n b = renderBar st' n b.
Proof.
  intros Hs He. unfold renderBar. by rewrite (isIndexInSelection_ext st st').
Qed.

Lemma render_bars st h b bs :
  histogramBars (dom st) = Some h -> buckets st = b :: bs ->
  histogramBars (dom (render st))
  = Some (Bars (imap (renderBar (render st)) (buckets st)) (renderLabels (buckets st))).
Proof.
  intros Hh Hb.
  assert (imap (renderBar (render st)) (buckets st) = imap (renderBar st) (buckets st)) as ->.
  { apply imap_ext. intros n x _. apply renderBar_ext; apply render_selection. }
  unfold render. rewrite Hh, Hb. unfold updateSelectionOverlay, selectionBounds.
  repeat case_match; done.
Qed.

Lemma render_rangeDisplay st : rangeDisplay (dom (render st)) = rangeDisplay (dom st).
Proof.
  unfold render, updateSelectionOverlay, selectionBounds.
  repeat case_match; done.
Qed.

Lemma updateRangeDisplay_shown st rd s b1 b2 :
  rangeDisplay (dom st) = Some rd -> selectionStart st = Some s ->
  bucket_at (buckets st) (Z.min s (default s (selectionEnd st))) = Some b1 ->
  bucket_at (buckets st) (Z.max s (default s (selectionEnd st))) = Some b2 ->
  rangeDisplay (dom (updateRangeDisplay st))
  = Some (display_block,
          if Z.min s (default s (selectionEnd st)) =? Z.max s (default s (selectionEnd st))
          then one_date (date b1) else two_dates (date b1) (date b2)).
Proof.
  intros Hrd Hs H1 H2. unfold updateRangeDisplay, selectionBounds.
  rewrite Hrd, Hs, H1, H2. reflexivity.
Qed.

Lemma updateRangeDisplay_dom st :
  histogramBars (dom (updateRangeDisplay st)) = histogramBars (dom st).
Proof. frame. Qed.

Lemma showClearRangeBtn_dom d st :
  histogramBars (dom (showClearRangeBtn d st)) = histogramBars (dom st)
  /\ rangeDisplay (dom (showClearRangeBtn d st)) = rangeDisplay (dom st).
Proof. frame. Qed.
End Listener.
End SelectionFacts.

Module ListenerFacts.
Import JSDate TimeSlider Notions TimeSliderFacts SelectionFacts.

Section Listener.
Context {E : Type}.
(** The zone with the fixed offset of [tz] minutes. *)
Variable tz : Z.
Variable parse : string -> option Z.

Implicit Types st : State E.

Lemma quiet_step ev st (w : E) r :
  notifying ev = false -> step tz parse ev st w = Some r -> r.2 = w.
Proof.
  destruct ev as [i|i| | |i|i| | | |cb| |f| |[s|] e]; simpl; try done;
    intros _ [= <-]; done.
Qed.

Lemma notifyRangeChange_cleared st (w : E) cb :
  onRangeChangeCallback st = Some cb -> selectionStart st = None ->
  notifyRangeChange tz st w = cb None None w.
Proof. intros Hcb Hs. unfold notifyRangeChange. by rewrite Hcb, Hs. Qed.

Lemma clearSelection_state st (w : E) :
  let r := clearSelection tz st w in
  selectionStart r.1 = None /\ selectionEnd r.1 = None
  /\ buckets r.1 = buckets st
  /\ onRangeChangeCallback r.1 = onRangeChangeCallback st.
Proof.
  intros r. subst r. unfold clearSelection. cbn [fst].
  rewrite render_buckets, render_callback.
  destruct (render_selection
              (hideRangeDisplay
                 (showClearRangeBtn display_none (set_selection None None st))))
    as [-> ->].
  destruct (hideRangeDisplay_frame
              (showClearRangeBtn display_none (set_selection None None st)))
    as (-> & -> & -> & -> & _).
  destruct (showClearRangeBtn_frame display_none (set_selection None None st))
    as (-> & -> & -> & -> & _).
  done.
Qed.

Lemma clearSelection_notifies st (w : E) cb :
  onRangeChangeCallback st = Some cb ->
  (clearSelection tz st w).2 = cb None None w.
Proof.
  intros Hcb.
  destruct (clearSelection_state st w) as (Hs & _ & _ & Hc).
  unfold clearSelection in *. cbn [fst snd] in *.
  apply notifyRangeChange_cleared; [by rewrite Hc|done].
Qed.

Lemma filterByFolder_state folder st (w : E) :
  exists st',
    filterByFolder tz parse folder st w = Some (st', notifyRangeChange tz st' w)
    /\ selectionStart st' = None /\ selectionEnd st' = None
    /\ onRangeChangeCallback st' = onRangeChangeCallback st.
Proof.
  unfold filterByFolder.
  set (st1 := hideRangeDisplay _).
  set (data := if String.eqb _ _ then _ else _).
  destruct (processData_total tz parse data) as [bs ->]. simpl.
  eexists. split; [reflexivity|].
  rewrite render_callback.
  destruct (render_selection (set_buckets bs st1)) as [-> ->]. simpl.
  subst st1.
  destruct (hideRangeDisplay_frame
              (showClearRangeBtn display_none
                 (set_selection None None (set_currentFolder (default "" folder) st))))
    as (_ & -> & -> & -> & _).
  destruct (showClearRangeBtn_frame display_none
              (set_selection None None (set_currentFolder (default "" folder) st)))
    as (_ & -> & -> & -> & _).
  done.
Qed.

Lemma filterByFolder_notifies folder st (w : E) cb :
  onRangeChangeCallback st = Some cb ->
  exists st',
    filterByFolder tz parse folder st w = Some (st', cb None None w)
    /\ selectionStart st' = None /\ selectionEnd st' = None
    /\ onRangeChangeCallback st' = Some cb.
Proof.
  intros Hcb.
  destruct (filterByFolder_state folder st w) as (st' & Hf & Hs & He & Hc).
  exists st'. rewrite Hf. split_and!; [|done|done|congruence].
  by rewrite (notifyRangeChange_cleared st' w cb) by congruence.
Qed.

Lemma handleMouseUp_notifies st (w : E) cb s :
  onRangeChangeCallback st = Some cb ->
  isDragging st = true -> selectionStart st = Some s ->
  let e := default s (selectionEnd st) in
  (handleMouseUp tz st w).2
  = cb (Some <$> (date <$> bucket_at (buckets st) (Z.min s e)))
       (Some <$> ((fun b => setHours_23_59_59_999 tz (date b))
                    <$> bucket_at (buckets st) (Z.max s e))) w.
Proof.
  intros Hcb Hd Hs e. rewrite (handleMouseUp_dropped tz st w s Hd Hs). cbn [snd].
  unfold dropped. fold e.
  destruct (shown_frame
              (set_selection (Some (s `min` e)) (Some (s `max` e))
                 (set_drag false (dragStartIndex st) st))) as (Hb' & Hs' & He' & Hc').
  unfold notifyRangeChange. rewrite Hc', Hs', He', Hb'. simpl. rewrite Hcb.
  unfold selectionBounds. simpl.
  rewrite Z.min_l, Z.max_r by lia. reflexivity.
Qed.

(** What [setSelection] writes. *)
Lemma setSelection_updates st (w : E) startTime endDate :
  let endTime := match endDate with Some t => t | None => startTime end in
  let a := startIndex startTime (buckets st) in
  let b := endIndex endTime (buckets st) in
  let r := setSelection tz (Some startTime) endDate st w in
  selectionStart r.1 = Some a /\ selectionEnd r.1 = Some b
  /\ (forall h, histogramBars (dom st) = Some h -> buckets st <> [] ->
        histogramBars (dom r.1)
        = Some (Bars (imap (renderBar r.1) (buckets st)) (renderLabels (buckets st))))
  /\ (forall rd, rangeDisplay (dom st) = Some rd -> buckets st <> [] ->
        exists b1 b2,
          bucket_at (buckets st) (Z.min a b) = Some b1
          /\ bucket_at (buckets st) (Z.max a b) = Some b2
          /\ rangeDisplay (dom r.1)
             = Some (display_block,
                     if Z.min a b =? Z.max a b then one_date (date b1)
                     else two_dates (date b1) (date b2))).
Proof.
  intros endTime a b r.
  destruct (setSelection_state tz st w startTime endDate) as (Hb & Hs & He & _).
  fold r endTime a b in Hb, Hs, He.
  split; [done|]. split; [done|].
  set (st1 := set_selection (Some a) (Some b) st).
  set (st2 := showClearRangeBtn display_inline_block st1).
  set (st3 := updateRangeDisplay st2).
  assert (Hr : r.1 = render st3) by reflexivity.
  split.
  - intros h Hh Hne. rewrite Hr.
    destruct (buckets st) as [|b0 bs] eqn:Hbs; [done|].
    assert (Hb3 : buckets st3 = b0 :: bs).
    { subst st3 st2. destruct (updateRangeDisplay_frame
                 (showClearRangeBtn display_inline_block st1)) as (-> & _).
      by destruct (showClearRangeBtn_frame display_inline_block st1) as (-> & _). }
    rewrite <- Hb3. apply (render_bars st3 h b0 bs); [|done].
    subst st3 st2. rewrite updateRangeDisplay_dom.
    by destruct (showClearRangeBtn_dom display_inline_block st1) as [-> _].
  - intros rd Hrd Hne.
    destruct (index_range startTime (buckets st) Hne) as [Ha _].
    destruct (index_range endTime (buckets st) Hne) as [_ Hbb].
    fold a in Ha. fold b in Hbb.
    destruct (bucket_at_in_range (buckets st) (Z.min a b) ltac:(lia)) as [b1 H1].
    destruct (bucket_at_in_range (buckets st) (Z.max a b) ltac:(lia)) as [b2 H2].
    exists b1, b2. split; [done|]. split; [done|].
    rewrite Hr, render_rangeDisplay. subst st3.
    destruct (showClearRangeBtn_frame display_inline_block st1) as (Hb2 & Hs2 & He2 & _).
    destruct (showClearRangeBtn_dom display_inline_block st1) as [_ Hrd2].
    fold st2 in Hb2, Hs2, He2, Hrd2.
    rewrite (updateRangeDisplay_shown st2 rd a b1 b2).
    + by rewrite He2.
    + by rewrite Hrd2.
    + by rewrite Hs2.
    + by rewrite Hb2, He2.
    + by rewrite Hb2, He2.
Qed.

(** C10: [setSelection] with a start date stores the indices, redraws
    the bars and the range display, and leaves the listener's state as
    it was; so does every event and call outside [notifying]; while
    [clearSelection], [filterByFolder] and the end of a drag in
    [handleMouseUp] run the registered listener. *)
Theorem setSelection_is_silent st (w : E) :
  (forall startTime endDate,
      let endTime := match endDate with Some t => t | None => startTime end in
      let a := startIndex startTime (buckets st) in
      let b := endIndex endTime (buckets st) in
      let r := setSelection tz (Some startTime) endDate st w in
      r.2 = w
      /\ selectionStart r.1 = Some a /\ selectionEnd r.1 = Some b
      /\ (forall h, histogramBars (dom st) = Some h -> buckets st <> [] ->
            histogramBars (dom r.1)
            = Some (Bars (imap (renderBar r.1) (buckets st))
                         (renderLabels (buckets st))))
      /\ (forall rd, rangeDisplay (dom st) = Some rd -> buckets st <> [] ->
            exists b1 b2,
              bucket_at (buckets st) (Z.min a b) = Some b1
              /\ bucket_at (buckets st) (Z.max a b) = Some b2
              /\ rangeDisplay (dom r.1)
                 = Some (display_block,
                         if Z.min a b =? Z.max a b then one_date (date b1)
                         else two_dates (date b1) (date b2))))
  /\ (forall ev r,
        notifying ev = false -> step tz parse ev st w = Some r -> r.2 = w)
  /\ (forall cb,
        onRangeChangeCallback st = Some cb ->
        (clearSelection tz st w).2 = cb None None w
        /\ (forall folder, exists st',
               filterByFolder tz parse folder st w = Some (st', cb None None w))
        /\ (forall s,
               isDragging st = true -> selectionStart st = Some s ->
               let e := default s (selectionEnd st) in
               (handleMouseUp tz st w).2
               = cb (Some <$> (date <$> bucket_at (buckets st) (Z.min s e)))
                    (Some <$> ((fun b => setHours_23_59_59_999 tz (date b))
                                 <$> bucket_at (buckets st) (Z.max s e))) w)).
Proof.
  split; [|split].
  - intros startTime endDate endTime a b r.
    destruct (setSelection_updates st w startTime endDate) as (Hs & He & Hbars & Hrd).
    split; [|by split_and!]. reflexivity.
  - intros ev r. apply quiet_step.
  - intros cb Hcb. split; [by apply clearSelection_notifies|]. split.
    + intros folder.
      destruct (filterByFolder_notifies folder st w cb Hcb) as (st' & Hf & _).
      by exists st'.
    + intros s Hd Hs. by apply handleMouseUp_notifies.
Qed.
End Listener.
End ListenerFacts.

Module FilterFacts.
Import JSDate JSString Page Notions.

Lemma truthy_false s : truthy s = false <-> s = ""%string.
Proof.
  unfold truthy. rewrite negb_false_iff. apply String.eqb_eq.
Qed.

Lemma prefix_spec t : forall s,
  String.prefix t s = true <-> exists post, s = (t +:+ post)%string.
Proof.
  induction t as [|c t IH]; intros s; simpl.
  - split; [intros _; by exists s|by destruct s].
  - destruct s as [|c' s]; [split; [done|by intros [? ?]]|].
    simpl. destruct (Ascii.ascii_dec c c') as [->|Hne].
    + rewrite IH. split; intros [post H]; exists post; [by rewrite H|by injection H].
    + split; [done|]. intros [post H]. injection H as <- _. done.
Qed.

(** [includes] finds exactly the substrings. *)
Lemma includes_spec t : forall s,
  includes s t = true <-> exists pre post, s = (pre +:+ t +:+ post)%string.
Proof.
  induction s as [|c s IH]; cbn [includes]; rewrite orb_true_iff, prefix_spec.
  - split.
    + intros [[post H]|?]; [|done]. by exists ""%string, post.
    + intros (pre & post & H). left. destruct pre; [by exists post|done].
  - rewrite IH. split.
    + intros [[post H]|(pre & post & H)]; [by exists ""%string, post|].
      exists (String c pre), post. simpl. by rewrite H.
    + intros ([|c' pre] & post & H).
      * left. by exists post.
      * right. simpl in H. injection H as _ ->. by exists pre, post.
Qed.

Lemma matchesFolder_spec folder c :
  matchesFolder folder (default ""%string (project c)) = true <-> folderPasses folder c.
Proof.
  unfold matchesFolder, folderPasses.
  rewrite orb_true_iff, negb_true_iff, truthy_false, String.eqb_eq. done.
Qed.

Lemma matchesSearch_spec (toLowerCase : LowerCase) q c :
  matchesSearch toLowerCase (toLowerCase q)
    (toLowerCase (default ""%string (title c)))
    (toLowerCase (default ""%string (searchable c)))
    (default ""%string (project c)) = true
  <-> searchPasses toLowerCase q c.
Proof.
  unfold matchesSearch, searchPasses, ciSubstring.
  rewrite !orb_true_iff, negb_true_iff, truthy_false, lower_empty, !includes_spec.
  tauto.
Qed.

(** [new Date(card.dataset.date)] is the date of the card. *)
Lemma cardDate_dateOf parse c : cardDate parse (date c) = dateOf parse c.
Proof. unfold cardDate, dateOf. by destruct (date c). Qed.

Lemma matchesDateRange_spec parse start end_ c :
  matchesDateRange parse start end_ (date c) = true
  <-> datePasses (dateOf parse c) start end_.
Proof.
  unfold matchesDateRange, datePasses. rewrite cardDate_dateOf.
  destruct (dateOf parse c) as [t|].
  - destruct start as [[s|]|], end_ as [[e|]|]; simpl;
      repeat match goal with
             | |- context [?a <? ?b] => destruct (Z.ltb_spec a b)
             end; simpl;
      split; try done;
      try (intros _; split; intros ? [= <-]; lia);
      try (intros [H1 H2]; try specialize (H1 _ eq_refl);
           try specialize (H2 _ eq_refl); lia).
  - by destruct (_ || _).
Qed.

Lemma foldl_visitCard shown cs : forall done n mc,
  (foldl (visitCard shown) (done, n, mc) cs).1.1 = done ++ (showCard shown <$> cs).
Proof.
  induction cs as [|c cs IH]; intros done n mc; [simpl; by rewrite app_nil_r|].
  change (foldl (visitCard shown) (done, n, mc) (c :: cs))
    with (foldl (visitCard shown) (visitCard shown (done, n, mc) c) cs).
  destruct (visitCard shown (done, n, mc) c) as [[d' n'] mc'] eqn:Hv.
  rewrite IH, fmap_cons. unfold visitCard, showCard in *.
  destruct (shown c); injection Hv as <- _ _; by rewrite <- app_assoc.
Qed.

Lemma applyFilter_cards shown w :
  cards (applyFilter shown w) = showCard shown <$> cards w.
Proof.
  unfold applyFilter.
  pose proof (foldl_visitCard shown (cards w) [] 0 ∅) as H.
  destruct (foldl _ _ _) as [[cs n] mc]. simpl in *. done.
Qed.

Lemma applyFilter_frame shown w :
  currentFolder (applyFilter shown w) = currentFolder w
  /\ searchTerm (applyFilter shown w) = searchTerm w
  /\ dateRangeStart (applyFilter shown w) = dateRangeStart w
  /\ dateRangeEnd (applyFilter shown w) = dateRangeEnd w
  /\ chatCache (applyFilter shown w) = chatCache w
  /\ console (applyFilter shown w) = console w.
Proof.
  unfold applyFilter. destruct (foldl _ _ _) as [[cs n] mc]. done.
Qed.

Lemma showCard_visible shown c :
  (card_display (showCard shown c) = display_default <-> shown c = true)
  /\ (card_display (showCard shown c) = display_none <-> shown c = false).
Proof. unfold showCard. destruct (shown c); simpl; split; split; done. Qed.

Section Parse.
Variable parse : string -> option Z.
Variable toLowerCase : LowerCase.

Lemma shown_explorer_spec w q c :
  searchTerm w = toLowerCase q ->
  ExplorerJs.shown parse toLowerCase w c = true
  <-> folderPasses (currentFolder w) c /\ searchPasses toLowerCase q c
      /\ datePasses (dateOf parse c) (dateRangeStart w) (dateRangeEnd w).
Proof.
  intros Hq. unfold ExplorerJs.shown. rewrite Hq.
  rewrite !andb_true_iff, matchesFolder_spec, matchesSearch_spec, matchesDateRange_spec.
  tauto.
Qed.

Lemma shown_detail_spec w q c :
  searchTerm w = toLowerCase q ->
  DetailExplorer.shown parse toLowerCase w c = true
  <-> folderPasses (currentFolder w) c /\ searchPasses toLowerCase q c
      /\ datePasses (dateOf parse c) (dateRangeStart w) (dateRangeEnd w)
      /\ warmupPasses (ignoreWarmup w) c.
Proof.
  intros Hq. unfold DetailExplorer.shown. rewrite Hq.
  rewrite !andb_true_iff, matchesFolder_spec, matchesSearch_spec, matchesDateRange_spec.
  assert (negb (ignoreWarmup w) || negb (bool_decide (warmup c = Some "true"%string)) = true
          <-> warmupPasses (ignoreWarmup w) c) as ->; [|tauto].
  unfold warmupPasses. destruct (ignoreWarmup w); simpl.
  - rewrite negb_true_iff, bool_decide_eq_false. split; auto.
  - split; done.
Qed.

(** [handleSearch] stores the text of the search box in lower case. *)
Lemma handleSearch_searchTerm w :
  searchTerm (ExplorerJs.handleSearch parse toLowerCase w)
  = toLowerCase (default ""%string (searchInput w))
  /\ searchTerm (DetailExplorer.handleSearch parse toLowerCase w)
     = toLowerCase (default ""%string (searchInput w)).
Proof.
  unfold ExplorerJs.handleSearch, DetailExplorer.handleSearch,
    ExplorerJs.filterChats, DetailExplorer.filterChats.
  split;
    match goal with
    | |- context [applyFilter ?f ?w] =>
        destruct (applyFilter_frame f w) as (_ & -> & _)
    end; simpl; (destruct (searchInput w); simpl;
                  [done|symmetry; by apply lower_empty]).
Qed.

Lemma applyFilter_card shown w (i : nat) c :
  cards w !! i = Some c ->
  cards (applyFilter shown w) !! i = Some (showCard shown c).
Proof. intros H. by rewrite applyFilter_cards, list_lookup_fmap, H. Qed.

Lemma not_true_iff_false' b : b = false <-> ~ b = true.
Proof. destruct b; split; try done; intros H; by destruct H. Qed.

(** C1: with [q] the text of the search box, [filterChats] leaves a
    card visible exactly when its project is the active folder (or no
    folder is active), [q] occurs in its title, its searchable text or
    its project with letter case ignored (or [q] is empty), its date,
    read from its [data-date], is within the bounds that are set (or
    is no date) and, on the page with the detail panel, it is not a
    warmup chat while these are ignored; it hides the card otherwise
    and changes nothing else of it.  This for every [toLowerCase] that
    maps the empty text, and no other, to the empty text. *)
Theorem filterChats_visible_iff w q (i : nat) c :
  searchTerm w = toLowerCase q -> cards w !! i = Some c ->
  let passes :=
    folderPasses (currentFolder w) c /\ searchPasses toLowerCase q c
    /\ datePasses (dateOf parse c) (dateRangeStart w) (dateRangeEnd w) in
  (exists c',
      cards (ExplorerJs.filterChats parse toLowerCase w) !! i = Some c'
      /\ c' = set_card_display (card_display c') c
      /\ (card_display c' = display_default <-> passes)
      /\ (card_display c' = display_none <-> ~ passes))
  /\ (exists c',
        cards (DetailExplorer.filterChats parse toLowerCase w) !! i = Some c'
        /\ c' = set_card_display (card_display c') c
        /\ (card_display c' = display_default
            <-> passes /\ warmupPasses (ignoreWarmup w) c)
        /\ (card_display c' = display_none
            <-> ~ (passes /\ warmupPasses (ignoreWarmup w) c))).
Proof.
  intros Hq Hc passes. split.
  - exists (showCard (ExplorerJs.shown parse toLowerCase w) c).
    destruct (showCard_visible (ExplorerJs.shown parse toLowerCase w) c) as [Hv Hh].
    split; [by apply applyFilter_card|]. split; [done|].
    rewrite Hv, Hh, not_true_iff_false', (shown_explorer_spec w q c Hq). done.
  - exists (showCard (DetailExplorer.shown parse toLowerCase w) c).
    destruct (showCard_visible (DetailExplorer.shown parse toLowerCase w) c) as [Hv Hh].
    split; [by apply applyFilter_card|]. split; [done|].
    rewrite Hv, Hh, not_true_iff_false', (shown_detail_spec w q c Hq).
    subst passes. tauto.
Qed.

(** C3, as amended: a card whose date does not parse passes the date
    range whatever the bounds are; [filterChats] leaves it visible
    exactly when the folder, the search and, on the page with the
    detail panel, the warmup predicate pass. *)
Theorem filterChats_unparseable_date w q (i : nat) c :
  searchTerm w = toLowerCase q -> cards w !! i = Some c ->
  cardDate parse (date c) = None ->
  (exists c',
      cards (ExplorerJs.filterChats parse toLowerCase w) !! i = Some c'
      /\ (card_display c' = display_default
          <-> folderPasses (currentFolder w) c /\ searchPasses toLowerCase q c))
  /\ (exists c',
        cards (DetailExplorer.filterChats parse toLowerCase w) !! i = Some c'
        /\ (card_display c' = display_default
            <-> folderPasses (currentFolder w) c /\ searchPasses toLowerCase q c
                /\ warmupPasses (ignoreWarmup w) c)).
Proof.
  intros Hq Hc Hd. split.
  - exists (showCard (ExplorerJs.shown parse toLowerCase w) c).
    destruct (showCard_visible (ExplorerJs.shown parse toLowerCase w) c) as [Hv _].
    split; [by apply applyFilter_card|].
    rewrite Hv, (shown_explorer_spec w q c Hq), <- cardDate_dateOf, Hd. simpl. tauto.
  - exists (showCard (DetailExplorer.shown parse toLowerCase w) c).
    destruct (showCard_visible (DetailExplorer.shown parse toLowerCase w) c) as [Hv _].
    split; [by apply applyFilter_card|].
    rewrite Hv, (shown_detail_spec w q c Hq), <- cardDate_dateOf, Hd. simpl. tauto.
Qed.
End Parse.

Section Folder.
Import ListenerFacts.
(** The zone with the fixed offset of [tz] minutes. *)
Variable tz : Z.
Variable parse : string -> option Z.
Variable toLowerCase : string -> string.

Lemma selectFolder_detail path updateUrl win st :
  slider win = Some st ->
  TimeSlider.onRangeChangeCallback st = Some (DetailExplorer.rangeListener parse toLowerCase) ->
  let w0 := folderChosen path (world win) in
  exists st' win',
    TimeSlider.filterByFolder tz parse (Some path) st w0
    = Some (st', DetailExplorer.rangeListener parse toLowerCase None None w0)
    /\ DetailExplorer.selectFolder tz parse toLowerCase path updateUrl win = Some win'
    /\ slider win' = Some st'
    /\ TimeSlider.selectionStart st' = None /\ TimeSlider.selectionEnd st' = None
    /\ dateRangeStart (world win') = None /\ dateRangeEnd (world win') = None.
Proof.
  intros Hsl Hcb w0.
  destruct (filterByFolder_notifies tz parse (Some path) st w0 _ Hcb)
    as (st' & Hf & Hs & He & _).
  exists st'. unfold DetailExplorer.selectFolder. rewrite Hsl.
  fold (folderChosen path (world win)). fold w0. rewrite Hf. simpl.
  eexists. split; [done|]. split; [reflexivity|]. simpl.
  split; [done|]. split; [done|]. split; [done|].
  unfold DetailExplorer.rangeListener, DetailExplorer.filterChats.
  destruct updateUrl, (innerWidth _ <=? 600); simpl;
    match goal with
    | |- context [applyFilter ?f ?w] =>
        destruct (applyFilter_frame f w) as (_ & _ & -> & -> & _)
    end;
    match goal with
    | |- context [applyFilter ?f ?w] =>
        destruct (applyFilter_frame f w) as (_ & _ & -> & -> & _)
    end; done.
Qed.

Lemma selectFolder_explorer path updateUrl win st :
  slider win = Some st ->
  TimeSlider.onRangeChangeCallback st = Some (ExplorerJs.rangeListener parse toLowerCase) ->
  exists st' win',
    TimeSlider.filterByFolder tz parse (Some path) st
      (folderChosenWithBreadcrumb path (world win))
    = Some (st', ExplorerJs.rangeListener parse toLowerCase None None
                   (folderChosenWithBreadcrumb path (world win)))
    /\ ExplorerJs.selectFolder tz parse toLowerCase path updateUrl win = Some win'
    /\ slider win' = Some st'
    /\ TimeSlider.selectionStart st' = None /\ TimeSlider.selectionEnd st' = None
    /\ dateRangeStart (world win') = None /\ dateRangeEnd (world win') = None.
Proof.
  intros Hsl Hcb.
  destruct (filterByFolder_notifies tz parse (Some path) st
              (folderChosenWithBreadcrumb path (world win)) _ Hcb)
    as (st' & Hf & Hs & He & _).
  exists st'. unfold ExplorerJs.selectFolder. rewrite Hsl.
  fold (folderChosenWithBreadcrumb path (world win)). rewrite Hf. simpl.
  eexists. split; [done|]. split; [reflexivity|]. simpl.
  split; [done|]. split; [done|]. split; [done|].
  unfold ExplorerJs.rangeListener, ExplorerJs.filterChats.
  destruct updateUrl, (innerWidth _ <=? 600); simpl;
    match goal with
    | |- context [applyFilter ?f ?w] =>
        destruct (applyFilter_frame f w) as (_ & _ & -> & -> & _)
    end;
    match goal with
    | |- context [applyFilter ?f ?w] =>
        destruct (applyFilter_frame f w) as (_ & _ & -> & -> & _)
    end; done.
Qed.

(** C6: on a page whose slider has the explorer's listener registered,
    [selectFolder] makes [filterByFolder] run that listener once, with
    [(null, null)], and ends with both selection indices and both
    bounds of the explorer's date range null; this on the page with
    the detail panel and on the page without. *)
Theorem selectFolder_clears_selection path updateUrl win st :
  slider win = Some st ->
  (TimeSlider.onRangeChangeCallback st = Some (DetailExplorer.rangeListener parse toLowerCase) ->
   exists st' win',
     TimeSlider.filterByFolder tz parse (Some path) st (folderChosen path (world win))
     = Some (st', DetailExplorer.rangeListener parse toLowerCase None None
                    (folderChosen path (world win)))
     /\ DetailExplorer.selectFolder tz parse toLowerCase path updateUrl win = Some win'
     /\ slider win' = Some st'
     /\ TimeSlider.selectionStart st' = None /\ TimeSlider.selectionEnd st' = None
     /\ dateRangeStart (world win') = None /\ dateRangeEnd (world win') = None)
  /\ (TimeSlider.onRangeChangeCallback st = Some (ExplorerJs.rangeListener parse toLowerCase) ->
      exists st' win',
        TimeSlider.filterByFolder tz parse (Some path) st
          (folderChosenWithBreadcrumb path (world win))
        = Some (st', ExplorerJs.rangeListener parse toLowerCase None None
                       (folderChosenWithBreadcrumb path (world win)))
        /\ ExplorerJs.selectFolder tz parse toLowerCase path updateUrl win = Some win'
        /\ slider win' = Some st'
        /\ TimeSlider.selectionStart st' = None
        /\ TimeSlider.selectionEnd st' = None
        /\ dateRangeStart (world win') = None
        /\ dateRangeEnd (world win') = None).
Proof.
  intros Hsl. split; intros Hcb.
  - apply selectFolder_detail; done.
  - apply selectFolder_explorer; done.
Qed.
End Folder.
End FilterFacts.

Module ChatFacts.
Import JSDate JSString Page DetailExplorer Notions.

Lemma loadFailed_spec error w :
  placeholderComplete w ->
  (loadFailed error w).2 = returned
  /\ console (loadFailed error w).1 = console w ++ [error]
  /\ failureShown (panel w) (panel (loadFailed error w).1)
  /\ chatCache (loadFailed error w).1 = chatCache w.
Proof.
  unfold placeholderComplete, loadFailed, failureShown. simpl.
  destruct (detailEmpty (panel w)) as [[d [t|]]|] eqn:He; simpl; intros ?;
    split_and!; try done; by destruct (detailLoading (panel w)).
Qed.

Lemma loadFailed_cache error w : chatCache (loadFailed error w).1 = chatCache w.
Proof.
  unfold loadFailed. simpl.
  destruct (detailEmpty (panel w)) as [[d [t|]]|]; done.
Qed.

Lemma renderChatDetail_cache data w :
  chatCache (renderChatDetail data w) = chatCache w
  /\ selectedChatId (renderChatDetail data w) = selectedChatId w.
Proof. done. Qed.

Lemma selectChat_miss projectDir chatId updateUrl w :
  chatCache w !! chatKey projectDir chatId = None ->
  exists w',
    selectChat projectDir chatId updateUrl w
    = (w', awaits_fetch (chatUrl projectDir chatId))
    /\ chatCache w' = chatCache w
    /\ selectedChatId w' = Some (chatKey projectDir chatId).
Proof.
  intros Hmiss. unfold selectChat. fold (chatKey projectDir chatId).
  destruct updateUrl; simpl; rewrite Hmiss; eexists; done.
Qed.

Lemma selectChat_hit projectDir chatId updateUrl w data :
  chatCache w !! chatKey projectDir chatId = Some data ->
  exists w',
    selectChat projectDir chatId updateUrl w = (w', returned)
    /\ chatCache w' = chatCache w
    /\ detailMessages (panel w')
       = assign (imap renderMessage (chat_messages data)) (detailMessages (panel w))
    /\ detailTitle (panel w')
       = assign (match chat_title data with
                | Some t => if truthy t then t else "Chat"%string
                | None => "Chat"%string
                end) (detailTitle (panel w)).
Proof.
  intros Hhit. unfold selectChat. fold (chatKey projectDir chatId).
  destruct updateUrl; simpl; rewrite Hhit; eexists; split_and!; try done;
    simpl; by destruct (detailEmpty (panel w)) as [[? ?]|].
Qed.

(** One call that runs alone and is answered with the chat: one request,
    the chat stored under the call's key. *)
Lemma selectChat_alone_stores projectDir chatId updateUrl server w data :
  chatCache w !! chatKey projectDir chatId = None ->
  server (chatUrl projectDir chatId) = json data ->
  exists w',
    selectChat_alone projectDir chatId updateUrl server w
    = (w', returned, [chatUrl projectDir chatId])
    /\ chatCache w' = <[chatKey projectDir chatId := data]> (chatCache w).
Proof.
  intros Hmiss Hserver.
  destruct (selectChat_miss projectDir chatId updateUrl w Hmiss) as (w1 & Hsel & Hc & Hid).
  unfold selectChat_alone. rewrite Hsel, Hserver. simpl.
  rewrite Hid. eexists. split; [reflexivity|]. simpl. by rewrite Hc.
Qed.

(** A second call for a stored chat makes no request and shows the
    stored chat. *)
Lemma selectChat_alone_cached projectDir chatId updateUrl server w data :
  chatCache w !! chatKey projectDir chatId = Some data ->
  exists w',
    selectChat_alone projectDir chatId updateUrl server w = (w', returned, [])
    /\ chatCache w' = chatCache w
    /\ detailMessages (panel w')
       = assign (imap renderMessage (chat_messages data)) (detailMessages (panel w)).
Proof.
  intros Hhit.
  destruct (selectChat_hit projectDir chatId updateUrl w data Hhit)
    as (w1 & Hsel & Hc & Hm & _).
  unfold selectChat_alone. rewrite Hsel. by exists w1.
Qed.

(** A failed load leaves the cache as it was. *)
Lemma failure_keeps_cache w :
  chatCache (fetchSettled rejected w).1 = chatCache w
  /\ chatCache (fetchSettled (response false) w).1 = chatCache w
  /\ chatCache (jsonSettled None w).1 = chatCache w.
Proof. split_and!; apply loadFailed_cache. Qed.

Lemma chatUrl_key projectDir chatId :
  chatUrl projectDir chatId = ("/api/chat/" +:+ chatKey projectDir chatId)%string.
Proof. reflexivity. Qed.

Lemma selectChat_alone_sound projectDir chatId updateUrl server w :
  cacheSound server w ->
  cacheSound server (selectChat_alone projectDir chatId updateUrl server w).1.1.
Proof.
  intros Hsound.
  destruct (chatCache w !! chatKey projectDir chatId) as [data|] eqn:Hk.
  - destruct (selectChat_alone_cached projectDir chatId updateUrl server w data Hk)
      as (w' & -> & Hc & _).
    intros k d. simpl. rewrite Hc. apply Hsound.
  - destruct (selectChat_miss projectDir chatId updateUrl w Hk) as (w1 & Hsel & Hc & Hid).
    unfold selectChat_alone. rewrite Hsel. cbn [fst].
    intros k d. rewrite chatUrl_key.
    destruct (server ("/api/chat/" +:+ chatKey projectDir chatId)%string) eqn:Hs;
      unfold settle; cbn [fetchSettled fst].
    + rewrite loadFailed_cache, Hc. apply Hsound.
    + rewrite loadFailed_cache, Hc. apply Hsound.
    + unfold jsonSettled. rewrite loadFailed_cache, Hc. apply Hsound.
    + unfold jsonSettled. rewrite Hid. cbn [fst].
      destruct (renderChatDetail_cache data
                  (set_chatCache (<[chatKey projectDir chatId:=data]> (chatCache w1)) w1))
        as [-> _].
      simpl. rewrite Hc.
      destruct (decide (k = chatKey projectDir chatId)) as [->|Hne].
      * rewrite lookup_insert_eq. intros [= <-]. exact Hs.
      * rewrite lookup_insert_ne by done. apply Hsound.
Qed.

(** Calls that do not overlap keep the cache sound: it holds a chat
    only under the key it was fetched for, and only when the fetch
    succeeded. *)
Lemma runAlone_sound server calls : forall w,
  cacheSound server w -> cacheSound server (runAlone server calls w).
Proof.
  induction calls as [|[[pd cid] u] calls IH]; intros w Hsound; [done|].
  apply IH. by apply selectChat_alone_sound.
Qed.

(** A failed [fetch] on a page whose [#detail-empty] has its text
    element: when the [fetch] of [selectChat] is rejected or answered
    with a status that is not a success, the call returns without
    throwing, one error is logged, [#detail-loading] is hidden and
    [#detail-empty] is shown with the text "Failed to load chat" (each
    where the page has the element); the cache stays as it was. *)
Theorem fetch_failure_shown w r :
  placeholderComplete w -> r = rejected \/ r = response false ->
  (fetchSettled r w).2 = returned
  /\ (exists error, console (fetchSettled r w).1 = console w ++ [error])
  /\ failureShown (panel w) (panel (fetchSettled r w).1)
  /\ chatCache (fetchSettled r w).1 = chatCache w.
Proof.
  intros Hp [-> | ->]; simpl.
  - destruct (loadFailed_spec fetch_failed w Hp) as (? & ? & ? & ?). eauto 10.
  - destruct (loadFailed_spec failed_to_load_chat w Hp) as (? & ? & ? & ?). eauto 10.
Qed.

(** C7: two calls of [selectChat] that overlap.  The call for chat
    [p/a] waits for its answer when the call for [p/b] starts; the
    request for [p/b] fails and the one for [p/a] succeeds.  The chat
    [p/a] is then stored under the key of [p/b], which was never
    fetched, and a further call for [p/a] sends a second request. *)
Theorem selectChat_overlapping_calls :
  (selectChat "p" "a" true Samples.explorerPage).2 = awaits_fetch (chatUrl "p" "a")
  /\ (selectChat "p" "b" true Samples.afterCallA).2 = awaits_fetch (chatUrl "p" "b")
  /\ (fetchSettled rejected Samples.afterCallB).2 = returned
  /\ chatCache Samples.afterFailB !! chatKey "p" "b" = None
  /\ (fetchSettled (response true) Samples.afterFailB).2 = awaits_json
  /\ chatCache Samples.afterAnswerA !! chatKey "p" "a" = None
  /\ chatCache Samples.afterAnswerA !! chatKey "p" "b"
     = Some (Samples.chat "a" "hello")
  /\ (selectChat "p" "a" true Samples.afterAnswerA).2
     = awaits_fetch (chatUrl "p" "a")
  /\ (selectChat "p" "b" true Samples.afterAnswerA).2 = returned
  /\ detailTitle (panel (selectChat "p" "b" true Samples.afterAnswerA).1)
     = Some "hello"%string.
Proof. split_and!; vm_compute; reflexivity. Qed.
End ChatFacts.
(** ** The buckets of [processData] as a whole *)

Module BucketFacts.
Import JSDate TimeSlider Notions Measures TimeSliderFacts CountFacts.

Lemma sumZ_app l1 l2 : sumZ (l1 ++ l2) = sumZ l1 + sumZ l2.
Proof. induction l1 as [|x l1 IH]; simpl; [done|]. unfold sumZ in *. simpl. lia. Qed.

Lemma sumZ_ext {A} (f g : A -> Z) l :
  Forall (fun x => f x = g x) l -> sumZ (f <$> l) = sumZ (g <$> l).
Proof.
  induction 1 as [|x l Hx _ IH]; [done|].
  rewrite !fmap_cons. unfold sumZ in *. simpl. lia.
Qed.

Lemma sumZ_le {A} (f g : A -> Z) l :
  Forall (fun x => f x <= g x) l -> sumZ (f <$> l) <= sumZ (g <$> l).
Proof.
  induction 1 as [|x l Hx _ IH]; [done|].
  rewrite !fmap_cons. unfold sumZ in *. simpl. lia.
Qed.

Lemma sumZ_add {A} (f g : A -> Z) l :
  sumZ ((fun x => f x + g x) <$> l) = sumZ (f <$> l) + sumZ (g <$> l).
Proof.
  induction l as [|x l IH]; [done|].
  rewrite !fmap_cons. unfold sumZ in *. simpl. lia.
Qed.

Lemma sumZ_zero {A} (l : list A) : sumZ ((fun _ => 0) <$> l) = 0.
Proof. induction l as [|x l IH]; [done|]. rewrite fmap_cons. unfold sumZ in *. simpl. lia. Qed.

(** Counting the pairs of a key and a conversation that satisfy [P],
    with the weight [w] of the conversation: by key or by
    conversation. *)
Lemma sumZ_exchange {K C} (P : K -> C -> bool) (w : C -> Z) ks convs :
  sumZ ((fun k => sumZ (w <$> List.filter (P k) convs)) <$> ks)
  = sumZ ((fun c => w c * Z.of_nat (length (List.filter (fun k => P k c) ks)))
            <$> convs).
Proof.
  induction convs as [|c convs IH].
  - simpl. apply sumZ_zero.
  - rewrite fmap_cons.
    change (sumZ (?x :: ?l)) with (x + sumZ l). rewrite <- IH. clear IH.
    induction ks as [|k ks IHk]; [simpl; lia|].
    rewrite !fmap_cons.
    change (sumZ (?x :: ?l)) with (x + sumZ l). rewrite IHk. clear IHk.
    cbn [List.filter]. destruct (P k c).
    + rewrite fmap_cons. cbn [length]. rewrite Nat2Z.inj_succ.
      change (sumZ (?x :: ?l)) with (x + sumZ l). lia.
    + lia.
Qed.

Lemma length_sumZ {A} (l : list A) : Z.of_nat (length l) = sumZ ((fun _ => 1) <$> l).
Proof.
  induction l as [|x l IH]; [done|]. rewrite fmap_cons.
  change (sumZ (?x :: ?l)) with (x + sumZ l). simpl length. lia.
Qed.

Lemma messagesOf_filter (p : Conversation -> bool) convs :
  messagesOf (List.filter p convs)
  = sumZ ((fun c => default 0 (conv_messages c) * (if p c then 1 else 0)) <$> convs).
Proof.
  induction convs as [|c convs IH]; [done|].
  rewrite fmap_cons. change (sumZ (?x :: ?l)) with (x + sumZ l).
  rewrite <- IH. cbn [List.filter]. destruct (p c); simpl; lia.
Qed.

Lemma messagesOf_sumZ convs :
  messagesOf convs = sumZ ((fun c => default 0 (conv_messages c)) <$> convs).
Proof. induction convs as [|c convs IH]; [done|]. simpl. by rewrite IH. Qed.

(** A key without duplicates is met at most once. *)
Lemma filter_eqb_NoDup (k : Z) (ks : list Z) :
  NoDup ks -> (length (List.filter (fun k' => Z.eqb k k') ks) <= 1)%nat.
Proof.
  induction 1 as [|k' ks Hnot _ IH]; simpl; [lia|].
  destruct (Z.eqb_spec k k') as [->|_]; [|done].
  simpl. assert (List.filter (fun k'' => Z.eqb k' k'') ks = []) as ->; [|simpl; lia].
  clear IH. induction ks as [|x ks IH]; [done|]. simpl.
  destruct (Z.eqb_spec k' x) as [->|_].
  - exfalso. apply Hnot. by left.
  - apply IH. intros Hin. apply Hnot. by right.
Qed.

Lemma filter_eqb_elem (k : Z) (ks : list Z) :
  k ∈ ks -> (0 < length (List.filter (fun k' => Z.eqb k k') ks))%nat.
Proof.
  induction 1 as [k ks|k k' ks _ IH]; simpl.
  - rewrite Z.eqb_refl. simpl. lia.
  - destruct (k =? k'); simpl; lia.
Qed.

(** The conversations of all buckets, and their messages. *)
Lemma total_cons (f : Bucket -> Z) b bs :
  foldr (fun b acc => f b + acc) 0 (b :: bs) = f b + foldr (fun b acc => f b + acc) 0 bs.
Proof. done. Qed.

Section Zone.
(** The zone with the fixed offset of [tz] minutes. *)
Variable tz : Z.
Variable parse : string -> option Z.

(** What [processData] computes when some date parses. *)
Lemma processData_some convs d ds :
  validDates parse convs = d :: ds ->
  processData tz parse convs
  = createBuckets tz parse (minimum d ds) (maximum d ds)
      (chooseGranularity (minimum d ds) (maximum d ds)) convs.
Proof.
  intros Hv. unfold processData. destruct convs as [|c convs]; [done|].
  by rewrite Hv.
Qed.

Lemma minimum_maximum d ds : minimum d ds <= maximum d ds.
Proof.
  pose proof (minimum_le ds d d (or_introl eq_refl)).
  pose proof (maximum_ge ds d d (or_introl eq_refl)). lia.
Qed.

(** The loop of [createBuckets] runs at least once. *)
Lemma turns_first g lo hi :
  lo <= hi ->
  (0 < turns g (firstStart tz g lo) (setHours_23_59_59_999 tz hi))%nat.
Proof.
  intros Hle. pose proof (firstStart_covers tz g lo).
  pose proof (setHours_0_le tz hi).
  unfold turns. rewrite setHours_23_fixed.
  destruct (Z.leb_spec (firstStart tz g lo)
              (setHours_0_0_0_0 tz hi + (msPerDay - 1))); lia.
Qed.

Lemma frames_of_buckets minDate maxDate g convs bs :
  createBuckets tz parse minDate maxDate g convs = Some bs ->
  frame <$> bs
  = (fun c => (c, getBucketKey tz c g, g))
      <$> starts g (firstStart tz g minDate)
            (turns g (firstStart tz g minDate) (setHours_23_59_59_999 tz maxDate)).
Proof.
  intros Hbs. destruct (createBuckets_spec tz parse minDate maxDate g convs)
    as (bs' & Hbs' & Hfr).
  rewrite Hbs in Hbs'. by injection Hbs' as ->.
Qed.

Lemma processData_nil convs :
  processData tz parse convs = Some [] <-> validDates parse convs = [].
Proof.
  split.
  - intros Hp. destruct (validDates parse convs) as [|d ds] eqn:Hv; [done|].
    exfalso. rewrite (processData_some _ _ _ Hv) in Hp.
    apply frames_of_buckets in Hp.
    pose proof (turns_first (chooseGranularity (minimum d ds) (maximum d ds))
                  _ _ (minimum_maximum d ds)) as Ht.
    destruct (turns _ _ _) as [|n]; [lia|].
    rewrite starts_S in Hp. discriminate Hp.
  - intros Hv. unfold processData. destruct convs; [done|]. by rewrite Hv.
Qed.

(** X1: in a zone with a fixed offset [processData] returns the empty
    bucket list exactly when no conversation has a date that parses
    (in particular for no conversations at all); with one date that
    parses there is at least one bucket. *)
Theorem processData_empty_iff convs :
  processData tz parse convs = Some [] <-> validDates parse convs = [].
Proof. apply processData_nil. Qed.


(** The buckets [createBuckets] returns, by their dates and keys. *)
Lemma bucket_keys minDate maxDate g convs bs :
  createBuckets tz parse minDate maxDate g convs = Some bs ->
  date <$> bs
  = starts g (firstStart tz g minDate)
      (turns g (firstStart tz g minDate) (setHours_23_59_59_999 tz maxDate))
  /\ Forall (fun b => key b = toISODate (date b) /\ granularity b = g) bs.
Proof.
  intros Hbs. pose proof (frames_of_buckets _ _ _ _ _ Hbs) as Hfr.
  set (ss := starts _ _ _) in *.
  split.
  - transitivity ((fun f : Z * Z * Granularity => f.1.1) <$> (frame <$> bs)).
    + rewrite <- list_fmap_compose. by apply list_fmap_ext.
    + rewrite Hfr, <- list_fmap_compose.
      rewrite <- (list_fmap_id ss) at 2. by apply list_fmap_ext.
  - apply Forall_forall. intros b Hb.
    apply (list_elem_of_fmap_2 frame) in Hb. rewrite Hfr in Hb.
    apply list_elem_of_fmap in Hb as (c & Hc & Hin).
    unfold frame in Hc. injection Hc as Hd Hk Hg.
    split; [|done]. rewrite Hk, Hd. apply getBucketKey_aligned.
    pose proof (starts_aligned tz g
                  (turns g (firstStart tz g minDate) (setHours_23_59_59_999 tz maxDate))
                  _ (firstStart_aligned tz g minDate)) as Hal.
    rewrite Forall_forall in Hal. by apply Hal.
Qed.

Lemma keys_of_buckets (bs : list Bucket) :
  Forall (fun b => key b = toISODate (date b)) bs ->
  key <$> bs = toISODate <$> (date <$> bs).
Proof.
  intros H. rewrite <- list_fmap_compose.
  apply Forall_fmap_ext_1. by apply (Forall_impl _ _ _ H).
Qed.

(** The start date of every bucket is a local midnight. *)
Lemma bucket_dates_midnight convs bs :
  processData tz parse convs = Some bs ->
  Forall (fun b => setHours_0_0_0_0 tz (date b) = date b) bs.
Proof.
  intros Hp. destruct (validDates parse convs) as [|d ds] eqn:Hv.
  - assert (processData tz parse convs = Some []) as Hnil.
    { unfold processData. destruct convs; [done|]. by rewrite Hv. }
    rewrite Hnil in Hp. by injection Hp as <-.
  - rewrite (processData_some _ _ _ Hv) in Hp.
    destruct (bucket_keys _ _ _ _ _ Hp) as [Hd _].
    apply Forall_forall. intros b Hb.
    apply (list_elem_of_fmap_2 date) in Hb. rewrite Hd in Hb.
    apply list_elem_of_fmap in Hb as (k & -> & _).
    destruct (firstStart_midnight tz
                (chooseGranularity (minimum d ds) (maximum d ds)) (minimum d ds))
      as [q Hq].
    rewrite setHours_0_fixed. rewrite localTime_add, Hq.
    assert (exists r, Z.of_nat k * width (chooseGranularity (minimum d ds) (maximum d ds))
                      = r * msPerDay) as [r ->].
    { destruct (chooseGranularity _ _); simpl.
      - by exists (Z.of_nat k).
      - exists (Z.of_nat k * 7). lia. }
    rewrite <- Z.mul_add_distr_r, Z.mod_mul; [lia|].
    pose proof msPerDay_pos. lia.
Qed.

(** In a zone with a fixed offset the loop takes one turn for each
    bucket width from its start to its end. *)
Lemma loopDates_run g end_ fuel : forall current,
  (turns g current end_ <= fuel)%nat ->
  loopDates tz fuel current end_ g = starts g current (turns g current end_).
Proof.
  induction fuel as [|fuel IH]; intros current Hfuel.
  - simpl. unfold turns in *. by destruct (Z.leb_spec current end_); [lia|].
  - simpl. destruct (Z.leb_spec current end_) as [Hle|Hgt].
    + rewrite (turns_S _ _ _ Hle) in Hfuel |- *.
      rewrite next_current, IH by lia. by rewrite starts_S.
    + unfold turns. by destruct (Z.leb_spec current end_); [lia|].
Qed.

Lemma turnDates_fixed convs d ds :
  validDates parse convs = d :: ds ->
  let g := chooseGranularity (minimum d ds) (maximum d ds) in
  turnDates tz parse convs
  = starts g (firstStart tz g (minimum d ds))
      (turns g (firstStart tz g (minimum d ds))
         (setHours_23_59_59_999 tz (maximum d ds))).
Proof.
  intros Hv g. unfold turnDates. rewrite Hv. cbv zeta. fold g.
  apply loopDates_run, fuel_enough.
Qed.

(** X2: in a zone with a fixed offset no [bucketMap.set] of the loop
    of [createBuckets] writes over an earlier bucket: [processData]
    returns one bucket for each turn of the loop, dated as that turn
    and in the order of the turns; the key of each bucket is the UTC
    day of its date, and no two buckets have the same key. *)
Theorem one_bucket_per_turn convs :
  exists bs,
    processData (fixed tz) parse convs = Some bs
    /\ date <$> bs = turnDates (fixed tz) parse convs
    /\ Forall (fun b => key b = toISODate (date b)) bs
    /\ NoDup (key <$> bs).
Proof.
  destruct (validDates parse convs) as [|d ds] eqn:Hv.
  - exists []. split; [|split; [|split; [done|constructor]]].
    + unfold processData. destruct convs; [done|]. by rewrite Hv.
    + unfold turnDates. by rewrite Hv.
  - rewrite (processData_some _ _ _ Hv).
    destruct (createBuckets_spec tz parse (minimum d ds) (maximum d ds)
                (chooseGranularity (minimum d ds) (maximum d ds)) convs)
      as (bs & Hbs & _).
    exists bs. split; [done|].
    destruct (bucket_keys _ _ _ _ _ Hbs) as [Hd Hk].
    assert (Hkey : Forall (fun b => key b = toISODate (date b)) bs).
    { apply (Forall_impl _ _ _ Hk). by intros b [? _]. }
    split; [by rewrite (turnDates_fixed _ _ _ Hv)|].
    split; [done|].
    rewrite (keys_of_buckets _ Hkey), Hd. apply starts_keys_NoDup.
Qed.

(** X3: in every zone with a fixed offset a bucket counts the
    conversations whose date parses and has the bucket's key under the
    bucket's granularity, and sums their messages, a missing
    [messages] counting 0. *)
Theorem buckets_count_by_key convs :
  exists bs,
    processData tz parse convs = Some bs
    /\ Forall (fun b =>
                 let mine :=
                   List.filter (hasKey tz parse (granularity b) (key b)) convs in
                 conversations b = Z.of_nat (length mine)
                 /\ messages b = messagesOf mine) bs.
Proof.
  destruct (validDates parse convs) as [|d ds] eqn:Hv.
  - exists []. split; [|done].
    unfold processData. destruct convs; [done|]. by rewrite Hv.
  - rewrite (processData_some _ _ _ Hv).
    destruct (createBuckets_spec tz parse (minimum d ds) (maximum d ds)
                (chooseGranularity (minimum d ds) (maximum d ds)) convs)
      as (bs & Hbs & _).
    exists bs. split; [done|].
    destruct (bucket_keys _ _ _ _ _ Hbs) as [_ Hk].
    rewrite Forall_forall in Hk |- *. intros b Hb.
    destruct (Hk b Hb) as [-> ->].
    by destruct (createBuckets_counts tz parse _ _ _ _ _ _ Hbs Hb) as (_ & _ & ? & ?).
Qed.

Lemma length_validDates convs :
  Z.of_nat (length (validDates parse convs))
  = sumZ ((fun c => if dated parse c then 1 else 0) <$> convs).
Proof.
  unfold validDates, dated. induction convs as [|c convs IH]; [done|].
  rewrite fmap_cons. change (sumZ (?x :: ?l)) with (x + sumZ l).
  rewrite <- IH. cbn [omap list_omap].
  destruct (parse (conv_date c)); cbn [length]; lia.
Qed.

Lemma filter_none {A} (l : list A) : List.filter (fun _ => false) l = [].
Proof. by induction l. Qed.

(** The keys among [ks] that a conversation has. *)
Lemma keys_of_conversation g ks c :
  List.filter (fun k => hasKey tz parse g k c) ks
  = match parse (conv_date c) with
    | Some t => List.filter (fun k => Z.eqb (getBucketKey tz t g) k) ks
    | None => []
    end.
Proof.
  unfold hasKey. destruct (parse (conv_date c)); [done|]. apply filter_none.
Qed.

(** The conversations of the buckets, summed by conversation. *)
Lemma totalConversations_by_conversation minDate maxDate g convs bs :
  createBuckets tz parse minDate maxDate g convs = Some bs ->
  totalConversations bs
  = sumZ ((fun c => 1 * Z.of_nat (length (List.filter
                                            (fun k => hasKey tz parse g k c)
                                            (toISODate <$> (date <$> bs)))))
            <$> convs)
  /\ totalMessages bs
     = sumZ ((fun c => default 0 (conv_messages c)
                       * Z.of_nat (length (List.filter
                                             (fun k => hasKey tz parse g k c)
                                             (toISODate <$> (date <$> bs)))))
               <$> convs).
Proof.
  intros Hbs. unfold totalConversations, totalMessages.
  rewrite <- !sumZ_exchange, <- !list_fmap_compose.
  split; apply sumZ_ext, Forall_forall; intros b Hb;
    destruct (createBuckets_counts tz parse _ _ _ _ _ _ Hbs Hb)
      as (_ & _ & Hc & Hm); cbn [compose].
  - by rewrite Hc, length_sumZ.
  - by rewrite Hm, messagesOf_sumZ.
Qed.

(** X5: in every zone with a fixed offset no conversation is counted
    in two buckets: the counts are not negative and their total is at
    most the number of conversations with a date that parses. *)
Theorem no_conversation_counted_twice convs :
  exists bs,
    processData tz parse convs = Some bs
    /\ Forall (fun b => 0 <= conversations b) bs
    /\ totalConversations bs <= Z.of_nat (length (validDates parse convs)).
Proof.
  destruct (validDates parse convs) as [|d ds] eqn:Hv.
  - exists []. split; [|split; [done|done]].
    unfold processData. destruct convs; [done|]. by rewrite Hv.
  - rewrite (processData_some _ _ _ Hv), <- Hv.
    set (g := chooseGranularity (minimum d ds) (maximum d ds)).
    destruct (createBuckets_spec tz parse (minimum d ds) (maximum d ds) g convs)
      as (bs & Hbs & _).
    exists bs. split; [done|]. split.
    + apply Forall_forall. intros b Hb.
      destruct (createBuckets_counts tz parse _ _ _ _ _ _ Hbs Hb)
        as (_ & _ & -> & _). lia.
    + destruct (totalConversations_by_conversation _ _ _ _ _ Hbs) as [-> _].
      rewrite length_validDates. apply sumZ_le, Forall_forall. intros c _.
      rewrite keys_of_conversation. unfold dated.
      destruct (parse (conv_date c)) as [t|]; [|simpl; lia].
      destruct (bucket_keys _ _ _ _ _ Hbs) as [-> _].
      pose proof (filter_eqb_NoDup (getBucketKey tz t g) _
                    (starts_keys_NoDup g
                       (turns g (firstStart tz g (minimum d ds))
                          (setHours_23_59_59_999 tz (maximum d ds)))
                       (firstStart tz g (minimum d ds)))).
      lia.
Qed.

End Zone.

Section Utc.
Variable parse : string -> option Z.

(** X4: in a browser on UTC each bucket counts exactly the
    conversations dated from its start up to, not including, the
    start of the next bucket, and sums their messages. *)
Theorem buckets_count_their_span_utc convs :
  exists bs,
    processData 0 parse convs = Some bs
    /\ Forall (fun b =>
                 let mine := List.filter (inBucket parse b) convs in
                 conversations b = Z.of_nat (length mine)
                 /\ messages b = messagesOf mine) bs.
Proof.
  destruct (processData_total 0 parse convs) as [bs Hbs].
  exists bs. split; [done|]. apply Forall_forall. intros b Hb.
  exact (processData_counts_utc parse convs bs b Hbs Hb).
Qed.

(** On UTC a date between the least and the greatest has the key of
    one of the buckets. *)
Lemma key_among_starts g lo hi t :
  lo <= t <= hi ->
  getBucketKey 0 t g
  ∈ toISODate <$> starts g (firstStart 0 g lo)
                    (turns g (firstStart 0 g lo) (setHours_23_59_59_999 0 hi)).
Proof.
  intros Ht.
  pose proof (firstStart_covers 0 g lo) as Hcov.
  pose proof (setHours_0_le 0 hi) as Hend.
  pose proof (width_pos g) as Hw.
  set (fs := firstStart 0 g lo) in *.
  set (end_ := setHours_23_59_59_999 0 hi).
  assert (Hte : t <= end_) by (unfold end_; rewrite setHours_23_fixed; lia).
  set (q := (t - fs) / width g).
  assert (Hq : 0 <= q) by (apply Z.div_pos; lia).
  assert (Hqe : q <= (end_ - fs) / width g) by (apply Z.div_le_mono; lia).
  assert (Hn : turns g fs end_ = S (Z.to_nat ((end_ - fs) / width g))).
  { unfold turns. destruct (Z.leb_spec fs end_); [done|lia]. }
  assert (Hlk : starts g fs (turns g fs end_) !! Z.to_nat q
                = Some (fs + q * width g)).
  { rewrite starts_lookup by lia. by rewrite Z2Nat.id. }
  apply list_elem_of_lookup_2 in Hlk.
  pose proof (Z.div_mod (t - fs) (width g) ltac:(lia)) as Hdm.
  pose proof (Z.mod_pos_bound (t - fs) (width g) Hw) as Hmb.
  fold q in Hdm.
  apply list_elem_of_fmap. exists (fs + q * width g). split; [|done].
  apply getBucketKey_utc_iff; [| |lia].
  - pose proof (starts_aligned 0 g (turns g fs end_) fs
                  (firstStart_aligned 0 g lo)) as Hal.
    rewrite Forall_forall in Hal. by apply Hal.
  - pose proof (starts_midnight g (turns g fs end_) fs
                  (firstStart_utc_midnight g lo)) as Hmid.
    rewrite Forall_forall in Hmid. by apply Hmid.
Qed.

(** X6: in a browser on UTC every conversation with a date that
    parses is counted in exactly one bucket: the counts of the buckets
    add up to the number of those conversations and the messages of
    the buckets to their messages. *)
Theorem every_conversation_counted_utc convs :
  exists bs,
    processData 0 parse convs = Some bs
    /\ totalConversations bs = Z.of_nat (length (validDates parse convs))
    /\ totalMessages bs = messagesOf (List.filter (dated parse) convs).
Proof.
  destruct (validDates parse convs) as [|d ds] eqn:Hv.
  - exists []. split; [|split; [done|]].
    + unfold processData. destruct convs; [done|]. by rewrite Hv.
    + assert (List.filter (dated parse) convs = []) as ->; [|done].
      clear -Hv. induction convs as [|c convs IH]; [done|].
      unfold validDates in Hv. cbn [omap list_omap] in Hv. simpl. unfold dated.
      destruct (parse (conv_date c)); [done|]. by apply IH.
  - rewrite (processData_some _ _ _ _ _ Hv), <- Hv.
    set (lo := minimum d ds). set (hi := maximum d ds).
    set (g := chooseGranularity lo hi).
    destruct (createBuckets_spec 0 parse lo hi g convs) as (bs & Hbs & _).
    exists bs. split; [done|].
    destruct (totalConversations_by_conversation _ _ _ _ _ _ _ Hbs) as [-> ->].
    destruct (bucket_keys _ _ _ _ _ _ _ Hbs) as [-> _].
    assert (Hone : forall c, c ∈ convs ->
              Z.of_nat
                (length (List.filter (fun k => hasKey 0 parse g k c)
                           (toISODate <$> starts g (firstStart 0 g lo)
                              (turns g (firstStart 0 g lo)
                                 (setHours_23_59_59_999 0 hi)))))
              = if dated parse c then 1 else 0).
    { intros c Hc. rewrite keys_of_conversation. unfold dated.
      destruct (parse (conv_date c)) as [t|] eqn:Ht; [|done].
      pose proof (filter_eqb_NoDup (getBucketKey 0 t g) _
                    (starts_keys_NoDup g
                       (turns g (firstStart 0 g lo) (setHours_23_59_59_999 0 hi))
                       (firstStart 0 g lo))) as Hle.
      assert (Hin : t ∈ validDates parse convs).
      { unfold validDates. apply list_elem_of_omap. by exists c. }
      rewrite Hv in Hin.
      pose proof (minimum_le ds d t) as Hlo.
      pose proof (maximum_ge ds d t) as Hhi.
      apply elem_of_cons in Hin. specialize (Hlo Hin). specialize (Hhi Hin).
      pose proof (filter_eqb_elem _ _ (key_among_starts g lo hi t (conj Hlo Hhi))).
      lia. }
    split.
    + rewrite length_validDates. apply sumZ_ext, Forall_forall. intros c Hc.
      rewrite (Hone c Hc). lia.
    + rewrite messagesOf_filter. apply sumZ_ext, Forall_forall. intros c Hc.
      by rewrite (Hone c Hc).
Qed.

End Utc.
End BucketFacts.
(** ** Gestures on the histogram *)

Module GestureFacts.
Import JSDate TimeSlider Notions Measures TimeSliderFacts SelectionFacts.

Section Listener.
Context {E : Type}.
Variable parse : string -> option Z.

Implicit Types st : State E.

Ltac open_state st :=
  destruct st as [m bs f ss se dr ds cb [hb ml cr rd hs] cd].

Ltac crush :=
  cbv beta iota zeta delta
    [render renderBar isIndexInSelection updateSelectionOverlay
     selectionBounds set_dom
     set_histogramBars set_histogramSelection set_selection set_drag
     set_clearRangeBtn set_rangeDisplay
     handleMouseUp showClearRangeBtn updateRangeDisplay notifyRangeChange
     dom buckets selectionStart selectionEnd histogramBars
     histogramSelection currentMetric currentFolder isDragging
     dragStartIndex onRangeChangeCallback conversationData metricLabel
     clearRangeBtn rangeDisplay ov_left ov_width ov_display
     default from_option id fst snd].

Section AnyZone.
Variable tz : Zone.

(** A selection written over a rendering, with a start index. *)
Lemma render_absorb st s e e' :
render (set_selection (Some s) e' (render (set_selection (Some s) e st)))
= render (set_selection (Some s) e' st).
Proof.
open_state st.
destruct hb as [h|]; [|done].
destruct bs as [|b bs]; [done|].
destruct hs as [ov|]; crush; done.
Qed.


(** The state in the middle of a drag from bar [i], the pointer
  last over bar [j]. *)
Lemma handleMouseMove_over st i j e :
handleMouseMove (Some j)
  (render (set_selection (Some i) e (set_drag true (Some i) st)))
= render (set_selection (Some i) (Some j) (set_drag true (Some i) st)).
Proof.
unfold handleMouseMove. rewrite render_drag.
destruct (render_selection
            (set_selection (Some i) e (set_drag true (Some i) st))) as [-> _].
cbn [isDragging selectionStart set_selection set_drag].
apply render_absorb.
Qed.

Lemma handleMouseMove_off st : handleMouseMove None st = st.
Proof. unfold handleMouseMove. by destruct (isDragging st). Qed.

Lemma drag_moves st i moves : forall k,
foldl (fun s m => handleMouseMove m s)
  (render (set_selection (Some i) (Some k) (set_drag true (Some i) st))) moves
= render (set_selection (Some i) (Some (lastBar k moves))
            (set_drag true (Some i) st)).
Proof.
induction moves as [|mv moves IH]; intros k; [done|].
cbn [foldl]. destruct mv as [j|].
- rewrite handleMouseMove_over. apply IH.
- rewrite handleMouseMove_off. apply IH.
Qed.

Lemma drag_state st i moves :
foldl (fun s m => handleMouseMove m s) (handleMouseDown (Some i) st) moves
= render (set_selection (Some i) (Some (lastBar i moves))
            (set_drag true (Some i) st)).
Proof. apply drag_moves. Qed.

(** X7: of the pointer positions passed during a drag only the last
  bar counts: after any moves, over bars or off them, the slider is
  in the state one move to that bar would have left. *)
Theorem drag_last_bar st i moves :
foldl (fun s m => handleMouseMove m s) (handleMouseDown (Some i) st) moves
= handleMouseMove (Some (lastBar i moves)) (handleMouseDown (Some i) st).
Proof.
rewrite drag_state. unfold handleMouseDown. by rewrite handleMouseMove_over.
Qed.

(** X8: a drag from bar [i] to bar [j] and a drag from [j] to [i]
  end alike: the listener is called in the same way and the slider
  ends in the same state, [dragStartIndex] apart. *)
Theorem drag_symmetric st (w : E) i j :
let there := handleMouseUp tz (handleMouseMove (Some j) (handleMouseDown (Some i) st)) w in
let back := handleMouseUp tz (handleMouseMove (Some i) (handleMouseDown (Some j) st)) w in
there.2 = back.2
/\ set_drag false None there.1 = set_drag false None back.1.
Proof.
unfold handleMouseDown. rewrite !handleMouseMove_over.
open_state st.
destruct hb as [h|]; destruct bs as [|b bs]; destruct hs as [ov|];
  destruct cr as [c|]; destruct rd as [r|];
  crush; rewrite ?(Z.min_comm j i), ?(Z.max_comm j i);
  repeat match goal with
         | |- context [bucket_at ?l ?k] => destruct (bucket_at l k)
         end;
  crush; split; reflexivity.
Qed.

Lemma min_of_bounds (i j : Z) : Z.min (Z.min i j) (Z.max i j) = Z.min i j.
Proof. lia. Qed.

Lemma max_of_bounds (i j : Z) : Z.max (Z.min i j) (Z.max i j) = Z.max i j.
Proof. lia. Qed.

Lemma bounds_eqb (i j : Z) : (Z.min i j =? Z.max i j) = (i =? j).
Proof. destruct (Z.eqb_spec i j), (Z.eqb_spec (Z.min i j) (Z.max i j)); lia. Qed.

(** The end of a drag from bar [i] to bar [j], both on buckets. *)
Lemma drag_end st (w : E) i j b1 b2 :
bucket_at (buckets st) (Z.min i j) = Some b1 ->
bucket_at (buckets st) (Z.max i j) = Some b2 ->
let r := handleMouseUp tz
           (render (set_selection (Some i) (Some j) (set_drag true (Some i) st)))
           w in
getSelection r.1 = Some (Some (date b1), Some (date b2))
/\ selectionStart r.1 = Some (Z.min i j)
/\ selectionEnd r.1 = Some (Z.max i j)
/\ isDragging r.1 = false
/\ r.2 = match onRangeChangeCallback st with
         | Some callback =>
             callback (Some (Some (date b1)))
               (Some (Some (setHours_23_59_59_999 tz (date b2)))) w
         | None => w
         end
/\ clearRangeBtn (dom r.1)
   = (fun _ => display_inline_block) <$> clearRangeBtn (dom st)
/\ rangeDisplay (dom r.1)
   = (fun _ => (display_block,
                if i =? j then one_date (date b1)
                else two_dates (date b1) (date b2)))
       <$> rangeDisplay (dom st).
Proof.
open_state st. cbn [buckets]. intros H1 H2.
destruct hb as [h|]; destruct bs as [|b bs]; destruct hs as [ov|];
  destruct cr as [c|]; destruct rd as [r|];
  cbv beta iota zeta delta [getSelection]; crush;
  rewrite ?min_of_bounds, ?max_of_bounds, ?H1, ?H2, ?bounds_eqb;
  crush; rewrite ?min_of_bounds, ?max_of_bounds, ?H1, ?H2;
  destruct cb; done.
Qed.

(** X9: a drag from bar [i] that ends over bar [j], both on buckets,
  selects the buckets from the lower to the higher of the two
  indices: [getSelection] returns their dates, the listener, if one
  is registered, is called once with the date of the first and the
  end of the day of the date of the last, the clear button is shown
  and the range display names one date for a click and two
  otherwise. *)
Theorem drag_outcome st (w : E) i moves b1 b2 :
let j := lastBar i moves in
bucket_at (buckets st) (Z.min i j) = Some b1 ->
bucket_at (buckets st) (Z.max i j) = Some b2 ->
let r := handleMouseUp tz
           (foldl (fun s m => handleMouseMove m s)
              (handleMouseDown (Some i) st) moves) w in
getSelection r.1 = Some (Some (date b1), Some (date b2))
/\ selectionStart r.1 = Some (Z.min i j)
/\ selectionEnd r.1 = Some (Z.max i j)
/\ isDragging r.1 = false
/\ r.2 = match onRangeChangeCallback st with
         | Some callback =>
             callback (Some (Some (date b1)))
               (Some (Some (setHours_23_59_59_999 tz (date b2)))) w
         | None => w
         end
/\ clearRangeBtn (dom r.1)
   = (fun _ => display_inline_block) <$> clearRangeBtn (dom st)
/\ rangeDisplay (dom r.1)
   = (fun _ => (display_block,
                if i =? j then one_date (date b1)
                else two_dates (date b1) (date b2)))
       <$> rangeDisplay (dom st).
Proof.
intros j H1 H2. rewrite drag_state. by apply drag_end.
Qed.

(** Without a selection no bar is drawn as selected. *)
Lemma imap_renderBar_unselected st (bs : list Bucket) :
selectionStart st = None ->
Forall (fun bar => bar_selected bar = false) (imap (renderBar st) bs).
Proof.
intros Hs. apply Forall_forall. intros bar Hbar.
apply list_elem_of_lookup in Hbar as [n Hn].
rewrite list_lookup_imap in Hn.
destruct (bs !! n) as [b|]; [|done]. injection Hn as <-.
unfold renderBar, isIndexInSelection. cbn [bar_selected]. by rewrite Hs.
Qed.

Lemma render_unselected st :
selectionStart st = None -> noBarSelected (histogramBars (dom (render st))).
Proof.
intros Hs. pose proof (imap_renderBar_unselected st (buckets st) Hs) as Hbars.
open_state st. cbn [selectionStart buckets] in Hs, Hbars. subst ss.
destruct hb as [[| |bars labels]|]; destruct bs as [|b bs];
  destruct hs as [ov|]; crush; cbn [noBarSelected]; try done;
  apply Hbars.
Qed.

(** X11: [clearSelection], which [setSelection] with a null start
  runs, leaves no selection: [getSelection] returns null, no index
  is in the selection and no bar is drawn selected, the clear
  button and the range display are hidden; the overlay is hidden
  when the page has the bar area and there are buckets, and left
  alone otherwise. *)
Theorem clearSelection_resets st (w : E) :
let r := clearSelection tz st w in
getSelection r.1 = None
/\ (forall index, isIndexInSelection r.1 index = false)
/\ noBarSelected (histogramBars (dom r.1))
/\ clearRangeBtn (dom r.1) = (fun _ => display_none) <$> clearRangeBtn (dom st)
/\ rangeDisplay (dom r.1)
   = (fun shown => (display_none, shown.2)) <$> rangeDisplay (dom st)
/\ histogramSelection (dom r.1)
   = match histogramBars (dom st), buckets st with
     | Some _, _ :: _ =>
         (fun ov => {| ov_display := display_none; ov_left := ov_left ov;
                       ov_width := ov_width ov |})
           <$> histogramSelection (dom st)
     | _, _ => histogramSelection (dom st)
     end
/\ forall endDate, setSelection tz None endDate st w = r.
Proof.
split_and!; [| | | | | |done].
- unfold clearSelection, getSelection. cbn [fst].
  destruct (render_selection
              (hideRangeDisplay
                 (showClearRangeBtn display_none (set_selection None None st))))
    as [-> _].
  destruct (hideRangeDisplay_frame
              (showClearRangeBtn display_none (set_selection None None st)))
    as (_ & -> & _).
  by destruct (showClearRangeBtn_frame display_none (set_selection None None st))
    as (_ & -> & _).
- intros index. unfold clearSelection, isIndexInSelection. cbn [fst].
  destruct (render_selection
              (hideRangeDisplay
                 (showClearRangeBtn display_none (set_selection None None st))))
    as [-> _].
  destruct (hideRangeDisplay_frame
              (showClearRangeBtn display_none (set_selection None None st)))
    as (_ & -> & _).
  by destruct (showClearRangeBtn_frame display_none (set_selection None None st))
    as (_ & -> & _).
- unfold clearSelection. cbn [fst]. apply render_unselected.
  destruct (hideRangeDisplay_frame
              (showClearRangeBtn display_none (set_selection None None st)))
    as (_ & -> & _).
  by destruct (showClearRangeBtn_frame display_none (set_selection None None st))
    as (_ & -> & _).
- open_state st.
  destruct hb as [h|]; destruct bs as [|b bs]; destruct hs as [ov|];
    destruct cr as [c|]; destruct rd as [[d t]|];
    cbv beta iota zeta delta [clearSelection hideRangeDisplay]; crush; done.
- open_state st.
  destruct hb as [h|]; destruct bs as [|b bs]; destruct hs as [ov|];
    destruct cr as [c|]; destruct rd as [[d t]|];
    cbv beta iota zeta delta [clearSelection hideRangeDisplay]; crush; done.
- open_state st.
  destruct hb as [h|]; destruct bs as [|b bs]; destruct hs as [ov|];
    destruct cr as [c|]; destruct rd as [[d t]|];
    cbv beta iota zeta delta [clearSelection hideRangeDisplay]; crush; done.
Qed.

(** X12: [render] is idempotent. *)
Theorem render_idempotent st : render (render st) = render st.
Proof.
open_state st.
destruct hb as [h|]; [|done].
destruct bs as [|b bs]; [done|].
destruct hs as [ov|]; destruct ss as [s|]; crush; done.
Qed.


(** What [render] writes to the bar area. *)
Lemma render_histogram st :
histogramBars (dom (render st))
= match histogramBars (dom st), buckets st with
  | None, _ => None
  | Some _, [] => Some NoData
  | Some _, bs => Some (Bars (imap (renderBar st) bs) (renderLabels bs))
  end.
Proof.
open_state st.
destruct hb as [h|]; destruct bs as [|b bs]; destruct hs as [ov|];
  destruct ss; done.
Qed.

End AnyZone.

Section FixedZone.
(** The zone with the fixed offset of [tz] minutes. *)
Variable tz : Z.

(** X10: in a zone with a fixed offset, on buckets made by
  [processData], daily or weekly, the end date the listener receives
  at the end of a drag is the last millisecond of the day on which
  the last selected bucket starts: its date plus 86399999 ms. *)
Theorem notified_range_ends_on_first_day st (w : E) convs callback i moves b1 b2 :
let j := lastBar i moves in
processData (fixed tz) parse convs = Some (buckets st) ->
onRangeChangeCallback st = Some callback ->
bucket_at (buckets st) (Z.min i j) = Some b1 ->
bucket_at (buckets st) (Z.max i j) = Some b2 ->
(handleMouseUp (fixed tz)
   (foldl (fun s m => handleMouseMove m s) (handleMouseDown (Some i) st) moves)
   w).2
= callback (Some (Some (date b1))) (Some (Some (date b2 + (msPerDay - 1)))) w.
Proof.
intros j Hp Hcb H1 H2. rewrite drag_state. fold j.
destruct (drag_end tz st w i j b1 b2 H1 H2) as (_ & _ & _ & _ & -> & _).
rewrite Hcb. rewrite setHours_23_fixed.
pose proof (BucketFacts.bucket_dates_midnight tz parse convs _ Hp) as Hmid.
rewrite Forall_forall in Hmid. rewrite Hmid; [done|].
unfold bucket_at in H2. destruct (_ <? 0); [done|].
by apply list_elem_of_lookup_2 in H2.
Qed.

(** [filterByFolder] by the state it builds. *)
Lemma filterByFolder_eq folder st (w : E) bks :
processData tz parse (ofFolder folder (conversationData st)) = Some bks ->
let st' :=
  render (set_buckets bks
            (hideRangeDisplay
               (showClearRangeBtn display_none
                  (set_selection None None
                     (set_currentFolder (default "" folder) st))))) in
filterByFolder tz parse folder st w = Some (st', notifyRangeChange tz st' w).
Proof.
intros Hp st'. unfold filterByFolder.
set (st1 := hideRangeDisplay _) in *.
assert (Hf : currentFolder st1 = default "" folder
             /\ conversationData st1 = conversationData st).
{ subst st1. open_state st. destruct cr, rd as [[? ?]|]; done. }
destruct Hf as [-> ->]. unfold ofFolder in Hp.
cbv zeta in Hp. rewrite Hp. done.
Qed.

(** X13: [filterByFolder] sets the folder (the empty text for null),
  makes the buckets of the folder's conversations, all of them for
  the empty folder, and draws them with no bar selected; the bar
  area shows the "no data" notice exactly when no conversation of
  the folder has a date that parses. *)
Theorem filterByFolder_histogram folder st (w : E) :
exists st' bks,
  filterByFolder tz parse folder st w = Some (st', notifyRangeChange tz st' w)
  /\ processData tz parse (ofFolder folder (conversationData st)) = Some bks
  /\ buckets st' = bks
  /\ currentFolder st' = default "" folder
  /\ conversationData st' = conversationData st
  /\ noBarSelected (histogramBars (dom st'))
  /\ (is_Some (histogramBars (dom st)) ->
      (histogramBars (dom st') = Some NoData
       <-> validDates parse (ofFolder folder (conversationData st)) = [])).
Proof.
destruct (processData_total tz parse (ofFolder folder (conversationData st)))
  as [bks Hbs].
eexists _, bks. split; [by apply filterByFolder_eq|].
split; [done|]. split; [by rewrite render_buckets|].
split_and!.
- open_state st.
  destruct hb as [h|]; destruct bks as [|b bks']; destruct hs as [ov|];
    destruct cr, rd as [[? ?]|]; done.
- open_state st.
  destruct hb as [h|]; destruct bks as [|b bks']; destruct hs as [ov|];
    destruct cr, rd as [[? ?]|]; done.
- apply render_unselected.
  open_state st. destruct cr, rd as [[? ?]|]; done.
- intros [h Hh]. rewrite <- (BucketFacts.processData_nil tz parse), Hbs.
  rewrite render_histogram.
  assert (Hhb : histogramBars
                  (dom (set_buckets bks
                          (hideRangeDisplay
                             (showClearRangeBtn display_none
                                (set_selection None None
                                   (set_currentFolder (default "" folder) st))))))
                = Some h).
  { open_state st. cbn [dom histogramBars] in Hh. subst hb.
    destruct cr, rd as [[? ?]|]; done. }
  rewrite Hhb. cbn [buckets set_buckets].
  destruct bks as [|b bks']; [done|]. split; intros H; discriminate H.
Qed.

(** What the setters and [render] leave in place. *)
Lemma cleared_frame path st :
let st' := hideRangeDisplay
             (showClearRangeBtn display_none
                (set_selection None None (set_currentFolder path st))) in
conversationData st' = conversationData st
/\ histogramBars (dom st') = histogramBars (dom st)
/\ selectionStart st' = None /\ selectionEnd st' = None.
Proof. open_state st. destruct cr, rd as [[? ?]|]; done. Qed.

Lemma render_conversationData st :
conversationData (render st) = conversationData st.
Proof.
open_state st.
destruct hb as [h|]; destruct bs as [|b bs]; destruct hs as [ov|];
  destruct ss; done.
Qed.

Lemma set_buckets_frame bks st :
buckets (set_buckets bks st) = bks
/\ conversationData (set_buckets bks st) = conversationData st
/\ dom (set_buckets bks st) = dom st
/\ selectionStart (set_buckets bks st) = selectionStart st
/\ selectionEnd (set_buckets bks st) = selectionEnd st.
Proof. done. Qed.

Lemma init_eq page h data bks :
histogramBars page = Some h ->
processData tz parse data = Some bks ->
init tz parse page (loaded (Some data))
= Some (render (set_buckets bks (set_dom page (loaded (E:=E) (Some data))))).
Proof.
intros Hh Hp. unfold init. cbn [set_dom loaded conversationData].
rewrite Hh, Hp. done.
Qed.

(** The bar area after [processData] and [render], with nothing
  selected. *)
Lemma histogram_unselected bks st st' :
selectionStart st = None -> selectionStart st' = None ->
selectionEnd st = selectionEnd st' ->
is_Some (histogramBars (dom st)) -> is_Some (histogramBars (dom st')) ->
histogramBars (dom (render (set_buckets bks st)))
= histogramBars (dom (render (set_buckets bks st'))).
Proof.
intros Hs Hs' He [h Hh] [h' Hh']. rewrite !render_histogram.
destruct (set_buckets_frame bks st) as (-> & _ & -> & Hs1 & He1).
destruct (set_buckets_frame bks st') as (-> & _ & -> & Hs1' & He1').
rewrite Hh, Hh'. destruct bks as [|b bks]; [done|]. do 2 f_equal.
apply imap_ext. intros n x _. apply renderBar_ext; congruence.
Qed.

(** X14: after [init] on a page with the bar area, filtering by a
  folder and then by no folder (null or the empty text) brings
  back the buckets and the bars of [init]. *)
Theorem all_folders_restores_histogram page h data st0 folder st1 (w w1 : E) all :
histogramBars page = Some h ->
default ""%string all = ""%string ->
init tz parse page (loaded (Some data)) = Some st0 ->
filterByFolder tz parse folder st0 w = Some (st1, w1) ->
exists st2,
  filterByFolder tz parse all st1 w1 = Some (st2, notifyRangeChange tz st2 w1)
  /\ buckets st2 = buckets st0
  /\ histogramBars (dom st2) = histogramBars (dom st0).
Proof.
intros Hh Hall Hinit Hf1.
destruct (processData_total tz parse data) as [bks Hbks].
rewrite (init_eq page h data bks Hh Hbks) in Hinit. injection Hinit as <-.
destruct (processData_total tz parse (ofFolder folder (Some data)))
  as [bks1 Hbks1].
set (base := set_dom page (loaded (Some data))) in *.
assert (Hcd0 : conversationData (render (set_buckets bks base)) = Some data).
{ rewrite render_conversationData.
  by destruct (set_buckets_frame bks base) as (_ & -> & _). }
assert (Hhb0 : histogramBars (dom (render (set_buckets bks base)))
               = match bks with
                 | [] => Some NoData
                 | _ => Some (Bars (imap (renderBar (set_buckets bks base)) bks)
                                   (renderLabels bks))
                 end).
{ rewrite render_histogram.
  destruct (set_buckets_frame bks base) as (-> & _ & -> & _).
  unfold base. cbn [set_dom dom]. rewrite Hh. by destruct bks. }
rewrite (filterByFolder_eq folder _ w bks1) in Hf1 by (by rewrite Hcd0).
injection Hf1 as <- <-.
match goal with
| |- context [render (set_buckets bks1 ?c)] => set (cleared := c)
end.
destruct (cleared_frame (default "" folder) (render (set_buckets bks base)))
  as (Hcd & Hhb & Hs & He). fold cleared in Hcd, Hhb, Hs, He.
set (st1 := render (set_buckets bks1 cleared)).
assert (Hcd1 : conversationData st1 = Some data).
{ unfold st1. rewrite render_conversationData.
  destruct (set_buckets_frame bks1 cleared) as (_ & -> & _). congruence. }
assert (Hh1 : is_Some (histogramBars (dom st1))).
{ unfold st1. rewrite render_histogram.
  destruct (set_buckets_frame bks1 cleared) as (-> & _ & -> & _).
  rewrite Hhb, Hhb0. destruct bks, bks1; by eexists. }
assert (Hbks2 : processData tz parse (ofFolder all (conversationData st1))
                = Some bks).
{ rewrite Hcd1. unfold ofFolder. by rewrite Hall. }
eexists. split; [by apply filterByFolder_eq|].
split; [by rewrite !render_buckets|].
destruct (cleared_frame (default "" all) st1) as (_ & Hhb2 & Hs2 & He2).
apply histogram_unselected; [done|done|by rewrite He2| |].
- by rewrite Hhb2.
- unfold base. cbn [set_dom dom]. by rewrite Hh.
Qed.

End FixedZone.
End Listener.
End GestureFacts.
(** ** The date labels under the histogram *)

Module LabelFacts.
Import JSDate TimeSlider Notions Measures TimeSliderFacts.

(** The test of the filter in [render], for [n] buckets. *)
Lemma renderLabels_app (n : Z) (l : list Bucket) b :
  let labelled (ib : nat * Bucket) :=
    let i := Z.of_nat ib.1 in
    if (i mod ceil_div n 8 =? 0) || (i =? n - 1) then Some (date ib.2) else None in
  omap labelled (imap (fun i b => (i, b)) (l ++ [b]))
  = omap labelled (imap (fun i b => (i, b)) l)
    ++ match labelled (length l, b) with Some d => [d] | None => [] end.
Proof.
  intros labelled. rewrite imap_app, omap_app. f_equal.
  cbn [imap omap list_omap compose]. rewrite Nat.add_0_r.
  by destruct (labelled (length l, b)).
Qed.

Lemma ceil_div_8 (n : Z) : 0 < n -> 0 < ceil_div n 8 /\ n <= 8 * ceil_div n 8.
Proof.
  intros Hn. unfold ceil_div.
  pose proof (Z.div_mod (- n) 8 ltac:(lia)).
  pose proof (Z.mod_pos_bound (- n) 8 ltac:(lia)). lia.
Qed.

(** Among the first [m] buckets of [n], counting the one label the
    last bucket may add. *)
Lemma labels_bound (n : Z) (l : list Bucket) :
  0 < n ->
  let labelled (ib : nat * Bucket) :=
    let i := Z.of_nat ib.1 in
    if (i mod ceil_div n 8 =? 0) || (i =? n - 1) then Some (date ib.2) else None in
  let c := Z.of_nat (length (omap labelled (imap (fun i b => (i, b)) l))) in
  let m := Z.of_nat (length l) in
  (c - 1 - (if n - 1 <? m then 1 else 0)) * ceil_div n 8 < m.
Proof.
  intros Hn labelled. destruct (ceil_div_8 n Hn) as [HL _].
  set (L := ceil_div n 8) in *.
  induction l as [|b l IH] using rev_ind.
  - cbn [imap omap list_omap length]. destruct (Z.ltb_spec (n - 1) (Z.of_nat 0)); lia.
  - fold labelled in IH. cbv zeta in IH |- *.
    pose proof (renderLabels_app n l b) as Happ. cbv zeta in Happ.
    fold L labelled in Happ. rewrite Happ. clear Happ.
    rewrite !length_app. cbn [length].
    set (c := length (omap labelled (imap (fun i b => (i, b)) l))) in *.
    set (m := length l) in *.
    unfold labelled at 1. cbn [fst snd].
    pose proof (Z.div_mod (Z.of_nat m) L ltac:(lia)) as Hdm.
    pose proof (Z.mod_pos_bound (Z.of_nat m) L HL) as Hmb.
    assert (Hstep : forall x, x * L < Z.of_nat m -> Z.of_nat m mod L = 0 ->
                      (x + 1) * L <= Z.of_nat m).
    { intros x Hx Hmod. rewrite Hmod in Hdm.
      assert (x < Z.of_nat m / L) by nia. nia. }
    destruct (Z.eqb_spec (Z.of_nat m mod L) 0) as [Hmod|Hmod];
      destruct (Z.eqb_spec (Z.of_nat m) (n - 1)) as [Hlast|Hlast];
      destruct (Z.ltb_spec (n - 1) (Z.of_nat m));
      destruct (Z.ltb_spec (n - 1) (Z.of_nat (m + 1)));
      cbn [orb length]; try lia;
      try (pose proof (Hstep _ IH Hmod); lia); nia.
Qed.

Lemma labels_sublist (P : nat -> bool) (l : list Bucket) : forall g : nat -> nat,
  omap (fun ib : nat * Bucket => if P ib.1 then Some (date ib.2) else None)
    (imap (fun i b => (g i, b)) l)
  `sublist_of` date <$> l.
Proof.
  induction l as [|b l IH]; intros g; [done|].
  rewrite imap_cons, fmap_cons.
  change (imap ((fun i b => (g i, b)) ∘ S) l)
    with (imap (fun i b => ((g ∘ S) i, b)) l).
  cbn [omap list_omap fst snd]. specialize (IH (g ∘ S)).
  destruct (P (g 0%nat)).
  - by apply sublist_skip.
  - by apply sublist_cons.
Qed.

(** X15: the labels under the bars are dates of buckets, in the order
    of the buckets; the first label is the date of the first bucket and
    the last label the date of the last bucket; there are at most nine
    labels, however many buckets there are. *)
Theorem renderLabels_few b (bs : list Bucket) :
  let labels := renderLabels (b :: bs) in
  head labels = Some (date b)
  /\ last labels = date <$> last (b :: bs)
  /\ labels `sublist_of` date <$> (b :: bs)
  /\ (length labels <= 9)%nat.
Proof.
  intros labels. split_and!.
  - done.
  - destruct (exists_last (l := b :: bs) ltac:(done)) as (l & x & Hl).
    unfold labels, renderLabels. rewrite Hl.
    pose proof (renderLabels_app (Z.of_nat (length (l ++ [x]))) l x) as Happ.
    cbv zeta in Happ. rewrite Happ. clear Happ.
    cbn [fst snd]. rewrite length_app. cbn [length].
    destruct (Z.eqb_spec (Z.of_nat (length l)) (Z.of_nat (length l + 1) - 1)) as [_|Hne];
      [|lia].
    rewrite orb_true_r, !last_snoc. done.
  - apply (labels_sublist
             (fun i => (Z.of_nat i mod ceil_div (Z.of_nat (length (b :: bs))) 8 =? 0)
                       || (Z.of_nat i =? Z.of_nat (length (b :: bs)) - 1))
             (b :: bs) id).
  - pose proof (labels_bound (Z.of_nat (length (b :: bs))) (b :: bs)
                  ltac:(cbn [length]; lia)) as Hb.
    cbv zeta in Hb.
    destruct (ceil_div_8 (Z.of_nat (length (b :: bs))) ltac:(cbn [length]; lia))
      as [HL H8].
    destruct (Z.ltb_spec (Z.of_nat (length (b :: bs)) - 1)
                (Z.of_nat (length (b :: bs)))); [|lia].
    fold (renderLabels (b :: bs)) in Hb. fold labels in Hb. nia.
Qed.

End LabelFacts.
(** ** The card list as a whole *)

Module CardListFacts.
Import JSDate JSString Page Notions Measures FilterFacts.

Lemma visitGroup_groupWith mc g :
  visitGroup mc g = groupWith (default 0 (mc !! month g)) g.
Proof.
  unfold visitGroup, groupWith. destruct (0 <? _); [|done].
  by destruct (month_count g).
Qed.

(** The three results of the first pass. *)
Lemma foldl_visitCard_all shown cs : forall done n mc,
  exists mc',
    foldl (visitCard shown) (done, n, mc) cs
    = (done ++ (showCard shown <$> cs),
       n + Z.of_nat (length (List.filter shown cs)), mc')
    /\ forall m,
         default 0 (mc' !! m)
         = default 0 (mc !! m)
           + Z.of_nat (length (List.filter (fun c => shown c && inMonth m c) cs)).
Proof.
  induction cs as [|c cs IH]; intros done n mc.
  - exists mc. cbn [foldl fmap list_fmap List.filter length].
    rewrite app_nil_r, Z.add_0_r. split; [done|]. intros m. lia.
  - change (foldl (visitCard shown) (done, n, mc) (c :: cs))
      with (foldl (visitCard shown) (visitCard shown (done, n, mc) c) cs).
    rewrite fmap_cons. cbn [List.filter].
    assert (Hstep : visitCard shown (done, n, mc) c
                    = if shown c then
                        (done ++ [set_card_display display_default c], n + 1,
                         match monthGroup c with
                         | Some m => <[m := default 0 (mc !! m) + 1]> mc
                         | None => mc
                         end)
                      else (done ++ [set_card_display display_none c], n, mc))
      by done.
    rewrite Hstep. clear Hstep.
    destruct (shown c) eqn:Hc.
    + destruct (IH (done ++ [set_card_display display_default c]) (n + 1)
                  (match monthGroup c with
                   | Some m => <[m := default 0 (mc !! m) + 1]> mc
                   | None => mc
                   end)) as (mc' & -> & Hmc).
      exists mc'. split.
      * rewrite <- app_assoc. cbn [length app]. unfold showCard at 2.
        rewrite Hc. do 2 f_equal. lia.
      * intros m. rewrite Hmc. unfold inMonth. cbn [andb].
        destruct (monthGroup c) as [m'|] eqn:Hm.
        -- destruct (decide (m' = m)) as [->|Hne].
           ++ rewrite lookup_insert_eq, bool_decide_eq_true_2 by done.
              cbn [default from_option id length]. lia.
           ++ rewrite lookup_insert_ne by done.
              rewrite bool_decide_eq_false_2 by congruence. done.
        -- rewrite bool_decide_eq_false_2 by done. done.
    + destruct (IH (done ++ [set_card_display display_none c]) n mc)
        as (mc' & -> & Hmc).
      exists mc'. split.
      * rewrite <- app_assoc. cbn [app]. unfold showCard at 2.
        by rewrite Hc.
      * intros m. rewrite Hmc. done.
Qed.

(** [filterChats] in closed form. *)
Lemma applyFilter_eq shown w :
  applyFilter shown w
  = let n := Z.of_nat (length (List.filter shown (cards w))) in
    set_filtered (showCard shown <$> cards w)
      ((fun g =>
          groupWith
            (Z.of_nat (length (List.filter
                                 (fun c => shown c && inMonth (month g) c)
                                 (cards w)))) g)
         <$> monthGroups w)
      ((fun _ => n) <$> visibleCount w)
      ((fun _ => if n =? 0 then display_default else display_none)
         <$> emptyState w)
      w.
Proof.
  unfold applyFilter.
  destruct (foldl_visitCard_all shown (cards w) [] 0 ∅) as (mc & -> & Hmc).
  cbv zeta. cbn [app]. rewrite Z.add_0_l. f_equal.
  apply list_fmap_ext. intros i g _.
  rewrite visitGroup_groupWith, Hmc, lookup_empty. done.
Qed.

Lemma onScreen_showCard shown c : onScreen (showCard shown c) = shown c.
Proof. unfold onScreen, showCard. by destruct (shown c). Qed.

Lemma inMonth_showCard shown m c : inMonth m (showCard shown c) = inMonth m c.
Proof. done. Qed.

Lemma filter_fmap {A B} (p : B -> bool) (f : A -> B) (l : list A) :
  List.filter p (f <$> l) = f <$> List.filter (fun x => p (f x)) l.
Proof.
  induction l as [|x l IH]; [done|].
  rewrite fmap_cons. cbn [List.filter]. destruct (p (f x)); [|done].
  by rewrite fmap_cons, IH.
Qed.

Lemma length_filter_ext {A} (p q : A -> bool) (l : list A) :
  (forall x, p x = q x) -> length (List.filter p l) = length (List.filter q l).
Proof. intros H. by rewrite (List.filter_ext p q H). Qed.

(** The displayed cards after the filter, by the test. *)
Lemma displayed_count shown cs :
  length (List.filter onScreen (showCard shown <$> cs))
  = length (List.filter shown cs).
Proof.
  rewrite filter_fmap, length_fmap. apply length_filter_ext.
  intros c. apply onScreen_showCard.
Qed.

Lemma displayed_in_month shown m cs :
  length (List.filter (fun c => onScreen c && inMonth m c) (showCard shown <$> cs))
  = length (List.filter (fun c => shown c && inMonth m c) cs).
Proof.
  rewrite filter_fmap, length_fmap. apply length_filter_ext.
  intros c. by rewrite onScreen_showCard, inMonth_showCard.
Qed.

Section Parse.
Variable parse : string -> option Z.
Variable toLowerCase : string -> string.

(** Each script applies its test. *)
Lemma filterChatsOf_eq s w :
  filterChatsOf parse toLowerCase s w = applyFilter (shownOf parse toLowerCase s w) w.
Proof. by destruct s. Qed.

(** The test reads neither the display of the card nor what the
    filter writes. *)
Lemma shownOf_frame s w f c :
  shownOf parse toLowerCase s w (showCard f c) = shownOf parse toLowerCase s w c
  /\ shownOf parse toLowerCase s (applyFilter f w) c = shownOf parse toLowerCase s w c.
Proof. rewrite applyFilter_eq. by destruct s. Qed.

(** X16: after [filterChats], in each of the three scripts, the
    number written to [#visible-count] is the number of cards left
    displayed, [#empty-state] is shown exactly when that number is 0,
    and every card has the display [''] or ['none']. *)
Theorem filterChats_readouts s w :
  let w' := filterChatsOf parse toLowerCase s w in
  let n := Z.of_nat (length (List.filter onScreen (cards w'))) in
  visibleCount w' = (fun _ => n) <$> visibleCount w
  /\ emptyState w'
     = (fun _ => if n =? 0 then display_default else display_none)
         <$> emptyState w
  /\ length (cards w') = length (cards w)
  /\ Forall (fun c => card_display c = display_default
                      \/ card_display c = display_none) (cards w').
Proof.
  cbv zeta. rewrite filterChatsOf_eq, applyFilter_eq. cbv zeta.
  cbn [visibleCount emptyState cards set_filtered].
  rewrite displayed_count, length_fmap. split_and!; try done.
  apply Forall_forall. intros c Hc.
  apply list_elem_of_fmap in Hc as (c0 & -> & _).
  unfold showCard. destruct (shownOf parse toLowerCase s w c0); [by left|by right].
Qed.

(** X17: after [filterChats] a month group is displayed exactly
    when one of its cards is, and then its count is the number of its
    displayed cards; the count of a hidden group is left as it
    was. *)
Theorem filterChats_month_groups s w :
  let w' := filterChatsOf parse toLowerCase s w in
  monthGroups w'
  = (fun g =>
       groupWith
         (Z.of_nat (length (List.filter
                              (fun c => onScreen c && inMonth (month g) c)
                              (cards w')))) g)
      <$> monthGroups w.
Proof.
  cbv zeta. rewrite filterChatsOf_eq, applyFilter_eq. cbv zeta.
  cbn [monthGroups cards set_filtered].
  apply list_fmap_ext. intros i g _. by rewrite displayed_in_month.
Qed.

Lemma applyFilter_ext f g w :
  (forall c, f c = g c) -> applyFilter f w = applyFilter g w.
Proof.
  intros H. rewrite !applyFilter_eq. cbv zeta.
  rewrite (List.filter_ext f g H).
  assert (showCard f <$> cards w = showCard g <$> cards w) as ->.
  { apply list_fmap_ext. intros i c _. unfold showCard. by rewrite H. }
  f_equal. apply list_fmap_ext. intros i grp _. f_equal. f_equal. f_equal.
  apply List.filter_ext. intros c. by rewrite H.
Qed.

Lemma groupWith_twice n g : groupWith n (groupWith n g) = groupWith n g.
Proof.
  unfold groupWith. destruct (0 <? n) eqn:Hn; cbn [month month_count]; [|done].
  by destruct (month_count g).
Qed.

Lemma month_groupWith n g : month (groupWith n g) = month g.
Proof. unfold groupWith. by destruct (0 <? n). Qed.

(** Filtering a filtered page with a test that agrees with the first
    one. *)
Lemma applyFilter_twice f f' w :
  (forall c, f' (showCard f c) = f c) ->
  applyFilter f' (applyFilter f w) = applyFilter f w.
Proof.
  intros H. rewrite (applyFilter_eq f' (applyFilter f w)).
  rewrite (applyFilter_eq f w). cbv zeta.
  cbn [cards monthGroups visibleCount emptyState set_filtered].
  assert (Hcards : showCard f' <$> (showCard f <$> cards w)
                   = showCard f <$> cards w).
  { rewrite <- list_fmap_compose. apply list_fmap_ext. intros i c _.
    cbn [compose]. unfold showCard at 1. rewrite H. unfold showCard.
    by destruct (f c). }
  assert (Hn : length (List.filter f' (showCard f <$> cards w))
               = length (List.filter f (cards w))).
  { rewrite filter_fmap, length_fmap. by apply length_filter_ext. }
  assert (Hm : forall m,
             length (List.filter (fun c => f' c && inMonth m c)
                       (showCard f <$> cards w))
             = length (List.filter (fun c => f c && inMonth m c) (cards w))).
  { intros m. rewrite filter_fmap, length_fmap. apply length_filter_ext.
    intros c. by rewrite H, inMonth_showCard. }
  rewrite Hcards, Hn.
  assert (Hgroups :
            (fun g => groupWith
                        (Z.of_nat (length (List.filter
                                             (fun c => f' c && inMonth (month g) c)
                                             (showCard f <$> cards w)))) g)
              <$> ((fun g => groupWith
                               (Z.of_nat (length (List.filter
                                                    (fun c => f c && inMonth (month g) c)
                                                    (cards w)))) g)
                     <$> monthGroups w)
            = (fun g => groupWith
                          (Z.of_nat (length (List.filter
                                               (fun c => f c && inMonth (month g) c)
                                               (cards w)))) g)
                <$> monthGroups w).
  { rewrite <- list_fmap_compose. apply list_fmap_ext. intros i g _.
    cbn [compose]. by rewrite Hm, month_groupWith, groupWith_twice. }
  rewrite Hgroups.
  destruct (visibleCount w), (emptyState w); done.
Qed.

Lemma filterChatsOf_twice s w :
  filterChatsOf parse toLowerCase s (filterChatsOf parse toLowerCase s w) = filterChatsOf parse toLowerCase s w.
Proof.
  rewrite (filterChatsOf_eq s (filterChatsOf parse toLowerCase s w)).
  rewrite (filterChatsOf_eq s w).
  apply applyFilter_twice. intros c.
  destruct (shownOf_frame s w (shownOf parse toLowerCase s w)
              (showCard (shownOf parse toLowerCase s w) c)) as [_ ->].
  by destruct (shownOf_frame s w (shownOf parse toLowerCase s w) c) as [-> _].
Qed.

(** X18: [filterChats] is idempotent, in each of the three
    scripts. *)
Theorem filterChats_idempotent s w :
  filterChatsOf parse toLowerCase s (filterChatsOf parse toLowerCase s w) = filterChatsOf parse toLowerCase s w.
Proof. apply filterChatsOf_twice. Qed.

(** The tests of the scripts agree where the extra ones are off. *)
Lemma shown_without_range w c :
  dateRangeStart w = None -> dateRangeEnd w = None ->
  ExplorerJs.shown parse toLowerCase w c = PlainExplorer.shown toLowerCase w c.
Proof.
  intros Hs He. unfold ExplorerJs.shown, PlainExplorer.shown, matchesDateRange.
  rewrite Hs, He. cbn. by rewrite andb_true_r.
Qed.

Lemma shown_with_warmup w c :
  ignoreWarmup w = false ->
  DetailExplorer.shown parse toLowerCase w c = ExplorerJs.shown parse toLowerCase w c.
Proof.
  intros Hw. unfold DetailExplorer.shown, ExplorerJs.shown.
  rewrite Hw. cbn. by rewrite andb_true_r.
Qed.

(** X19: the scripts filter alike where their extra tests are off:
    with no date range set, [filterChats] of [public/js/explorer.js]
    does what the script without the slider does; with the warmup
    filter off, the script with the detail panel does what
    [public/js/explorer.js] does. *)
Theorem filterChats_variants_agree w :
  (dateRangeStart w = None -> dateRangeEnd w = None ->
   ExplorerJs.filterChats parse toLowerCase w = PlainExplorer.filterChats toLowerCase w)
  /\ (ignoreWarmup w = false ->
      DetailExplorer.filterChats parse toLowerCase w = ExplorerJs.filterChats parse toLowerCase w).
Proof.
  split.
  - intros Hs He. apply applyFilter_ext. intros c. by apply shown_without_range.
  - intros Hw. apply applyFilter_ext. intros c. by apply shown_with_warmup.
Qed.

End Parse.

Section Folder.
Import ListenerFacts.
(** The zone with the fixed offset of [tz] minutes. *)
Variable tz : Z.
Variable parse : string -> option Z.
Variable toLowerCase : string -> string.

Lemma set_dateRange_twice a b w :
  set_dateRange None None (set_dateRange a b w) = set_dateRange None None w.
Proof. done. Qed.

(** Clearing the range before or after the folder is marked. *)
Lemma folder_then_range path w :
  set_dateRange None None
    (ExplorerJs.updateBreadcrumb path
       (markFolder path (set_currentFolder path w)))
  = ExplorerJs.updateBreadcrumb path
      (markFolder path (set_currentFolder path (set_dateRange None None w))).
Proof.
  unfold ExplorerJs.updateBreadcrumb, markFolder.
  cbn [breadcrumb set_folderItems set_currentFolder set_dateRange].
  by destruct (breadcrumb w).
Qed.

Lemma no_range_after_folder path w :
  let w' := ExplorerJs.updateBreadcrumb path
              (markFolder path
                 (set_currentFolder path (set_dateRange None None w))) in
  dateRangeStart w' = None /\ dateRangeEnd w' = None
  /\ set_dateRange None None w' = w'.
Proof.
  unfold ExplorerJs.updateBreadcrumb, markFolder.
  cbn [breadcrumb set_folderItems set_currentFolder set_dateRange].
  by destruct (breadcrumb w).
Qed.

(** X20: in [public/js/explorer.js], on a page whose slider has no
    listener or the explorer's own, [selectFolder] leaves the page as
    the script without the slider leaves it once the date range is
    cleared: the slider's call of the listener and the second
    [filterChats] change nothing more. *)
Theorem selectFolder_as_plain path updateUrl win :
  ownListener parse toLowerCase win ->
  exists win',
    ExplorerJs.selectFolder tz parse toLowerCase path updateUrl win = Some win'
    /\ world win'
       = PlainExplorer.selectFolder toLowerCase path updateUrl
           (set_dateRange None None (world win))
    /\ dateRangeStart (world win') = None /\ dateRangeEnd (world win') = None.
Proof.
  intros Hown. unfold ExplorerJs.selectFolder, PlainExplorer.selectFolder.
  rewrite folder_then_range.
  destruct (no_range_after_folder path (world win)) as (Hs & He & Hclr).
  set (w0 := ExplorerJs.updateBreadcrumb path _) in *.
  assert (Hplain : ExplorerJs.filterChats parse toLowerCase w0 = PlainExplorer.filterChats toLowerCase w0).
  { apply applyFilter_ext. intros c. by apply shown_without_range. }
  assert (Hrange : forall w1, dateRangeStart w1 = None -> dateRangeEnd w1 = None ->
            forall u, let w2 := (if updateUrl then pushState u w1 else w1) in
            dateRangeStart (if innerWidth w2 <=? 600 then closeSidebar w2 else w2) = None
            /\ dateRangeEnd (if innerWidth w2 <=? 600 then closeSidebar w2 else w2) = None).
  { intros w1 H1 H2 u. cbv zeta.
    destruct updateUrl;
      match goal with |- context [if ?b then _ else _] => destruct b end; done. }
  assert (Hfiltered : dateRangeStart (PlainExplorer.filterChats toLowerCase w0) = None
                      /\ dateRangeEnd (PlainExplorer.filterChats toLowerCase w0) = None).
  { unfold PlainExplorer.filterChats.
    destruct (applyFilter_frame (PlainExplorer.shown toLowerCase w0) w0)
      as (_ & _ & -> & -> & _). done. }
  unfold ownListener in Hown. destruct (slider win) as [st|].
  - destruct (filterByFolder_state tz parse (Some path) st w0)
      as (st' & -> & Hsel & _ & Hcb).
    cbn [mbind option_bind fst snd].
    assert (Hnote : ExplorerJs.filterChats parse toLowerCase
                      (TimeSlider.notifyRangeChange tz st' w0)
                    = PlainExplorer.filterChats toLowerCase w0).
    { destruct Hown as [Hnone|Hsome].
      - unfold TimeSlider.notifyRangeChange. rewrite Hcb, Hnone. exact Hplain.
      - rewrite (notifyRangeChange_cleared tz st' w0 (ExplorerJs.rangeListener parse toLowerCase))
          by congruence.
        unfold ExplorerJs.rangeListener. rewrite Hclr.
        change (ExplorerJs.filterChats parse toLowerCase (ExplorerJs.filterChats parse toLowerCase w0))
          with (filterChatsOf parse toLowerCase explorer_js (filterChatsOf parse toLowerCase explorer_js w0)).
        rewrite (filterChatsOf_twice parse toLowerCase explorer_js w0). exact Hplain. }
    rewrite Hnote. eexists. split; [reflexivity|]. cbn [world].
    split; [done|]. apply Hrange; apply Hfiltered.
  - cbn [mbind option_bind]. rewrite Hplain.
    eexists. split; [reflexivity|]. cbn [world].
    split; [done|]. apply Hrange; apply Hfiltered.
Qed.

End Folder.
End CardListFacts.
(** ** Calls of [selectChat] that do not overlap *)

Module PanelFacts.
Import JSDate JSString Page DetailExplorer Notions Measures ChatFacts.

(** The panel while the chat is loading. *)
Lemma selectChat_panel projectDir chatId updateUrl w :
  let w' := (selectChat projectDir chatId updateUrl w).1 in
  selectedChatId w' = Some (chatKey projectDir chatId)
  /\ cards w'
     = (fun c => set_card_active (isChat projectDir chatId c) c) <$> cards w
  /\ console w' = console w
  /\ location w'
     = (if updateUrl
        then {| url_folder := url_folder (location w);
                url_chat := Some (chatKey projectDir chatId) |}
        else location w)
  /\ history w'
     = (if updateUrl
        then history w ++ [{| url_folder := url_folder (location w);
                              url_chat := Some (chatKey projectDir chatId) |}]
        else history w).
Proof.
  unfold selectChat. fold (chatKey projectDir chatId).
  destruct updateUrl; cbn;
    destruct (chatCache w !! chatKey projectDir chatId); done.
Qed.

(** The rendered messages carry the positions and the roles of the
    messages of the chat. *)
Lemma renderMessage_ids_roles (msgs : list Message) :
  msg_id <$> imap renderMessage msgs = seq 0 (length msgs)
  /\ msg_role <$> imap renderMessage msgs = role <$> msgs.
Proof.
  split; apply list_eq; intros i;
    rewrite !list_lookup_fmap, list_lookup_imap;
    destruct (msgs !! i) as [m|] eqn:Hm; simpl; try done.
  - apply lookup_lt_Some in Hm. by rewrite lookup_seq_lt.
  - apply lookup_ge_None in Hm. by rewrite lookup_seq_ge.
Qed.

(** X21: a call of [selectChat] that runs alone, on a page whose
    placeholder has its text element, returns; it makes no request for
    a cached chat and one request otherwise; it ends with the loader
    hidden and either the chat shown (the content displayed as flex,
    one rendered message for each message of the chat, numbered from 0
    and with its role) and the placeholder hidden, when the chat was
    cached or the server answered with it, or the placeholder shown
    with "Failed to load chat", the content hidden, one error logged
    and the cache as it was; each of this where the page has the
    element. *)
Theorem selectChat_alone_outcome projectDir chatId updateUrl server w :
  placeholderComplete w ->
  let r := selectChat_alone projectDir chatId updateUrl server w in
  let d := panel w in
  let d' := panel r.1.1 in
  r.1.2 = returned
  /\ r.2 = match chatCache w !! chatKey projectDir chatId with
           | Some _ => []
           | None => [chatUrl projectDir chatId]
           end
  /\ detailLoading d' = (fun _ => display_none) <$> detailLoading d
  /\ match chatFor server w projectDir chatId with
     | Some data =>
         detailContent d' = (fun _ => display_flex) <$> detailContent d
         /\ detailEmpty d'
            = (fun e => (display_none, e.2)) <$> detailEmpty d
         /\ (fun ms => (msg_id <$> ms, msg_role <$> ms)) <$> detailMessages d'
            = (fun _ => (seq 0 (length (chat_messages data)),
                         role <$> chat_messages data)) <$> detailMessages d
         /\ chatCache r.1.1 !! chatKey projectDir chatId = Some data
         /\ console r.1.1 = console w
     | None =>
         detailContent d' = (fun _ => display_none) <$> detailContent d
         /\ detailEmpty d'
            = (fun _ => (display_flex, Some "Failed to load chat"%string))
                <$> detailEmpty d
         /\ chatCache r.1.1 = chatCache w
         /\ exists error, console r.1.1 = console w ++ [error]
     end.
Proof.
  unfold placeholderComplete, selectChat_alone, chatFor, selectChat.
  rewrite !chatUrl_key. fold (chatKey projectDir chatId).
  destruct w as [cf stm drs dre sid cc iw cs mg vc es fi bc so si
                 [de dc dl dt dp dn dk dd dm] loc hist width con].
  cbn [panel detailEmpty chatCache]. intros Hp.
  destruct (cc !! chatKey projectDir chatId) as [data|] eqn:Hk.
  - destruct (renderMessage_ids_roles (chat_messages data)) as [Hids Hroles].
    destruct updateUrl; cbn; rewrite Hk; cbn;
      destruct de as [[? ?]|], dc, dl, dm; cbn; rewrite ?Hids, ?Hroles;
      split_and!; done.
  - destruct updateUrl; cbn; rewrite Hk; cbn;
      destruct (server _) as [| | |data]; cbn;
      try destruct (renderMessage_ids_roles (chat_messages data)) as [Hids Hroles];
      destruct de as [[? [?|]]|], dc, dl, dm; cbn;
      rewrite ?lookup_insert_eq, ?Hids, ?Hroles; split_and!; try done; by eexists.
Qed.

(** One call leaves what the cache holds. *)
Lemma selectChat_alone_keeps projectDir chatId updateUrl server w :
  chatCache w ⊆ chatCache (selectChat_alone projectDir chatId updateUrl server w).1.1.
Proof.
  destruct (chatCache w !! chatKey projectDir chatId) as [data|] eqn:Hk.
  - destruct (selectChat_alone_cached projectDir chatId updateUrl server w data Hk)
      as (w' & -> & Hc & _).
    cbn [fst]. by rewrite Hc.
  - destruct (selectChat_miss projectDir chatId updateUrl w Hk) as (w1 & Hsel & Hc & Hid).
    unfold selectChat_alone. rewrite Hsel. cbn [fst].
    destruct (server (chatUrl projectDir chatId)) eqn:Hs;
      unfold settle; cbn [fetchSettled fst].
    + by rewrite loadFailed_cache, Hc.
    + by rewrite loadFailed_cache, Hc.
    + unfold jsonSettled. by rewrite loadFailed_cache, Hc.
    + unfold jsonSettled. rewrite Hid. cbn [fst].
      destruct (renderChatDetail_cache data
                  (set_chatCache (<[chatKey projectDir chatId:=data]> (chatCache w1)) w1))
        as [-> _].
      cbn [chatCache set_chatCache]. rewrite Hc.
      by apply insert_subseteq.
Qed.

Lemma runAlone_keeps server calls : forall w,
  chatCache w ⊆ chatCache (runAlone server calls w).
Proof.
  induction calls as [|[[pd cid] u] calls IH]; intros w; [done|].
  etrans; [|apply IH]. apply selectChat_alone_keeps.
Qed.

(** X22: calls of [selectChat] that do not overlap never remove or
    replace an entry of the cache. *)
Theorem cache_only_grows server calls w k data :
  chatCache w !! k = Some data ->
  chatCache (runAlone server calls w) !! k = Some data.
Proof.
  intros Hk. by apply (lookup_weaken _ _ _ _ Hk), runAlone_keeps.
Qed.

(** A call that is answered with the chat, or finds it stored, leaves
    it stored. *)
Lemma selectChat_alone_answered projectDir chatId updateUrl server w data :
  cacheSound server w ->
  server (chatUrl projectDir chatId) = json data ->
  chatCache (selectChat_alone projectDir chatId updateUrl server w).1.1
    !! chatKey projectDir chatId = Some data.
Proof.
  intros Hsound Hs.
  destruct (chatCache w !! chatKey projectDir chatId) as [data'|] eqn:Hk.
  - destruct (selectChat_alone_cached projectDir chatId updateUrl server w data' Hk)
      as (w' & -> & Hc & _).
    cbn [fst]. rewrite Hc, Hk. f_equal.
    pose proof (Hsound _ _ Hk) as Hd. rewrite <- chatUrl_key, Hs in Hd.
    by injection Hd.
  - destruct (selectChat_alone_stores projectDir chatId updateUrl server w data Hk Hs)
      as (w' & -> & Hc).
    cbn [fst]. rewrite Hc. apply lookup_insert_eq.
Qed.

(** X23: after calls of [selectChat] that do not overlap, starting
    from a cache that agrees with the server, every chat that was called
    for and that the server answers with is in the cache under its own
    key. *)
Theorem answered_chats_stay_cached server calls w projectDir chatId updateUrl data :
  cacheSound server w ->
  (projectDir, chatId, updateUrl) ∈ calls ->
  server (chatUrl projectDir chatId) = json data ->
  chatCache (runAlone server calls w) !! chatKey projectDir chatId = Some data.
Proof.
  intros Hsound Hin Hs. revert w Hsound.
  induction calls as [|[[pd cid] u] calls IH]; intros w Hsound.
  - by apply elem_of_nil in Hin.
  - apply elem_of_cons in Hin as [[= <- <- <-]|Hin].
    + change (runAlone server ((projectDir, chatId, updateUrl) :: calls) w)
        with (runAlone server calls
                (selectChat_alone projectDir chatId updateUrl server w).1.1).
      apply (lookup_weaken (chatCache
                              (selectChat_alone projectDir chatId updateUrl server w).1.1)).
      * by apply selectChat_alone_answered.
      * apply runAlone_keeps.
    + change (runAlone server ((pd, cid, u) :: calls) w)
        with (runAlone server calls (selectChat_alone pd cid u server w).1.1).
      apply IH; [done|]. by apply selectChat_alone_sound.
Qed.

End PanelFacts.
(** ** The theme, the stored context and the loading of the page *)

Module LoadingFacts.
Import JSDate JSString Page Notions Measures Loading FilterFacts CardListFacts.

(** *** The theme *)

Lemma applyTheme_spec theme p :
  let q := Theme.applyTheme theme p in
  Theme.dataTheme q = Some theme
  /\ Theme.stored q = Theme.stored p
  /\ Theme.toggleInput q = Theme.toggleInput p
  /\ (is_Some (Theme.darkIcon p) -> is_Some (Theme.lightIcon p) ->
      Theme.lightIcon q = Some (String.eqb theme "light")
      /\ Theme.darkIcon q = Some (negb (String.eqb theme "light"))).
Proof.
  destruct p as [st dt ti di li]. unfold Theme.applyTheme.
  cbn [Theme.darkIcon Theme.lightIcon Theme.stored Theme.toggleInput].
  destruct di as [a|], li as [b|], (String.eqb theme "light");
    cbn [Theme.dataTheme Theme.stored Theme.toggleInput Theme.darkIcon
         Theme.lightIcon negb];
    split_and!; try done; by intros [? ?] [? ?].
Qed.

Lemma initTheme_spec p :
  let theme := Theme.savedTheme p in
  let q := Theme.initTheme p in
  Theme.dataTheme q = Some theme
  /\ Theme.stored q = Theme.stored p
  /\ Theme.toggleInput q
     = (fun _ => String.eqb theme "light") <$> Theme.toggleInput p
  /\ (is_Some (Theme.darkIcon p) -> is_Some (Theme.lightIcon p) ->
      Theme.lightIcon q = Some (String.eqb theme "light")
      /\ Theme.darkIcon q = Some (negb (String.eqb theme "light"))).
Proof.
  cbv zeta. unfold Theme.initTheme.
  destruct (applyTheme_spec (Theme.savedTheme p) p) as (Hd & Hs & Ht & Hi).
  cbv zeta in Hd, Hs, Ht, Hi. rewrite Ht.
  destruct (Theme.toggleInput p) as [c|];
    cbn [Theme.dataTheme Theme.stored Theme.toggleInput Theme.darkIcon
         Theme.lightIcon fmap option_fmap option_map];
    split_and!; done.
Qed.

(** X24: the theme chosen with [toggleTheme] survives a reload:
    [toggleTheme] stores "light" for a checked toggle and "dark"
    otherwise, and on a page that finds this value in [localStorage]
    [initTheme] sets [data-theme] to it, sets the toggle as it was left
    and, where both icons exist, marks the icon of the theme and only
    that one. *)
Theorem theme_survives_reload p fresh :
  Theme.stored fresh = Theme.stored (Theme.toggleTheme p) ->
  let chosen := Theme.newTheme p in
  let checked := default false (Theme.toggleInput p) in
  let q := Theme.initTheme fresh in
  chosen = (if checked then "light" else "dark")%string
  /\ Theme.dataTheme (Theme.toggleTheme p) = Some chosen
  /\ Theme.dataTheme q = Some chosen
  /\ Theme.stored q = Some chosen
  /\ Theme.toggleInput q = (fun _ => checked) <$> Theme.toggleInput fresh
  /\ (is_Some (Theme.darkIcon fresh) -> is_Some (Theme.lightIcon fresh) ->
      Theme.lightIcon q = Some checked
      /\ Theme.darkIcon q = Some (negb checked)).
Proof.
  intros Hst. cbv zeta.
  destruct (applyTheme_spec (Theme.newTheme p) p) as (Hd & _).
  assert (Hstored : Theme.stored fresh = Some (Theme.newTheme p)) by (by rewrite Hst).
  assert (Hchosen : Theme.newTheme p
                    = (if default false (Theme.toggleInput p) then "light" else "dark")%string).
  { unfold Theme.newTheme. by destruct (Theme.toggleInput p) as [[|]|]. }
  assert (Hsaved : Theme.savedTheme fresh = Theme.newTheme p).
  { unfold Theme.savedTheme. rewrite Hstored, Hchosen.
    by destruct (default false (Theme.toggleInput p)). }
  assert (Hlight : String.eqb (Theme.newTheme p) "light"
                   = default false (Theme.toggleInput p)).
  { rewrite Hchosen. by destruct (default false (Theme.toggleInput p)). }
  destruct (initTheme_spec fresh) as (Hd' & Hs' & Ht' & Hi').
  cbv zeta in Hd', Hs', Ht', Hi'. rewrite Hsaved, ?Hlight in *.
  split_and!; try done.
  by rewrite Hs'.
Qed.

(** *** The stored context *)

Section Stored.
Variable parse : string -> option Z.
Variable toISOString : Z -> string.

(** X25: a date range saved by [saveNavigationContext] comes back
    with [restoreNavigationContext], for dates that [new Date] reads
    back from their ISO text: the start is restored, the end is
    restored or null when it was null or invalid, the stored item is
    removed and the saved scroll position, when it is not 0, is
    scheduled; the saved folder is not restored and the cards are
    not touched. *)
Theorem navigation_context_round_trip b fresh s :
  returnContext fresh = returnContext (saveNavigationContext toISOString b) ->
  dateRangeStart (world (window b)) = Some (Some s) ->
  truthy (toISOString s) = true -> parse (toISOString s) = Some s ->
  (forall e, dateRangeEnd (world (window b)) = Some (Some e) ->
             truthy (toISOString e) = true /\ parse (toISOString e) = Some e) ->
  let r := restoreNavigationContext parse fresh in
  dateRangeStart (world (window r)) = Some (Some s)
  /\ dateRangeEnd (world (window r))
     = match dateRangeEnd (world (window b)) with
       | Some (Some e) => Some (Some e)
       | _ => None
       end
  /\ returnContext r = None
  /\ scheduledScroll r
     = (if scrollY b =? 0 then scheduledScroll fresh else Some (scrollY b))
  /\ currentFolder (world (window r)) = currentFolder (world (window fresh))
  /\ cards (world (window r)) = cards (world (window fresh)).
Proof.
  intros Hctx Hs Hts Hps He. cbv zeta.
  unfold restoreNavigationContext. rewrite Hctx.
  unfold saveNavigationContext.
  cbn [returnContext ctx_scrollY ctx_start ctx_end]. rewrite Hs.
  cbn [dateToJSON dateOrNull]. rewrite Hts, Hps.
  cbn [window world returnContext scheduledScroll dateRangeStart dateRangeEnd
       set_dateRange currentFolder cards].
  split_and!; try done.
  destruct (dateRangeEnd (world (window b))) as [[e|]|]; try done.
  destruct (He e eq_refl) as [Hte Hpe].
  cbn [dateToJSON dateOrNull]. by rewrite Hte, Hpe.
Qed.

(** X26: [restoreNavigationContext] uses the stored item once: the
    item is removed unless it is the empty text, a second call
    changes nothing, the theme is not touched, and a text that
    cannot be read leaves the window and the scroll position alone
    and logs one error. *)
Theorem restoreNavigationContext_consumes b :
  let r := restoreNavigationContext parse b in
  restoreNavigationContext parse r = r
  /\ returnContext r
     = match returnContext b with
       | Some empty_text => Some empty_text
       | _ => None
       end
  /\ theme r = theme b
  /\ restoreErrors r
     = match returnContext b with
       | Some not_json => S (restoreErrors b)
       | _ => restoreErrors b
       end
  /\ match returnContext b with
     | Some (saved _) => True
     | _ => window r = window b /\ scheduledScroll r = scheduledScroll b
     end.
Proof.
  cbv zeta.
  destruct (returnContext b) as [[| |c]|] eqn:Hc;
    match goal with
    | |- context [restoreNavigationContext parse b] =>
        let r := fresh "r" in
        let Hr := fresh "Hr" in
        remember (restoreNavigationContext parse b) as r eqn:Hr;
        unfold restoreNavigationContext in Hr; rewrite Hc in Hr; subst r
    end;
    unfold restoreNavigationContext; cbn [returnContext]; rewrite ?Hc; done.
Qed.

End Stored.

(** *** The address of a chat *)

Lemma pieces_whole sep s : contains sep s = false -> pieces sep s = (s, []).
Proof.
  induction s as [|a s IH]; [done|]. cbn [contains pieces].
  destruct (Ascii.eqb a sep); [done|]. cbn [orb]. intros H. by rewrite (IH H).
Qed.

Lemma split_two sep p c :
  contains sep p = false -> contains sep c = false ->
  splitOn sep (p +:+ String sep c) = [p; c].
Proof.
  intros Hp Hc. unfold splitOn.
  assert (pieces sep (p +:+ String sep c) = (p, [c])) as ->; [|done].
  induction p as [|a p IH].
  - change ("" +:+ String sep c)%string with (String sep c). simpl pieces.
    by rewrite (pieces_whole sep c Hc), Ascii.eqb_refl.
  - cbn [contains] in Hp.
    change (String a p +:+ String sep c)%string with (String a (p +:+ String sep c)).
    simpl pieces. destruct (Ascii.eqb a sep); [done|]. by rewrite (IH Hp).
Qed.

Lemma truthy_chatKey p c : truthy (chatKey p c) = true.
Proof. unfold chatKey. by destruct p. Qed.

Section Detail.
Import TimeSlider ListenerFacts DetailExplorer ChatFacts.
(** The zone with the fixed offset of [tz] minutes. *)
Variable tz : Z.
Variable parse : string -> option Z.
Variable toLowerCase : string -> string.

(** The folder of the address is selected before any listener is
    registered: the slider gets the folder, the explorer keeps its
    chat and its cache. *)
Lemma selectFolder_at_load path win :
  noListener win ->
  exists win',
    DetailExplorer.selectFolder tz parse toLowerCase path false win = Some win'
    /\ noListener win'
    /\ chatCache (world win') = chatCache (world win)
    /\ selectedChatId (world win') = selectedChatId (world win)
    /\ location (world win') = location (world win).
Proof.
  unfold noListener, DetailExplorer.selectFolder. intros Hno.
  set (w0 := set_dateRange None None _).
  destruct (slider win) as [st|].
  - destruct (filterByFolder_state tz parse (Some path) st w0)
      as (st' & -> & _ & _ & Hcb).
    cbn [mbind option_bind fst snd].
    unfold notifyRangeChange. rewrite Hcb, Hno.
    eexists. split; [reflexivity|]. cbn [world slider].
    split; [congruence|].
    unfold DetailExplorer.filterChats. rewrite applyFilter_eq.
    destruct (innerWidth _ <=? 600); done.
  - cbn [mbind option_bind]. eexists. split; [reflexivity|].
    cbn [world slider]. split; [done|].
    unfold DetailExplorer.filterChats. rewrite applyFilter_eq.
    destruct (innerWidth _ <=? 600); done.
Qed.

(** X27: the address [selectChat] pushes reopens the chat: for a
    project directory and a chat id that are not empty and contain no
    slash, [init] on a page loaded at that address selects the same
    chat, marks its card and requests it, or shows it from the cache
    when it is there. *)
Theorem permalink_reopens_chat p c w b :
  truthy p = true -> truthy c = true ->
  contains "/" p = false -> contains "/" c = false ->
  noListener (window b) ->
  location (world (window b)) = location (selectChat p c true w).1 ->
  exists b',
    init_detail tz parse toLowerCase b
    = Some (b', match chatCache (world (window b)) !! chatKey p c with
                | Some _ => returned
                | None => awaits_fetch (chatUrl p c)
                end)
    /\ selectedChatId (world (window b')) = Some (chatKey p c)
    /\ Forall (fun card => card_active card = isChat p c card)
         (cards (world (window b'))).
Proof.
  intros Hp Hc Hsp Hsc Hno Hloc.
  destruct (PanelFacts.selectChat_panel p c true w) as (_ & _ & _ & Hl & _).
  cbv zeta in Hl. rewrite Hl in Hloc. clear Hl.
  unfold init_detail. cbn [set_theme window]. rewrite Hloc.
  cbn [url_folder url_chat].
  assert (Hfolder :
            exists win,
              match url_folder (location w) with
              | Some folderParam =>
                  if truthy folderParam
                  then DetailExplorer.selectFolder tz parse toLowerCase folderParam false (window b)
                  else Some (window b)
              | None => Some (window b)
              end = Some win
              /\ chatCache (world win) = chatCache (world (window b))).
  { destruct (url_folder (location w)) as [f|]; [|by eexists].
    destruct (truthy f); [|by eexists].
    destruct (selectFolder_at_load f (window b) Hno) as (win & -> & _ & Hcc & _).
    by exists win. }
  destruct Hfolder as (win & -> & Hcc). cbn [mbind option_bind].
  assert (Hsplit : splitOn "/" (chatKey p c) = [p; c])
    by exact (split_two "/" p c Hsp Hsc).
  rewrite truthy_chatKey, Hsplit, Hp, Hc. cbn [andb].
  rewrite <- Hcc.
  destruct (selectChat p c false (world win)) as [w1 progress] eqn:Hsel.
  assert (Hw1 : selectedChatId w1 = Some (chatKey p c)
                /\ cards w1
                   = (fun card => set_card_active (isChat p c card) card)
                       <$> cards (world win)).
  { destruct (PanelFacts.selectChat_panel p c false (world win)) as (H1 & H2 & _).
    cbv zeta in H1, H2. by rewrite Hsel in H1, H2. }
  assert (Hprogress : progress
                      = match chatCache (world win) !! chatKey p c with
                        | Some _ => returned
                        | None => awaits_fetch (chatUrl p c)
                        end).
  { destruct (chatCache (world win) !! chatKey p c) as [data|] eqn:Hk.
    - destruct (selectChat_hit p c false (world win) data Hk) as (w' & Hs' & _).
      rewrite Hsel in Hs'. by injection Hs'.
    - destruct (selectChat_miss p c false (world win) Hk) as (w' & Hs' & _).
      rewrite Hsel in Hs'. by injection Hs'. }
  rewrite Hprogress. eexists. split; [reflexivity|].
  cbn [window set_window world].
  assert (Hconnect : world (DetailExplorer.connectTimeSlider parse toLowerCase
                              {| world := w1; slider := slider win |}) = w1).
  { unfold DetailExplorer.connectTimeSlider. cbn [slider world].
    by destruct (slider win). }
  rewrite Hconnect. unfold DetailExplorer.filterChats. rewrite applyFilter_eq.
  cbn [selectedChatId cards set_filtered]. destruct Hw1 as [-> ->].
  split; [done|]. apply Forall_forall. intros card Hin.
  apply list_elem_of_fmap in Hin as (card1 & -> & Hin).
  apply list_elem_of_fmap in Hin as (card0 & -> & _). done.
Qed.

End Detail.

(** *** [init] of [public/js/explorer.js] *)

Section Explorer.
Import TimeSlider SelectionFacts ListenerFacts.
(** The zone with the fixed offset of [tz] minutes. *)
Variable tz : Z.
Variable parse : string -> option Z.
Variable toLowerCase : string -> string.

Lemma selectFolder_total path updateUrl win :
  is_Some (ExplorerJs.selectFolder tz parse toLowerCase path updateUrl win).
Proof.
  unfold ExplorerJs.selectFolder.
  set (w0 := set_dateRange None None _).
  destruct (slider win) as [st|]; [|by eexists].
  destruct (filterByFolder_state tz parse (Some path) st w0) as (st' & -> & _).
  by eexists.
Qed.

(** Registering the listener and handing the range to the slider
    leaves the explorer as it is. *)
Lemma connectTimeSlider_world win :
  world (ExplorerJs.connectTimeSlider tz parse toLowerCase win) = world win.
Proof.
  unfold ExplorerJs.connectTimeSlider.
  destruct (slider win) as [st|]; [|done].
  destruct (dateRangeStart (world win)) as [startTime|] eqn:Hs; [|done].
  destruct (setSelection_state tz
              (onRangeChange (ExplorerJs.rangeListener parse toLowerCase) st)
              (world win) startTime (dateRangeEnd (world win)))
    as (_ & _ & _ & _ & Hw).
  cbv zeta in Hw.
  destruct (setSelection tz (Some startTime) (dateRangeEnd (world win))
              (onRangeChange (ExplorerJs.rangeListener parse toLowerCase) st) (world win))
    as [st' w'].
  done.
Qed.

Lemma connectTimeSlider_selection win st startTime :
  slider win = Some st ->
  dateRangeStart (world win) = Some startTime ->
  exists st',
    slider (ExplorerJs.connectTimeSlider tz parse toLowerCase win) = Some st'
    /\ buckets st' = buckets st
    /\ selectionStart st' = Some (startIndex startTime (buckets st))
    /\ onRangeChangeCallback st' = Some (ExplorerJs.rangeListener parse toLowerCase).
Proof.
  intros Hsl Hs. unfold ExplorerJs.connectTimeSlider. rewrite Hsl, Hs.
  destruct (setSelection_state tz
              (onRangeChange (ExplorerJs.rangeListener parse toLowerCase) st)
              (world win) startTime (dateRangeEnd (world win)))
    as (Hb & Hss & _ & Hcb & _).
  cbv zeta in Hb, Hss, Hcb.
  destruct (setSelection tz (Some startTime) (dateRangeEnd (world win))
              (onRangeChange (ExplorerJs.rangeListener parse toLowerCase) st) (world win))
    as [st' w'].
  exists st'. done.
Qed.

Lemma restoreNavigationContext_window b :
  let r := restoreNavigationContext parse b in
  slider (window r) = slider (window b)
  /\ cards (world (window r)) = cards (world (window b))
  /\ monthGroups (world (window r)) = monthGroups (world (window b))
  /\ visibleCount (world (window r)) = visibleCount (world (window b))
  /\ forall c s,
       returnContext b = Some (saved c) -> ctx_start c = Some s ->
       truthy s = true ->
       dateRangeStart (world (window r)) = Some (parse s).
Proof.
  cbv zeta. unfold restoreNavigationContext.
  destruct (returnContext b) as [[| |c]|]; split_and!; try done.
  - cbn [window world]. by destruct (dateOrNull parse (ctx_start c)).
  - cbn [window world]. by destruct (dateOrNull parse (ctx_start c)).
  - cbn [window world]. by destruct (dateOrNull parse (ctx_start c)).
  - intros c' s [= <-] Hs Ht. cbn [window world]. rewrite Hs.
    cbn [dateOrNull]. by rewrite Ht.
Qed.

(** X28: in [public/js/explorer.js], a date range found in the
    stored context reaches the explorer's variables and the slider,
    which marks the matching bars, and not the cards: after [init]
    the cards, the month groups and the count are those of [init]
    with nothing stored. *)
Theorem stored_range_reaches_slider_only b :
  exists b1 b0,
    init_explorer tz parse toLowerCase b = Some b1
    /\ init_explorer tz parse toLowerCase (withoutContext b) = Some b0
    /\ cards (world (window b1)) = cards (world (window b0))
    /\ monthGroups (world (window b1)) = monthGroups (world (window b0))
    /\ visibleCount (world (window b1)) = visibleCount (world (window b0))
    /\ forall c s,
         returnContext b = Some (saved c) -> ctx_start c = Some s ->
         truthy s = true ->
         dateRangeStart (world (window b1)) = Some (parse s)
         /\ forall st,
              slider (window b1) = Some st ->
              selectionStart st = Some (startIndex (parse s) (buckets st)).
Proof.
  unfold init_explorer. cbn [set_theme window withoutContext theme].
  assert (Hfolder :
            exists win,
              match url_folder (location (world (window b))) with
              | Some folderParam =>
                  if truthy folderParam
                  then ExplorerJs.selectFolder tz parse toLowerCase folderParam false (window b)
                  else Some (window b)
              | None => Some (window b)
              end = Some win).
  { destruct (url_folder _) as [f|]; [|by eexists].
    destruct (truthy f); [|by eexists]. apply selectFolder_total. }
  destruct Hfolder as [win ->]. cbn [mbind option_bind].
  eexists _, _. split; [reflexivity|]. split; [reflexivity|].
  cbn [window set_window]. rewrite !connectTimeSlider_world.
  set (b2 := set_window win (set_theme (Theme.initTheme (theme b)) b)).
  destruct (restoreNavigationContext_window b2) as (Hsl & Hc & Hm & Hv & Hr).
  cbv zeta in Hsl, Hc, Hm, Hv, Hr.
  set (r := restoreNavigationContext parse b2) in *.
  assert (Hnone : restoreNavigationContext parse
                    (set_window win
                       (set_theme (Theme.initTheme (theme b)) (withoutContext b)))
                  = set_window win
                      (set_theme (Theme.initTheme (theme b)) (withoutContext b)))
    by done.
  rewrite Hnone. cbn [window set_window] in *.
  split_and!; try done.
  intros c s Hctx Hs Ht. specialize (Hr c s Hctx Hs Ht).
  split; [done|]. intros st Hst.
  destruct (slider (window r)) as [st'|] eqn:Hsl'.
  - destruct (connectTimeSlider_selection (window r) st' (parse s) Hsl' Hr)
      as (st1 & Hst1 & Hb & Hsel & _).
    rewrite Hst1 in Hst. injection Hst as <-. by rewrite Hb.
  - unfold ExplorerJs.connectTimeSlider in Hst. rewrite Hsl' in Hst.
    congruence.
Qed.

End Explorer.

End LoadingFacts.

(** * Examples, witnesses and counterexamples *)

Import JSDate Notions Samples Measures MoreSamples.

Example parseISO_date_only : parseISO "2024-01-01" = Some 1704067200000.
Proof. vm_compute. reflexivity. Qed.

Example parseISO_date_time :
  parseISO "2024-03-10T12:30:00.250Z" = Some 1710073800250.
Proof. vm_compute. reflexivity. Qed.

Example parseISO_garbage : parseISO "not-a-date" = None.
Proof. vm_compute. reflexivity. Qed.

Example isoDateString_of_time :
  isoDateString (toISODate 1710073800250) = "2024-03-10"%string.
Proof. vm_compute. reflexivity. Qed.

(** The two conversations 69 days apart, in a browser on UTC: eleven weekly
    buckets, the first and the last with one conversation each, the nine
    between them empty. *)
Example processData_twoMonths :
  (fun b => (isoDateString (TimeSlider.key b), TimeSlider.conversations b,
             TimeSlider.messages b, TimeSlider.granularity b))
    <$> default [] (TimeSlider.processData 0 parseISO twoMonths)
  = [("2023-12-31", 1, 5, TimeSlider.week); ("2024-01-07", 0, 0, TimeSlider.week);
     ("2024-01-14", 0, 0, TimeSlider.week); ("2024-01-21", 0, 0, TimeSlider.week);
     ("2024-01-28", 0, 0, TimeSlider.week); ("2024-02-04", 0, 0, TimeSlider.week);
     ("2024-02-11", 0, 0, TimeSlider.week); ("2024-02-18", 0, 0, TimeSlider.week);
     ("2024-02-25", 0, 0, TimeSlider.week); ("2024-03-03", 0, 0, TimeSlider.week);
     ("2024-03-10", 1, 2, TimeSlider.week)]%string.
Proof. vm_compute. reflexivity. Qed.

(** In a browser on UTC the morning conversation is counted in the bucket
    of its day. *)
Example processData_oneMorning_utc :
  TimeSlider.processData 0 parseISO oneMorning
  = Some [{| TimeSlider.date := 1704067200000; TimeSlider.key := 19723;
             TimeSlider.conversations := 1; TimeSlider.messages := 5;
             TimeSlider.granularity := TimeSlider.day |}].
Proof. vm_compute. reflexivity. Qed.

(** C9: in a browser two hours east of UTC.  The conversation of
    2024-01-01T10:00:00Z lies in the only bucket, the local day that starts
    at 2023-12-31T22:00:00Z; the bucket has the key 2023-12-31 and the
    conversation the key 2024-01-01, so the bucket keeps its count of
    zero.  And the weekly key of 2024-01-06T22:30:00Z, a local Sunday, is
    2024-01-06, a Saturday. *)
Theorem getBucketKey_east_of_utc :
  parseISO "2024-01-01T10:00:00Z" = Some 1704103200000
  /\ TimeSlider.processData 120 parseISO oneMorning
     = Some [{| TimeSlider.date := 1704060000000; TimeSlider.key := 19722;
                TimeSlider.conversations := 0; TimeSlider.messages := 0;
                TimeSlider.granularity := TimeSlider.day |}]
  /\ 1704060000000 <= 1704103200000 < 1704060000000 + width TimeSlider.day
  /\ TimeSlider.getBucketKey 120 1704103200000 TimeSlider.day = 19723
  /\ isoDateString 19722 = "2023-12-31"%string
  /\ isoDateString 19723 = "2024-01-01"%string
  /\ parseISO "2024-01-06T22:30:00Z" = Some 1704580200000
  /\ getDay 120 1704580200000 = 0
  /\ TimeSlider.getBucketKey 120 1704580200000 TimeSlider.week = 19728
  /\ isoDateString 19728 = "2024-01-06"%string
  /\ ~ isSunday 19728.
Proof.
  split_and!; try (vm_compute; reflexivity);
    vm_compute; intros H; discriminate H.
Qed.

(** The clock changes of [london2024] are at 01:00 UTC, and 31 March 2024
    has 23 hours there: its local midnight and the next are 82800000 ms
    apart. *)
Example london2024_clock_changes :
  parseISO "2024-03-31T01:00:00Z" = Some 1711846800000
  /\ parseISO "2024-10-27T01:00:00Z" = Some 1729990800000
  /\ parseISO "2024-03-31T00:00:00Z" = Some 1711843200000
  /\ addDays london2024 1711843200000 1 = 1711843200000 + 82800000
  /\ addDays london2024 (1711843200000 + 82800000) 1
     = 1711843200000 + 82800000 + msPerDay
  /\ setHours_23_59_59_999 london2024 1711843200000
     = 1711843200000 + 82799999.
Proof. split_and!; vm_compute; reflexivity. Qed.

(** C2: in Europe/London, with conversations of 30 March and of 2 April
    2024, three days apart.  The loop of [createBuckets] goes through the
    midnights of the four local days from 30 March to 2 April.  The clocks
    go forward on 31 March, so the midnights of 31 March and of 1 April
    are 23 hours apart and lie on the same UTC day: both buckets get the
    key 2024-03-31 and the second is written over the first.
    [processData] returns three daily buckets, and none for 31 March. *)
Theorem processData_skips_a_day :
  TimeSlider.validDates parseISO aroundClockChange = [1711800000000; 1712059200000]
  /\ localDay london2024 1711800000000 = 19812
  /\ localDay london2024 1712059200000 = 19815
  /\ turnDates london2024 parseISO aroundClockChange
     = [1711756800000; 1711843200000; 1711926000000; 1712012400000]
  /\ localDay london2024 <$> turnDates london2024 parseISO aroundClockChange
     = [19812; 19813; 19814; 19815]
  /\ isoDateString 19813 = "2024-03-31"%string
  /\ TimeSlider.getBucketKey london2024 1711843200000 TimeSlider.day = 19813
  /\ TimeSlider.getBucketKey london2024 1711926000000 TimeSlider.day = 19813
  /\ TimeSlider.processData london2024 parseISO aroundClockChange
     = Some [{| TimeSlider.date := 1711756800000; TimeSlider.key := 19812;
                TimeSlider.conversations := 1; TimeSlider.messages := 5;
                TimeSlider.granularity := TimeSlider.day |};
             {| TimeSlider.date := 1711926000000; TimeSlider.key := 19813;
                TimeSlider.conversations := 0; TimeSlider.messages := 0;
                TimeSlider.granularity := TimeSlider.day |};
             {| TimeSlider.date := 1712012400000; TimeSlider.key := 19814;
                TimeSlider.conversations := 0; TimeSlider.messages := 0;
                TimeSlider.granularity := TimeSlider.day |}]
  /\ localDay london2024
       <$> (TimeSlider.date
              <$> default [] (TimeSlider.processData london2024 parseISO
                                aroundClockChange))
     = [19812; 19814; 19815].
Proof. split_and!; vm_compute; reflexivity. Qed.


(** Witness of C1: the first card of the sample page, dated 2 January
    2024 and searched for "PARSER".  With the date range of 1 and 2
    January it stays displayed; with the range of 1 January alone it is
    hidden, by both scripts. *)
Lemma filterChats_visible_iff_witness :
  Page.searchTerm (Page.set_searchTerm "parser" rangedPage)
  = JSString.toLowerCaseASCII "PARSER"
  /\ Page.cards (Page.set_searchTerm "parser" rangedPage) !! 0%nat
     = Some (card "p" "Fix the Parser" "2024-01-02" false "a")
  /\ Page.searchTerm (Page.set_searchTerm "parser" firstDayPage)
     = JSString.toLowerCaseASCII "PARSER"
  /\ Page.cards (Page.set_searchTerm "parser" firstDayPage) !! 0%nat
     = Some (card "p" "Fix the Parser" "2024-01-02" false "a")
  /\ (exists c',
        Page.cards (ExplorerJs.filterChats parseISO JSString.toLowerCaseASCII
                      (Page.set_searchTerm "parser" rangedPage)) !! 0%nat = Some c'
        /\ Page.card_display c' = display_default)
  /\ (exists c',
        Page.cards (DetailExplorer.filterChats parseISO JSString.toLowerCaseASCII
                      (Page.set_searchTerm "parser" rangedPage)) !! 0%nat = Some c'
        /\ Page.card_display c' = display_default)
  /\ (exists c',
        Page.cards (ExplorerJs.filterChats parseISO JSString.toLowerCaseASCII
                      (Page.set_searchTerm "parser" firstDayPage)) !! 0%nat = Some c'
        /\ Page.card_display c' = display_none)
  /\ (exists c',
        Page.cards (DetailExplorer.filterChats parseISO JSString.toLowerCaseASCII
                      (Page.set_searchTerm "parser" firstDayPage)) !! 0%nat = Some c'
        /\ Page.card_display c' = display_none).
Proof.
  split; [reflexivity|]. split; [reflexivity|].
  split; [reflexivity|]. split; [reflexivity|].
  destruct (FilterFacts.filterChats_visible_iff parseISO JSString.asciiLowerCase
              (Page.set_searchTerm "parser" rangedPage) "PARSER" 0
              (card "p" "Fix the Parser" "2024-01-02" false "a") eq_refl eq_refl)
    as [(c1 & Hc1 & _ & Hv1 & _) (c2 & Hc2 & _ & Hv2 & _)].
  destruct (FilterFacts.filterChats_visible_iff parseISO JSString.asciiLowerCase
              (Page.set_searchTerm "parser" firstDayPage) "PARSER" 0
              (card "p" "Fix the Parser" "2024-01-02" false "a") eq_refl eq_refl)
    as [(c3 & Hc3 & _ & _ & Hh3) (c4 & Hc4 & _ & _ & Hh4)].
  assert (Hsearch : searchPasses JSString.toLowerCaseASCII "PARSER"
                      (card "p" "Fix the Parser" "2024-01-02" false "a")).
  { right. left. exists "fix the "%string, ""%string. reflexivity. }
  assert (Hin : datePasses (dateOf parseISO (card "p" "Fix the Parser" "2024-01-02" false "a"))
                  (Page.dateRangeStart (Page.set_searchTerm "parser" rangedPage))
                  (Page.dateRangeEnd (Page.set_searchTerm "parser" rangedPage))).
  { split; intros ? H; injection H as <-; vm_compute; intros H'; discriminate H'. }
  assert (Hout : ~ datePasses (dateOf parseISO (card "p" "Fix the Parser" "2024-01-02" false "a"))
                     (Page.dateRangeStart (Page.set_searchTerm "parser" firstDayPage))
                     (Page.dateRangeEnd (Page.set_searchTerm "parser" firstDayPage))).
  { intros [_ He]. specialize (He 1704153599999 eq_refl). vm_compute in He.
    apply He. reflexivity. }
  split; [|split; [|split]].
  - exists c1. split; [exact Hc1|]. apply Hv1.
    split; [left; reflexivity|]. split; [exact Hsearch|exact Hin].
  - exists c2. split; [exact Hc2|]. apply Hv2. split; [|intros _ H; discriminate H].
    split; [left; reflexivity|]. split; [exact Hsearch|exact Hin].
  - exists c3. split; [exact Hc3|]. apply Hh3. intros (_ & _ & Hd). exact (Hout Hd).
  - exists c4. split; [exact Hc4|]. apply Hh4. intros [(_ & _ & Hd) _]. exact (Hout Hd).
Defined.

(** The two conversations 69 days apart, in a browser on UTC. *)
Lemma processData_span_witness :
  1704067200000 ∈ TimeSlider.validDates parseISO twoMonths
  /\ 1710028800000 ∈ TimeSlider.validDates parseISO twoMonths
  /\ (forall t, t ∈ TimeSlider.validDates parseISO twoMonths ->
        1704067200000 <= t <= 1710028800000)
  /\ exists bs start n,
       TimeSlider.processData 0 parseISO twoMonths = Some bs
       /\ Forall (fun b => TimeSlider.granularity b = TimeSlider.week) bs
       /\ TimeSlider.date <$> bs = starts TimeSlider.week start (S n).
Proof.
  assert (Hv : TimeSlider.validDates parseISO twoMonths
               = [1704067200000; 1710028800000]) by (vm_compute; reflexivity).
  assert (H1 : 1704067200000 ∈ TimeSlider.validDates parseISO twoMonths)
    by (rewrite Hv; left).
  assert (H2 : 1710028800000 ∈ TimeSlider.validDates parseISO twoMonths)
    by (rewrite Hv; right; left).
  assert (H3 : forall t, t ∈ TimeSlider.validDates parseISO twoMonths ->
                         1704067200000 <= t <= 1710028800000).
  { rewrite Hv. intros t Ht.
    apply elem_of_cons in Ht as [->|Ht]; [lia|].
    apply list_elem_of_singleton in Ht as ->. lia. }
  split; [exact H1|]. split; [exact H2|]. split; [exact H3|].
  destruct (TimeSliderFacts.processData_span 0 parseISO twoMonths _ _ H1 H2 H3)
    as (bs & start & n & Hp & Hg & Hd & _).
  exists bs, start, n. split; [exact Hp|]. split; [exact Hg|exact Hd].
Defined.

(** Counterexample to C3: the second card of the sample page has the date
    "not-a-date"; with a date range set, [filterChats] leaves it visible,
    on both pages. *)
Lemma filterChats_keeps_unparseable_card :
  Page.dateRangeStart rangedPage = Some (Some 1704067200000)
  /\ Page.dateRangeEnd rangedPage = Some (Some 1704239999999)
  /\ Page.date <$> Page.cards rangedPage !! 1%nat = Some (Some "not-a-date"%string)
  /\ Page.cardDate parseISO (Some "not-a-date"%string) = None
  /\ Page.card_display
       <$> Page.cards (ExplorerJs.filterChats parseISO JSString.toLowerCaseASCII rangedPage) !! 1%nat
     = Some display_default
  /\ Page.card_display
       <$> Page.cards (DetailExplorer.filterChats parseISO JSString.toLowerCaseASCII rangedPage) !! 1%nat
     = Some display_default.
Proof. split_and!; vm_compute; reflexivity. Qed.

(** Witness of C3 as amended: the same card. *)
Lemma filterChats_unparseable_date_witness :
  Page.searchTerm rangedPage = JSString.toLowerCaseASCII ""
  /\ Page.cards rangedPage !! 1%nat = Some (card "p" "Notes" "not-a-date" false "b")
  /\ Page.cardDate parseISO (Page.date (card "p" "Notes" "not-a-date" false "b")) = None
  /\ exists c',
       Page.cards (ExplorerJs.filterChats parseISO JSString.toLowerCaseASCII rangedPage) !! 1%nat = Some c'
       /\ Page.card_display c' = display_default.
Proof.
  split; [reflexivity|]. split; [reflexivity|]. split; [vm_compute; reflexivity|].
  destruct (FilterFacts.filterChats_unparseable_date parseISO JSString.asciiLowerCase
              rangedPage "" 1
              (card "p" "Notes" "not-a-date" false "b") eq_refl eq_refl eq_refl)
    as [(c' & Hc & Hv) _].
  exists c'. split; [exact Hc|]. apply Hv.
  split; left; reflexivity.
Defined.

(** Counterexample to C4: three daily buckets, of 1, 2 and 3 January 2024.
    The request from noon of 1 January to noon of 2 January lies within
    them, and the pair returned starts at midnight of 2 January, after the
    start of the request. *)
Lemma setSelection_getSelection_starts_late :
  TimeSlider.date <$> TimeSlider.buckets (@sliderOn unit threeDays)
  = [1704067200000; 1704153600000; 1704240000000]
  /\ TimeSlider.getSelection
       (TimeSlider.setSelection 0 (Some (Some 1704110400000))
          (Some (Some 1704196800000)) (@sliderOn unit threeDays) tt).1
     = Some (Some 1704153600000, Some 1704240000000)
  /\ 1704067200000 <= 1704110400000
  /\ ~ 1704153600000 <= 1704110400000.
Proof. split_and!; try (vm_compute; reflexivity); lia. Qed.

(** Witness of C4 as amended: the same buckets and request. *)
Lemma setSelection_getSelection_first_witness :
  TimeSlider.buckets (@sliderOn unit threeDays) <> []
  /\ 1704110400000 <= default 1704110400000 (Some 1704196800000)
  /\ exists d1 d2,
       TimeSlider.getSelection
         (TimeSlider.setSelection 0 (Some (Some 1704110400000))
            (Some <$> Some 1704196800000) (@sliderOn unit threeDays) tt).1
       = Some (Some d1, Some d2).
Proof.
  assert (H1 : TimeSlider.buckets (@sliderOn unit threeDays) <> [])
    by (vm_compute; intros H; discriminate H).
  assert (H2 : 1704110400000 <= default 1704110400000 (Some 1704196800000))
    by (vm_compute; intros H; discriminate H).
  split; [exact H1|]. split; [exact H2|].
  destruct (SelectionFacts.setSelection_getSelection_first 0
              (@sliderOn unit threeDays) tt 1704110400000 (Some 1704196800000) H1 H2)
    as (i & j & b1 & b2 & _ & _ & _ & Hg & _).
  exists (TimeSlider.date b1), (TimeSlider.date b2). exact Hg.
Defined.

(** Counterexample to C5: on the three daily buckets, [setSelection] with
    the later date first stores the indices 2 and 0; and on an empty bucket
    list it stores 0 and -1. *)
Lemma setSelection_out_of_order :
  (length (TimeSlider.buckets (@sliderOn unit threeDays)) = 3%nat
   /\ TimeSlider.selectionStart
        (TimeSlider.setSelection 0 (Some (Some 1704240000000))
           (Some (Some 1704067200000)) (@sliderOn unit threeDays) tt).1 = Some 2
   /\ TimeSlider.selectionEnd
        (TimeSlider.setSelection 0 (Some (Some 1704240000000))
           (Some (Some 1704067200000)) (@sliderOn unit threeDays) tt).1 = Some 0
   /\ ~ (0 <= 2 <= 0 /\ 0 < 3))
  /\ (length (TimeSlider.buckets (@sliderOn unit [])) = 0%nat
      /\ TimeSlider.selectionStart
           (TimeSlider.setSelection 0 (Some (Some 1704067200000)) None
              (@sliderOn unit []) tt).1 = Some 0
      /\ TimeSlider.selectionEnd
           (TimeSlider.setSelection 0 (Some (Some 1704067200000)) None
              (@sliderOn unit []) tt).1 = Some (-1)
      /\ ~ (0 <= 0 <= -1 /\ -1 < 0)).
Proof. split; split_and!; try (vm_compute; reflexivity); lia. Qed.

(** Witness of C5 as amended: a drag from bar 2 back to bar 0, and
    [setSelection] with its dates in order. *)
Lemma selection_in_order_witness :
  0 <= 2 < Z.of_nat (length (TimeSlider.buckets (@sliderOn unit threeDays)))
  /\ Forall (onBar (@sliderOn unit threeDays)) [Some 1; None; Some 0]
  /\ TimeSlider.buckets (@sliderOn unit threeDays) <> []
  /\ inOrder (Some 1704110400000) (Some 1704196800000)
  /\ (exists a b,
        TimeSlider.selectionStart
          (TimeSlider.handleMouseUp 0
             (foldl (fun s m => TimeSlider.handleMouseMove m s)
                (TimeSlider.handleMouseDown (Some 2) (@sliderOn unit threeDays))
                [Some 1; None; Some 0]) tt).1 = Some a
        /\ TimeSlider.selectionEnd
             (TimeSlider.handleMouseUp 0
                (foldl (fun s m => TimeSlider.handleMouseMove m s)
                   (TimeSlider.handleMouseDown (Some 2) (@sliderOn unit threeDays))
                   [Some 1; None; Some 0]) tt).1 = Some b
        /\ 0 <= a <= b)
  /\ (exists a b,
        TimeSlider.selectionStart
          (TimeSlider.setSelection 0 (Some (Some 1704110400000))
             (Some (Some 1704196800000)) (@sliderOn unit threeDays) tt).1 = Some a
        /\ TimeSlider.selectionEnd
             (TimeSlider.setSelection 0 (Some (Some 1704110400000))
                (Some (Some 1704196800000)) (@sliderOn unit threeDays) tt).1 = Some b
        /\ 0 <= a <= b).
Proof.
  assert (H1 : 0 <= 2 < Z.of_nat (length (TimeSlider.buckets (@sliderOn unit threeDays))))
    by (vm_compute; split; [intros H; discriminate H|reflexivity]).
  assert (H2 : Forall (onBar (@sliderOn unit threeDays)) [Some 1; None; Some 0]).
  { repeat constructor; vm_compute; try reflexivity; intros H; discriminate H. }
  assert (H3 : TimeSlider.buckets (@sliderOn unit threeDays) <> [])
    by (vm_compute; intros H; discriminate H).
  assert (H4 : inOrder (Some 1704110400000) (Some 1704196800000)).
  { intros s e Hs He. injection Hs as <-. injection He as <-. lia. }
  split; [exact H1|]. split; [exact H2|]. split; [exact H3|]. split; [exact H4|].
  destruct (SelectionFacts.selection_in_order (E := unit) 0) as [Hdrag Hset].
  split.
  - destruct (Hdrag (@sliderOn unit threeDays) tt 2 [Some 1; None; Some 0] H1 H2)
      as (a & b & Ha & Hb & Hab & _).
    exists a, b. split; [exact Ha|]. split; [exact Hb|exact Hab].
  - destruct (Hset (@sliderOn unit threeDays) tt (Some 1704110400000)
                (Some (Some 1704196800000)) H3 H4)
      as (a & b & Ha & Hb & Hab & _).
    exists a, b. split; [exact Ha|]. split; [exact Hb|exact Hab].
Defined.

(** Witness of C6: the two sample windows after a drag over the first two
    bars, when two bars are selected and the date range of the page is
    set; then the folder "p" is chosen. *)
Lemma selectFolder_clears_selection_witness :
  (TimeSlider.selectionStart <$> Page.slider draggedDetailWindow = Some (Some 0)
   /\ TimeSlider.selectionEnd <$> Page.slider draggedDetailWindow = Some (Some 1)
   /\ Page.dateRangeStart (Page.world draggedDetailWindow)
      = Some (Some 1704067200000)
   /\ Page.dateRangeEnd (Page.world draggedDetailWindow)
      = Some (Some 1704239999999)
   /\ exists win' st',
        DetailExplorer.selectFolder 0 parseISO JSString.toLowerCaseASCII "p" true
          draggedDetailWindow = Some win'
        /\ Page.slider win' = Some st'
        /\ TimeSlider.selectionStart st' = None
        /\ TimeSlider.selectionEnd st' = None
        /\ Page.dateRangeStart (Page.world win') = None
        /\ Page.dateRangeEnd (Page.world win') = None)
  /\ (TimeSlider.selectionStart <$> Page.slider draggedExplorerWindow = Some (Some 0)
      /\ TimeSlider.selectionEnd <$> Page.slider draggedExplorerWindow = Some (Some 1)
      /\ Page.dateRangeStart (Page.world draggedExplorerWindow)
         = Some (Some 1704067200000)
      /\ Page.dateRangeEnd (Page.world draggedExplorerWindow)
         = Some (Some 1704239999999)
      /\ exists win' st',
           ExplorerJs.selectFolder 0 parseISO JSString.toLowerCaseASCII "p" true
             draggedExplorerWindow = Some win'
           /\ Page.slider win' = Some st'
           /\ TimeSlider.selectionStart st' = None
           /\ TimeSlider.selectionEnd st' = None
           /\ Page.dateRangeStart (Page.world win') = None
           /\ Page.dateRangeEnd (Page.world win') = None).
Proof.
  split.
  - split; [vm_compute; reflexivity|]. split; [vm_compute; reflexivity|].
    split; [vm_compute; reflexivity|]. split; [vm_compute; reflexivity|].
    destruct (FilterFacts.selectFolder_clears_selection 0 parseISO
                JSString.toLowerCaseASCII "p" true draggedDetailWindow _ eq_refl)
      as [Hd _].
    destruct (Hd eq_refl) as (st' & win' & _ & Hsel & Hsl & Hs1 & Hs2 & Hs & He).
    exists win', st'. repeat (split; [assumption|]). assumption.
  - split; [vm_compute; reflexivity|]. split; [vm_compute; reflexivity|].
    split; [vm_compute; reflexivity|]. split; [vm_compute; reflexivity|].
    destruct (FilterFacts.selectFolder_clears_selection 0 parseISO
                JSString.toLowerCaseASCII "p" true draggedExplorerWindow _ eq_refl)
      as [_ Hx].
    destruct (Hx eq_refl) as (st' & win' & _ & Hsel & Hsl & Hs1 & Hs2 & Hs & He).
    exists win', st'. repeat (split; [assumption|]). assumption.
Defined.

(** The first call for a chat on the sample page, whose placeholder has
    its text element, its request rejected. *)
Lemma fetch_failure_shown_witness :
  placeholderComplete afterCallA
  /\ (DetailExplorer.fetchSettled DetailExplorer.rejected afterCallA).2
     = DetailExplorer.returned
  /\ Page.detailEmpty
       (Page.panel (DetailExplorer.fetchSettled DetailExplorer.rejected afterCallA).1)
     = Some (display_flex, Some "Failed to load chat"%string)
  /\ Page.detailLoading
       (Page.panel (DetailExplorer.fetchSettled DetailExplorer.rejected afterCallA).1)
     = Some display_none.
Proof.
  assert (H : placeholderComplete afterCallA) by exact I.
  split; [exact H|].
  destruct (ChatFacts.fetch_failure_shown afterCallA DetailExplorer.rejected H
              (or_introl eq_refl)) as (Hr & _ & [Hl He] & _).
  split; [exact Hr|]. split; [exact He|exact Hl].
Defined.

(** Witness of C10: on the three buckets with a listener that counts its
    calls, a press on a bar and [setSelection] leave the count at 0, and
    clearing the selection makes it 1. *)
Lemma setSelection_is_silent_witness :
  notifying (TimeSlider.mousedown (E := nat) (Some 1)) = false
  /\ TimeSlider.onRangeChangeCallback
       (TimeSlider.onRangeChange (fun _ _ n => S n) (sliderOn threeDays))
     = Some (fun _ _ n => S n)
  /\ (TimeSlider.handleMouseDown (Some 1)
        (TimeSlider.onRangeChange (fun _ _ n => S n) (sliderOn threeDays)),
      0%nat).2 = 0%nat
  /\ (TimeSlider.setSelection 0 (Some (Some 1704110400000)) None
        (TimeSlider.onRangeChange (fun _ _ n => S n) (sliderOn threeDays)) 0%nat).2
     = 0%nat
  /\ (TimeSlider.clearSelection 0
        (TimeSlider.onRangeChange (fun _ _ n => S n) (sliderOn threeDays)) 0%nat).2
     = 1%nat.
Proof.
  split; [reflexivity|]. split; [reflexivity|].
  destruct (ListenerFacts.setSelection_is_silent 0 parseISO
              (TimeSlider.onRangeChange (fun _ _ n => S n) (sliderOn threeDays)) 0%nat)
    as (Hset & Hquiet & Hloud).
  split; [|split].
  - exact (Hquiet (TimeSlider.mousedown (Some 1)) _ eq_refl eq_refl).
  - destruct (Hset (Some 1704110400000) None) as [Hw _]. exact Hw.
  - destruct (Hloud (fun _ _ n => S n) eq_refl) as [Hclear _]. exact Hclear.
Defined.

(** The same chat chosen twice, each call running alone: the first call
    sends one request and stores the answer, the second sends none and
    shows the stored chat. *)
Example selectChat_twice :
  (DetailExplorer.selectChat_alone "p" "a" true
     (fun _ => DetailExplorer.json (chat "a" "hello")) explorerPage).2
  = [chatUrl "p" "a"]
  /\ (DetailExplorer.selectChat_alone "p" "a" true
        (fun _ => DetailExplorer.network_error)
        (DetailExplorer.selectChat_alone "p" "a" true
           (fun _ => DetailExplorer.json (chat "a" "hello")) explorerPage).1.1).2
     = []
  /\ Page.detailTitle
       (Page.panel
          (DetailExplorer.selectChat_alone "p" "a" true
             (fun _ => DetailExplorer.network_error)
             (DetailExplorer.selectChat_alone "p" "a" true
                (fun _ => DetailExplorer.json (chat "a" "hello")) explorerPage).1.1).1.1)
     = Some "hello"%string.
Proof. split_and!; vm_compute; reflexivity. Qed.

(** * Examples of the further properties *)


(** Witness of X9: on the three daily buckets, a drag from bar 2 back to
    bar 0. *)
Lemma drag_outcome_witness :
  TimeSlider.bucket_at (TimeSlider.buckets (@sliderOn unit threeDays))
    (Z.min 2 (lastBar 2 [Some 1; None; Some 0])) = Some firstDay
  /\ TimeSlider.bucket_at (TimeSlider.buckets (@sliderOn unit threeDays))
       (Z.max 2 (lastBar 2 [Some 1; None; Some 0])) = Some thirdDay
  /\ TimeSlider.getSelection
       (TimeSlider.handleMouseUp 0
          (foldl (fun s m => TimeSlider.handleMouseMove m s)
             (TimeSlider.handleMouseDown (Some 2) (@sliderOn unit threeDays))
             [Some 1; None; Some 0]) tt).1
     = Some (Some 1704067200000, Some 1704240000000).
Proof.
  assert (H1 : TimeSlider.bucket_at (TimeSlider.buckets (@sliderOn unit threeDays))
                 (Z.min 2 (lastBar 2 [Some 1; None; Some 0])) = Some firstDay)
    by (vm_compute; reflexivity).
  assert (H2 : TimeSlider.bucket_at (TimeSlider.buckets (@sliderOn unit threeDays))
                 (Z.max 2 (lastBar 2 [Some 1; None; Some 0])) = Some thirdDay)
    by (vm_compute; reflexivity).
  split; [exact H1|]. split; [exact H2|].
  destruct (GestureFacts.drag_outcome 0 (@sliderOn unit threeDays) tt 2
              [Some 1; None; Some 0] firstDay thirdDay H1 H2) as (Hg & _).
  exact Hg.
Defined.

(** Witness of X10: on the weekly buckets of [twoMonths], a drag from the
    first week to the second; the listener receives Sunday 31 December
    2023 and the end of Sunday 7 January 2024. *)
Lemma notified_range_ends_on_first_day_witness :
  TimeSlider.processData 0 parseISO twoMonths
  = Some (TimeSlider.buckets
            (TimeSlider.onRangeChange lastCall (sliderOn twoMonths)))
  /\ TimeSlider.bucket_at
       (TimeSlider.buckets (TimeSlider.onRangeChange lastCall (sliderOn twoMonths)))
       (Z.min 0 (lastBar 0 [Some 1])) = Some firstWeek
  /\ TimeSlider.bucket_at
       (TimeSlider.buckets (TimeSlider.onRangeChange lastCall (sliderOn twoMonths)))
       (Z.max 0 (lastBar 0 [Some 1])) = Some secondWeek
  /\ (TimeSlider.handleMouseUp 0
        (foldl (fun s m => TimeSlider.handleMouseMove m s)
           (TimeSlider.handleMouseDown (Some 0)
              (TimeSlider.onRangeChange lastCall (sliderOn twoMonths)))
           [Some 1]) None).2
     = Some (Some (Some 1703980800000), Some (Some 1704671999999)).
Proof.
  assert (H0 : TimeSlider.processData 0 parseISO twoMonths
               = Some (TimeSlider.buckets
                         (TimeSlider.onRangeChange lastCall (sliderOn twoMonths))))
    by (vm_compute; reflexivity).
  assert (H1 : TimeSlider.bucket_at
                 (TimeSlider.buckets
                    (TimeSlider.onRangeChange lastCall (sliderOn twoMonths)))
                 (Z.min 0 (lastBar 0 [Some 1])) = Some firstWeek)
    by (vm_compute; reflexivity).
  assert (H2 : TimeSlider.bucket_at
                 (TimeSlider.buckets
                    (TimeSlider.onRangeChange lastCall (sliderOn twoMonths)))
                 (Z.max 0 (lastBar 0 [Some 1])) = Some secondWeek)
    by (vm_compute; reflexivity).
  split; [exact H0|]. split; [exact H1|]. split; [exact H2|].
  exact (GestureFacts.notified_range_ends_on_first_day parseISO 0
           (TimeSlider.onRangeChange lastCall (sliderOn twoMonths)) None twoMonths
           lastCall 0 [Some 1] firstWeek secondWeek H0 eq_refl H1 H2).
Defined.

(** Witness of X14: the slider over [threeDays], filtered by the folder
    "a" and then by no folder. *)
Lemma all_folders_restores_histogram_witness :
  TimeSlider.histogramBars sliderPage = Some TimeSlider.AsServed
  /\ TimeSlider.init 0 parseISO sliderPage (TimeSlider.loaded (Some threeDays))
     = Some (@sliderOn unit threeDays)
  /\ exists st1,
       TimeSlider.filterByFolder 0 parseISO (Some "a"%string)
         (@sliderOn unit threeDays) tt = Some (st1, tt)
       /\ length (TimeSlider.buckets st1) = 2%nat
       /\ exists st2,
            TimeSlider.filterByFolder 0 parseISO None st1 tt
            = Some (st2, TimeSlider.notifyRangeChange 0 st2 tt)
            /\ TimeSlider.buckets st2 = TimeSlider.buckets (@sliderOn unit threeDays).
Proof.
  assert (Hh : TimeSlider.histogramBars sliderPage = Some TimeSlider.AsServed)
    by reflexivity.
  assert (Hinit : TimeSlider.init 0 parseISO sliderPage
                    (TimeSlider.loaded (Some threeDays))
                  = Some (@sliderOn unit threeDays))
    by (vm_compute; reflexivity).
  split; [exact Hh|]. split; [exact Hinit|].
  destruct (TimeSlider.filterByFolder 0 parseISO (Some "a"%string)
              (@sliderOn unit threeDays) tt) as [[st1 []]|] eqn:Hf;
    [|vm_compute in Hf; discriminate Hf].
  exists st1. split; [reflexivity|]. split.
  - vm_compute in Hf. injection Hf as <-. reflexivity.
  - destruct (GestureFacts.all_folders_restores_histogram parseISO 0 sliderPage
                TimeSlider.AsServed threeDays (@sliderOn unit threeDays)
                (Some "a"%string) st1 tt tt None Hh eq_refl Hinit Hf)
      as (st2 & H2 & Hb & _).
    exists st2. split; [exact H2|exact Hb].
Defined.

(** Witness of X19: the sample page with the warmup filter off and no
    date range. *)
Lemma filterChats_variants_agree_witness :
  Page.dateRangeStart (Page.set_ignoreWarmup false explorerPage) = None
  /\ Page.dateRangeEnd (Page.set_ignoreWarmup false explorerPage) = None
  /\ Page.ignoreWarmup (Page.set_ignoreWarmup false explorerPage) = false
  /\ ExplorerJs.filterChats parseISO JSString.toLowerCaseASCII (Page.set_ignoreWarmup false explorerPage)
     = PlainExplorer.filterChats JSString.toLowerCaseASCII (Page.set_ignoreWarmup false explorerPage)
  /\ DetailExplorer.filterChats parseISO JSString.toLowerCaseASCII (Page.set_ignoreWarmup false explorerPage)
     = ExplorerJs.filterChats parseISO JSString.toLowerCaseASCII (Page.set_ignoreWarmup false explorerPage).
Proof.
  split; [reflexivity|]. split; [reflexivity|]. split; [reflexivity|].
  destruct (CardListFacts.filterChats_variants_agree parseISO JSString.toLowerCaseASCII
              (Page.set_ignoreWarmup false explorerPage)) as [Hplain Hwarm].
  split; [exact (Hplain eq_refl eq_refl)|exact (Hwarm eq_refl)].
Defined.

(** Witness of X20: the sample window of [public/js/explorer.js], the
    folder "p". *)
Lemma selectFolder_as_plain_witness :
  ownListener parseISO JSString.toLowerCaseASCII explorerWindow
  /\ exists win',
       ExplorerJs.selectFolder 0 parseISO JSString.toLowerCaseASCII "p" true explorerWindow = Some win'
       /\ Page.world win'
          = PlainExplorer.selectFolder JSString.toLowerCaseASCII "p" true
              (Page.set_dateRange None None explorerPage).
Proof.
  assert (H : ownListener parseISO JSString.toLowerCaseASCII explorerWindow) by (right; reflexivity).
  split; [exact H|].
  destruct (CardListFacts.selectFolder_as_plain 0 parseISO JSString.toLowerCaseASCII "p" true explorerWindow H)
    as (win' & Hs & Hw & _).
  exists win'. split; [exact Hs|exact Hw].
Defined.

(** Witness of X21: on the sample page the chat [p/a], which the server
    answers with, and the chat [p/b], which it does not know. *)
Lemma selectChat_alone_outcome_witness :
  placeholderComplete explorerPage
  /\ Page.detailContent (Page.panel explorerPage) = Some display_none
  /\ Page.detailEmpty (Page.panel explorerPage)
     = Some (display_flex, Some "Select a conversation"%string)
  /\ (let r := DetailExplorer.selectChat_alone "p" "a" true oneChatServer
                 explorerPage in
      r.1.2 = DetailExplorer.returned
      /\ r.2 = [chatUrl "p" "a"]
      /\ Page.detailLoading (Page.panel r.1.1) = Some display_none
      /\ Page.detailContent (Page.panel r.1.1) = Some display_flex
      /\ Page.detailEmpty (Page.panel r.1.1)
         = Some (display_none, Some "Select a conversation"%string))
  /\ (let r := DetailExplorer.selectChat_alone "p" "b" true oneChatServer
                 explorerPage in
      r.1.2 = DetailExplorer.returned
      /\ Page.detailLoading (Page.panel r.1.1) = Some display_none
      /\ Page.detailContent (Page.panel r.1.1) = Some display_none
      /\ Page.detailEmpty (Page.panel r.1.1)
         = Some (display_flex, Some "Failed to load chat"%string)).
Proof.
  assert (H : placeholderComplete explorerPage) by exact I.
  split; [exact H|]. split; [reflexivity|]. split; [reflexivity|]. split.
  - destruct (PanelFacts.selectChat_alone_outcome "p" "a" true oneChatServer
                explorerPage H) as (Hr & Hq & Hl & Hc & He & _).
    split; [exact Hr|]. split; [exact Hq|]. split; [exact Hl|].
    split; [exact Hc|exact He].
  - destruct (PanelFacts.selectChat_alone_outcome "p" "b" true oneChatServer
                explorerPage H) as (Hr & _ & Hl & Hc & He & _).
    split; [exact Hr|]. split; [exact Hl|]. split; [exact Hc|exact He].
Defined.

(** Witness of X22: the cache that holds one chat, and two further calls
    that fail. *)
Lemma cache_only_grows_witness :
  Page.chatCache afterAnswerA !! chatKey "p" "b" = Some (chat "a" "hello")
  /\ Page.chatCache
       (runAlone (fun _ => DetailExplorer.network_error)
          [("p"%string, "a"%string, true); ("p"%string, "b"%string, false)]
          afterAnswerA)
     !! chatKey "p" "b" = Some (chat "a" "hello").
Proof.
  assert (H : Page.chatCache afterAnswerA !! chatKey "p" "b"
              = Some (chat "a" "hello")) by (vm_compute; reflexivity).
  split; [exact H|].
  exact (PanelFacts.cache_only_grows (fun _ => DetailExplorer.network_error)
           [("p"%string, "a"%string, true); ("p"%string, "b"%string, false)]
           afterAnswerA (chatKey "p" "b") (chat "a" "hello") H).
Defined.

(** Witness of X23: on the sample page, whose cache is empty, a call for
    [p/b], which fails, and one for [p/a]. *)
Lemma answered_chats_stay_cached_witness :
  cacheSound oneChatServer explorerPage
  /\ ("p"%string, "a"%string, true)
     ∈ [("p"%string, "b"%string, true); ("p"%string, "a"%string, true)]
  /\ oneChatServer (chatUrl "p" "a") = DetailExplorer.json (chat "a" "hello")
  /\ Page.chatCache
       (runAlone oneChatServer
          [("p"%string, "b"%string, true); ("p"%string, "a"%string, true)]
          explorerPage)
     !! chatKey "p" "a" = Some (chat "a" "hello").
Proof.
  assert (H1 : cacheSound oneChatServer explorerPage).
  { intros k data Hk. cbn in Hk. rewrite lookup_empty in Hk. discriminate Hk. }
  assert (H2 : ("p"%string, "a"%string, true)
               ∈ [("p"%string, "b"%string, true); ("p"%string, "a"%string, true)])
    by (right; left).
  assert (H3 : oneChatServer (chatUrl "p" "a") = DetailExplorer.json (chat "a" "hello"))
    by reflexivity.
  split; [exact H1|]. split; [exact H2|]. split; [exact H3|].
  exact (PanelFacts.answered_chats_stay_cached oneChatServer _ explorerPage
           "p" "a" true (chat "a" "hello") H1 H2 H3).
Defined.

(** Witness of X24: the toggle checked on a dark page, and the page
    served again. *)
Lemma theme_survives_reload_witness :
  Theme.stored reloadedPage = Theme.stored (Theme.toggleTheme toggledPage)
  /\ Theme.dataTheme (Theme.initTheme reloadedPage) = Some "light"%string
  /\ Theme.toggleInput (Theme.initTheme reloadedPage) = Some true
  /\ Theme.lightIcon (Theme.initTheme reloadedPage) = Some true
  /\ Theme.darkIcon (Theme.initTheme reloadedPage) = Some false.
Proof.
  assert (H : Theme.stored reloadedPage = Theme.stored (Theme.toggleTheme toggledPage))
    by reflexivity.
  split; [exact H|].
  destruct (LoadingFacts.theme_survives_reload toggledPage reloadedPage H)
    as (_ & _ & Hd & _ & Ht & Hi).
  destruct (Hi (ex_intro _ false eq_refl) (ex_intro _ false eq_refl)) as [Hl Hk].
  split; [exact Hd|]. split; [exact Ht|]. split; [exact Hl|exact Hk].
Defined.

(** Witness of X25: the range over the first two days of 2024, saved at
    scroll position 120 and read back by [parseISO]. *)
Lemma navigation_context_round_trip_witness :
  Loading.returnContext returningTab
  = Loading.returnContext (Loading.saveNavigationContext Loading.isoString leavingTab)
  /\ Page.dateRangeStart (Page.world (Loading.window leavingTab))
     = Some (Some 1704067200000)
  /\ parseISO (Loading.isoString 1704067200000) = Some 1704067200000
  /\ Page.dateRangeStart
       (Page.world (Loading.window
                      (Loading.restoreNavigationContext parseISO returningTab)))
     = Some (Some 1704067200000)
  /\ Page.dateRangeEnd
       (Page.world (Loading.window
                      (Loading.restoreNavigationContext parseISO returningTab)))
     = Some (Some 1704239999999)
  /\ Loading.scheduledScroll (Loading.restoreNavigationContext parseISO returningTab)
     = Some 120.
Proof.
  assert (H1 : Loading.returnContext returningTab
               = Loading.returnContext
                   (Loading.saveNavigationContext Loading.isoString leavingTab))
    by reflexivity.
  assert (H2 : Page.dateRangeStart (Page.world (Loading.window leavingTab))
               = Some (Some 1704067200000)) by reflexivity.
  assert (H3 : JSString.truthy (Loading.isoString 1704067200000) = true)
    by (vm_compute; reflexivity).
  assert (H4 : parseISO (Loading.isoString 1704067200000) = Some 1704067200000)
    by (vm_compute; reflexivity).
  assert (H5 : forall e,
             Page.dateRangeEnd (Page.world (Loading.window leavingTab)) = Some (Some e) ->
             JSString.truthy (Loading.isoString e) = true
             /\ parseISO (Loading.isoString e) = Some e).
  { intros e He. injection He as <-. split; vm_compute; reflexivity. }
  split; [exact H1|]. split; [exact H2|]. split; [exact H4|].
  destruct (LoadingFacts.navigation_context_round_trip parseISO Loading.isoString
              leavingTab returningTab 1704067200000 H1 H2 H3 H4 H5)
    as (Hs & He & _ & Hscroll & _).
  split; [exact Hs|]. split; [exact He|exact Hscroll].
Defined.

(** Witness of X27: the address pushed for the chat [p/a], and the tab
    opened at it. *)
Lemma permalink_reopens_chat_witness :
  noListener (Loading.window chatTab)
  /\ Page.location (Page.world (Loading.window chatTab))
     = Page.location (DetailExplorer.selectChat "p" "a" true explorerPage).1
  /\ exists b',
       Loading.init_detail 0 parseISO JSString.toLowerCaseASCII chatTab
       = Some (b', DetailExplorer.awaits_fetch (chatUrl "p" "a"))
       /\ Page.selectedChatId (Page.world (Loading.window b'))
          = Some (chatKey "p" "a").
Proof.
  assert (H1 : noListener (Loading.window chatTab)) by reflexivity.
  assert (H2 : Page.location (Page.world (Loading.window chatTab))
               = Page.location (DetailExplorer.selectChat "p" "a" true explorerPage).1)
    by reflexivity.
  split; [exact H1|]. split; [exact H2|].
  destruct (LoadingFacts.permalink_reopens_chat 0 parseISO JSString.toLowerCaseASCII "p" "a" explorerPage
              chatTab eq_refl eq_refl eq_refl eq_refl H1 H2)
    as (b' & Hinit & Hsel & _).
  exists b'. split; [exact Hinit|exact Hsel].
Defined.

(** Witness of X28: the returning tab; its stored range starts on
    1 January 2024. *)
Lemma stored_range_reaches_slider_only_witness :
  exists b1 b0,
    Loading.init_explorer 0 parseISO JSString.toLowerCaseASCII returningTab = Some b1
    /\ Loading.init_explorer 0 parseISO JSString.toLowerCaseASCII (withoutContext returningTab) = Some b0
    /\ Page.cards (Page.world (Loading.window b1))
       = Page.cards (Page.world (Loading.window b0))
    /\ Page.dateRangeStart (Page.world (Loading.window b1))
       = Some (Some 1704067200000).
Proof.
  destruct (LoadingFacts.stored_range_reaches_slider_only 0 parseISO JSString.toLowerCaseASCII returningTab)
    as (b1 & b0 & H1 & H0 & Hc & _ & _ & Hr).
  exists b1, b0. split; [exact H1|]. split; [exact H0|]. split; [exact Hc|].
  destruct (Hr {| Loading.ctx_folder := ""; Loading.ctx_scrollY := 120;
                  Loading.ctx_start := Some "2024-01-01T00:00:00.000Z"%string;
                  Loading.ctx_end := Some "2024-01-02T23:59:59.999Z"%string |}
               "2024-01-01T00:00:00.000Z"%string) as [Hd _];
    [vm_compute; reflexivity|reflexivity|reflexivity|].
  rewrite Hd. vm_compute. reflexivity.
Defined.
